(** * ShadowOS AI engine: a shallow embedding of the decision-and-scoring core

    The TypeScript sources embedded here are
    - [src/intelligence/fraud-detector.ts]   (class [FraudDetector]),
    - [src/intelligence/privacy-adapter.ts]  (class [PrivacyAdapter]),
    - [src/intelligence/payment-optimizer.ts] (class [AIPaymentRouter]),
    - [src/intelligence/reputation-learner.ts] (classes [AIReputationLearner]
      and [ReputationModel]),
    - [src/integration/x402-ai-bridge.ts]    (class [X402AIBridge]),
    - [src/integration/shadowos-intelligence.ts] (class [ShadowOSIntelligence]).

    Data model.  A JavaScript [number] is an IEEE 754 binary64 value and is
    modelled by Rocq's primitive [float], whose operations are the same
    round-to-nearest-even binary64 operations; a [bigint] is a [Z]; a
    [Uint8Array] is a [list byte]; a [Map<string, V>] is a [gmap string V]; a
    [Set<string>] is a [gset string].  Methods that mutate [this] take the
    object's state and return the new one; an object reached through the
    [Map] that stores it is designated by its key.  A call that can raise
    returns a [completion].  [Date.now()] is an argument of the methods that
    read it.  The methods are [async] but await nothing that suspends them, so
    a call is modelled as running to its result. *)

From Stdlib Require Import ZArith Floats.
From Stdlib.Strings Require Import Byte.
From stdpp Require Import gmap strings list.

Set Warnings "-inexact-float".

(** ** JavaScript values and built-ins *)

Module JS.

Definition number := float.
Bind Scope float_scope with number.

Inductive error := TypeError | RangeError.

(** The outcome of evaluating a call: a value, or a raised exception. *)
Inductive completion (A : Type) :=
| Normal (a : A)
| Throw (e : error).
Global Arguments Normal {A} a.
Global Arguments Throw {A} e.

Global Instance completion_ret : MRet completion := λ _ a, Normal a.
Global Instance completion_bind : MBind completion := λ _ _ k c,
  match c with
  | Normal a => k a
  | Throw e => Throw e
  end.

(** [Number(z)] for a bigint [z]: the nearest binary64 value. *)
Definition Number_of_bigint (z : Z) : number :=
  SF2Prim (binary_normalize prec emax z 0 false).

(** [x > y] and [x >= y]; both are false as soon as an operand is NaN. *)
Definition gtb (x y : number) : bool := (y <? x)%float.
Definition geb (x y : number) : bool := (y <=? x)%float.

(** [Math.min] and [Math.max] (NaN if an operand is NaN, and -0 < +0). *)
Definition Math_min (x y : number) : number :=
  if is_nan x || is_nan y then nan
  else if (x <? y)%float then x
  else if (y <? x)%float then y
  else if get_sign x then x else y.

Definition Math_max (x y : number) : number :=
  if is_nan x || is_nan y then nan
  else if (x <? y)%float then y
  else if (y <? x)%float then x
  else if get_sign x then y else x.

Definition Math_abs (x : number) : number := abs x.

(** [Math.pow(x, 2)], taken as [x * x], which is what the fdlibm-derived
    implementations of the engines return for the exponent 2. *)
Definition Math_pow2 (x : number) : number := (x * x)%float.

(** The integer below (resp. above) the finite value [(-1)^s * m * 2^e]. *)
Definition floorZ (s : bool) (m : positive) (e : Z) : Z :=
  Z.shiftl (cond_Zopp s (Z.pos m)) e.
Definition ceilZ (s : bool) (m : positive) (e : Z) : Z :=
  Z.opp (Z.shiftl (cond_Zopp (negb s) (Z.pos m)) e).

Definition signed_zero (s : bool) : number := if s then neg_zero else zero.

Definition Math_floor (x : number) : number :=
  match Prim2SF x with
  | S754_finite s m e =>
      if (0 <=? e)%Z then x
      else let z := floorZ s m e in
           if (z =? 0)%Z then signed_zero s else Number_of_bigint z
  | _ => x
  end.

Definition Math_ceil (x : number) : number :=
  match Prim2SF x with
  | S754_finite s m e =>
      if (0 <=? e)%Z then x
      else let z := ceilZ s m e in
           if (z =? 0)%Z then signed_zero s else Number_of_bigint z
  | _ => x
  end.

(** [BigInt(x)] for a number [x]: a RangeError unless [x] is an integer. *)
Definition BigInt (x : number) : completion Z :=
  match Prim2SF x with
  | S754_zero _ => Normal 0%Z
  | S754_finite s m e =>
      if (0 <=? e)%Z then Normal (floorZ s m e)
      else if (Z.pos m mod 2 ^ (- e) =? 0)%Z then Normal (floorZ s m e)
      else Throw RangeError
  | _ => Throw RangeError
  end.

(** [x || d] for a number [x] that may be [undefined]: [d] replaces
    [undefined], 0 and NaN. *)
Definition number_or (x : option number) (d : number) : number :=
  match x with
  | Some v => if (v =? 0)%float || is_nan v then d else v
  | None => d
  end.

(** [s || d] for an optional string: [d] replaces [undefined] and the
    empty string. *)
Definition string_or (s : option string) (d : string) : string :=
  match s with
  | Some v => if String.eqb v "" then d else v
  | None => d
  end.

(** [array.reduce((a, b) => a + b, 0)] over numbers. *)
Definition sum (l : list number) : number :=
  fold_left (λ a b, (a + b)%float) l 0%float.

(** [array.length] and [set.size] as numbers. *)
Definition Number_of_nat (n : nat) : number := Number_of_bigint (Z.of_nat n).

End JS.

(** ** The hash function imported from [@noble/hashes/sha256]

    The embedding is parametric in it; the properties that need more than
    its being a function assume that its digests have 32 bytes. *)

Class Sha256 := sha256 : list byte → list byte.

(** The value of a byte. *)
Definition byte_Z (b : byte) : Z := Z.of_N (Byte.to_N b).

(** The function itself, after FIPS 180-4, on 32-bit words held in [Z].  It
    is the instance at which the development is run. *)

Module SHA256.

Definition add32 (x y : Z) : Z := ((x + y) mod 2 ^ 32)%Z.
Definition rotr (n x : Z) : Z :=
  Z.lor (Z.shiftr x n) (Z.land (Z.shiftl x (32 - n)) 0xffffffff).
Definition not32 (x : Z) : Z := Z.lxor x 0xffffffff.

Definition Ch (x y z : Z) : Z := Z.lxor (Z.land x y) (Z.land (not32 x) z).
Definition Maj (x y z : Z) : Z :=
  Z.lxor (Z.lxor (Z.land x y) (Z.land x z)) (Z.land y z).
Definition Sigma0 (x : Z) : Z := Z.lxor (Z.lxor (rotr 2 x) (rotr 13 x)) (rotr 22 x).
Definition Sigma1 (x : Z) : Z := Z.lxor (Z.lxor (rotr 6 x) (rotr 11 x)) (rotr 25 x).
Definition sigma0 (x : Z) : Z := Z.lxor (Z.lxor (rotr 7 x) (rotr 18 x)) (Z.shiftr x 3).
Definition sigma1 (x : Z) : Z := Z.lxor (Z.lxor (rotr 17 x) (rotr 19 x)) (Z.shiftr x 10).

(** The round constants and the initial hash value are fractional parts of
    roots of the first primes: the first 32 bits after the point of the cube
    roots of the first 64 primes, and of the square roots of the first 8. *)
Definition is_prime (n : nat) : bool :=
  forallb (λ d, negb (n mod d =? 0)%nat) (seq 2 (n - 2)).

Definition primes : list nat := filter (λ n, is_prime n = true) (seq 2 310).

(** The integer cube root of a number below 2 ^ (3 * bits), bit by bit. *)
Fixpoint cube_root (bits : nat) (n r : Z) : Z :=
  match bits with
  | O => r
  | S bits' =>
      let r' := (r + 2 ^ Z.of_nat bits')%Z in
      if (r' ^ 3 <=? n)%Z then cube_root bits' n r' else cube_root bits' n r
  end.

Definition K : list Z :=
  map (λ p, (cube_root 36 (Z.of_nat p * 2 ^ 96) 0 mod 2 ^ 32)%Z) primes.

Definition root_bits (p : nat) : Z := (Z.sqrt (Z.of_nat p * 2 ^ 64) mod 2 ^ 32)%Z.

(** The eight working variables. *)
Record state := State { va : Z; vb : Z; vc : Z; vd : Z; ve : Z; vf : Z; vg : Z; vh : Z }.

Definition H0 : state :=
  State (root_bits 2) (root_bits 3) (root_bits 5) (root_bits 7)
        (root_bits 11) (root_bits 13) (root_bits 17) (root_bits 19).

(** Padding: the bit 1, zeros up to 56 modulo 64, the bit length on 8 bytes. *)
Definition byte_of_Z (x : Z) : byte := default x00 (Byte.of_N (Z.to_N (x mod 256))).

Definition big_endian (n : nat) (x : Z) : list byte :=
  map (λ i, byte_of_Z (Z.shiftr x (8 * Z.of_nat i))) (rev (seq 0 n)).

Definition pad (m : list byte) : list byte :=
  let l := length m in
  m ++ [x80] ++ replicate ((119 - l mod 64) mod 64) x00 ++ big_endian 8 (8 * Z.of_nat l).

Fixpoint words (bs : list byte) : list Z :=
  match bs with
  | b0 :: b1 :: b2 :: b3 :: bs' =>
      (byte_Z b0 * 2 ^ 24 + byte_Z b1 * 2 ^ 16 + byte_Z b2 * 2 ^ 8 + byte_Z b3)%Z :: words bs'
  | _ => []
  end.

(** The message schedule: [n] more words after the ones in [w]. *)
Fixpoint schedule (n : nat) (w : list Z) : list Z :=
  match n with
  | O => w
  | S n' =>
      let i := length w in
      let at_back k := default 0%Z (w !! (i - k)) in
      schedule n'
        (w ++ [add32 (add32 (sigma1 (at_back 2)) (at_back 7))
                     (add32 (sigma0 (at_back 15)) (at_back 16))])
  end.

Definition round (s : state) (kw : Z * Z) : state :=
  let t1 := add32 (add32 (add32 (vh s) (Sigma1 (ve s))) (Ch (ve s) (vf s) (vg s)))
                  (add32 kw.1 kw.2) in
  let t2 := add32 (Sigma0 (va s)) (Maj (va s) (vb s) (vc s)) in
  State (add32 t1 t2) (va s) (vb s) (vc s) (add32 (vd s) t1) (ve s) (vf s) (vg s).

Definition compress (h : state) (block : list Z) : state :=
  let s := fold_left round (zip K (schedule 48 block)) h in
  State (add32 (va h) (va s)) (add32 (vb h) (vb s)) (add32 (vc h) (vc s))
        (add32 (vd h) (vd s)) (add32 (ve h) (ve s)) (add32 (vf h) (vf s))
        (add32 (vg h) (vg s)) (add32 (vh h) (vh s)).

(** The blocks of 16 words; [n] bounds their number. *)
Fixpoint blocks (n : nat) (h : state) (ws : list Z) : state :=
  match n, ws with
  | S n', _ :: _ => blocks n' (compress h (take 16 ws)) (drop 16 ws)
  | _, _ => h
  end.

Definition digest (m : list byte) : list byte :=
  let ws := words (pad m) in
  let h := blocks (length ws) H0 ws in
  big_endian 4 (va h) ++ big_endian 4 (vb h) ++ big_endian 4 (vc h) ++ big_endian 4 (vd h)
  ++ big_endian 4 (ve h) ++ big_endian 4 (vf h) ++ big_endian 4 (vg h) ++ big_endian 4 (vh h).

End SHA256.

Global Instance noble_sha256 : Sha256 := SHA256.digest.

(** ** [bytesToHex], shared by the fraud detector and the privacy adapter *)

Definition hex_digit (n : N) : string :=
  match n with
  | 0 => "0" | 1 => "1" | 2 => "2" | 3 => "3" | 4 => "4" | 5 => "5"
  | 6 => "6" | 7 => "7" | 8 => "8" | 9 => "9" | 10 => "a" | 11 => "b"
  | 12 => "c" | 13 => "d" | 14 => "e" | _ => "f"
  end%N.

(** [b.toString(16).padStart(2, '0')] *)
Definition byte_to_hex (b : byte) : string :=
  let n := Byte.to_N b in
  hex_digit (n / 16) +:+ hex_digit (n mod 16).

Definition bytesToHex (bytes : list byte) : string :=
  String.concat "" (map byte_to_hex bytes).

(** ** fraud-detector.ts *)

Module FraudDetector.
Import JS.

Record PaymentData := {
  pseudonym : list byte;
  amount : Z;
  timestamp : Z;
  chain : string;
  commitment : list byte
}.

Inductive RiskLevel := low | medium | high | critical.

Record FraudAssessment := {
  riskScore : number;
  riskLevel : RiskLevel;
  anomalies : list string;
  confidence : number
}.

Record DetectionOptions := {
  preservePrivacy : bool;
  sensitivity : number
}.

Record FeatureSet := {
  amountCategory : number;
  timePattern : number;
  chainPattern : number;
  frequency : number;
  amountDeviation : number
}.

(** interface [PaymentPattern]; its [pseudonym] and [frequency] fields are
    prefixed, the feature set and the payment having fields of those names. *)
Record PaymentPattern := {
  pattern_pseudonym : list byte;
  payments : list PaymentData;
  pattern_frequency : number;
  avgAmount : number;
  chains : gset string;
  lastUpdated : number
}.

(** The object state: [patterns] and [anomalyThreshold]. *)
Record t := {
  patterns : gmap string PaymentPattern;
  anomalyThreshold : number
}.

Definition new : t := {| patterns := ∅; anomalyThreshold := 0.7 |}.

(** [hash[offset % hash.length] % max]; indexing past the array yields
    [undefined], and arithmetic on it NaN. *)
Definition hashToCategory (hash : list byte) (offset : nat) (max : Z) : number :=
  match hash !! (offset mod length hash)%nat with
  | Some b => Number_of_bigint (byte_Z b mod max)
  | None => nan
  end.

(** [(hash[offset % hash.length] / 255) * max] *)
Definition hashToNumber (hash : list byte) (offset : nat) (max : number) : number :=
  match hash !! (offset mod length hash)%nat with
  | Some b => (Number_of_bigint (byte_Z b) / 255 * max)%float
  | None => nan
  end.

Definition extractPrivateFeatures `{Sha256} (payment : PaymentData) : FeatureSet :=
  let hash := sha256 (commitment payment) in
  {| amountCategory := hashToCategory hash 0 5;
     timePattern := hashToCategory hash 1 4;
     chainPattern := hashToCategory hash 2 7;
     frequency := (hashToNumber hash 3 100 / 100)%float;
     amountDeviation := (hashToNumber hash 4 50 / 100)%float |}.

Definition categorizeAmount (amount : Z) : number :=
  if (amount <? 1000)%Z then 0%float
  else if (amount <? 10000)%Z then 1%float
  else if (amount <? 100000)%Z then 2%float
  else if (amount <? 1000000)%Z then 3%float
  else 4%float.

(** The loop [for (i = 1; i < n; i++) intervals.push(t[i] - t[i-1])]. *)
Fixpoint intervals (ts : list number) : list number :=
  match ts with
  | t0 :: (t1 :: _) as rest => (t1 - t0)%float :: intervals rest
  | _ => []
  end.

Definition analyzeTimePattern (pattern : PaymentPattern) (timestamp : Z) : number :=
  if (length (payments pattern) <? 2)%nat then 0%float
  else
    let intervals :=
      intervals (map (λ p, Number_of_bigint (FraudDetector.timestamp p)) (payments pattern)) in
    let avgInterval := (sum intervals / Number_of_nat (length intervals))%float in
    let variance :=
      (fold_left (λ sum interval, sum + Math_pow2 (interval - avgInterval)) intervals 0
       / Number_of_nat (length intervals))%float in
    if (variance <? Math_pow2 (avgInterval * 0.3))%float then 1%float else 0%float.

(** [analyzeChainPattern(pattern, chain)] adds [chain] to the chain set of
    the pattern object it is handed and returns the set's size.  The object
    is the one stored in [patterns] under [key] (it was obtained by
    [patterns.get(key)]), so the store sees the update; with no object
    ([undefined]) the property access raises a TypeError. *)
Definition analyzeChainPattern (key : string) (chain : string) (this : t)
  : completion number * t :=
  match patterns this !! key with
  | Some pattern =>
      let pattern' :=
        {| pattern_pseudonym := pattern_pseudonym pattern;
           payments := payments pattern;
           pattern_frequency := pattern_frequency pattern;
           avgAmount := avgAmount pattern;
           chains := chains pattern ∪ {[ chain ]};
           lastUpdated := lastUpdated pattern |} in
      (Normal (Number_of_nat (size (chains pattern'))),
       {| patterns := <[ key := pattern' ]> (patterns this);
          anomalyThreshold := anomalyThreshold this |})
  | None => (Throw TypeError, this)
  end.

Definition calculateDeviation (pattern : PaymentPattern) (amount : Z) : number :=
  let amounts := map (λ p, Number_of_bigint (FraudDetector.amount p)) (payments pattern) in
  let avg := (sum amounts / Number_of_nat (length amounts))%float in
  let deviation := (Math_abs (Number_of_bigint amount - avg) / avg)%float in
  Math_min 1.0 deviation.

Definition extractDirectFeatures (payment : PaymentData) (this : t)
  : completion FeatureSet * t :=
  let key := bytesToHex (pseudonym payment) in
  let pattern := patterns this !! key in
  let amountCategory := categorizeAmount (amount payment) in
  let timePattern :=
    match pattern with
    | Some p => analyzeTimePattern p (timestamp payment)
    | None => 0%float
    end in
  let '(chainPattern, this') := analyzeChainPattern key (chain payment) this in
  (chainPattern ← chainPattern;
   mret {| amountCategory := amountCategory;
           timePattern := timePattern;
           chainPattern := chainPattern;
           frequency := match pattern with
                        | Some p => pattern_frequency p
                        | None => 0%float
                        end;
           amountDeviation := match pattern with
                              | Some p => calculateDeviation p (amount payment)
                              | None => 0%float
                              end |},
   this').

Definition extractFeatures `{Sha256} (payment : PaymentData) (preservePrivacy : bool)
    (this : t) : completion FeatureSet * t :=
  if preservePrivacy then (Normal (extractPrivateFeatures payment), this)
  else extractDirectFeatures payment this.

Definition detectAnomalies (features : FeatureSet) (sensitivity : number) : list string :=
  (if gtb (amountCategory features) 4 && gtb sensitivity 0.3
   then ["unusual_amount_category"] else [])
  ++ (if gtb (frequency features) 0.8 && gtb sensitivity 0.4
      then ["high_frequency"] else [])
  ++ (if gtb (amountDeviation features) 0.5 && gtb sensitivity 0.5
      then ["high_amount_deviation"] else [])
  ++ (if (timePattern features =? 0)%float && gtb sensitivity 0.6
      then ["irregular_timing"] else [])
  ++ (if gtb (chainPattern features) 5 && gtb sensitivity 0.7
      then ["excessive_chain_switching"] else []).

Definition calculateRiskScore (anomalies : list string) (features : FeatureSet) : number :=
  let risk := 0%float in
  let risk := (risk + Number_of_nat (length anomalies) * 0.15)%float in
  let risk := if gtb (frequency features) 0.9 then (risk + 0.2)%float else risk in
  let risk := if gtb (amountDeviation features) 0.7 then (risk + 0.15)%float else risk in
  let risk := if (timePattern features =? 0)%float then (risk + 0.1)%float else risk in
  Math_min 1.0 risk.

Definition scoreToLevel (score : number) : RiskLevel :=
  if geb score 0.8 then critical
  else if geb score 0.6 then high
  else if geb score 0.4 then medium
  else low.

Definition calculateConfidence (features : FeatureSet) (anomalies : list string) : number :=
  let confidence := 0.5%float in
  let confidence :=
    if gtb (frequency features) 0 then (confidence + 0.2)%float else confidence in
  let confidence :=
    if (0 <? length anomalies)%nat then (confidence + 0.2)%float else confidence in
  Math_min 1.0 confidence.

Definition assessRisk `{Sha256} (payment : PaymentData) (options : DetectionOptions)
    (this : t) : completion FraudAssessment * t :=
  let '(features, this') := extractFeatures payment (preservePrivacy options) this in
  (features ← features;
   let anomalies := detectAnomalies features (sensitivity options) in
   let riskScore := calculateRiskScore anomalies features in
   let riskLevel := scoreToLevel riskScore in
   let confidence := calculateConfidence features anomalies in
   mret {| riskScore := riskScore;
           riskLevel := riskLevel;
           anomalies := anomalies;
           confidence := confidence |},
   this').

(** [updatePattern(payment)]; [now] is the value of [Date.now()]. *)
Definition updatePattern (payment : PaymentData) (now : number) (this : t) : t :=
  let key := bytesToHex (pseudonym payment) in
  let pattern' :=
    match patterns this !! key with
    | Some existing =>
        let payments' := payments existing ++ [payment] in
        {| pattern_pseudonym := pattern_pseudonym existing;
           payments := payments';
           pattern_frequency := (Number_of_nat (length payments') / 10)%float;
           avgAmount := avgAmount existing;
           chains := chains existing;
           lastUpdated := now |}
    | None =>
        {| pattern_pseudonym := pseudonym payment;
           payments := [payment];
           pattern_frequency := 0.1;
           avgAmount := Number_of_bigint (amount payment);
           chains := {[ chain payment ]};
           lastUpdated := now |}
    end in
  {| patterns := <[ key := pattern' ]> (patterns this);
     anomalyThreshold := anomalyThreshold this |}.

End FraudDetector.

(** ** privacy-adapter.ts *)

Module PrivacyAdapter.
Import JS.

Inductive PrivacyLevel := low | medium | high | maximum.

Module Threat.
Inductive ThreatLevel := low | medium | high | critical.
End Threat.
Abbreviation ThreatLevel := Threat.ThreatLevel.

Inductive TransactionType := payment | reputation | compliance | governance.

Global Instance PrivacyLevel_eq_dec : EqDecision PrivacyLevel.
Proof. solve_decision. Defined.
Global Instance ThreatLevel_eq_dec : EqDecision ThreatLevel.
Proof. solve_decision. Defined.
Global Instance TransactionType_eq_dec : EqDecision TransactionType.
Proof. solve_decision. Defined.

Record PrivacyConfiguration := {
  level : PrivacyLevel;
  proofSize : number;
  verifyTime : number;
  zkProofRequired : bool;
  merkleDepth : number;
  polynomialDegree : number
}.

Record NetworkConditions := {
  congestion : number;
  avgGasPrice : Z;
  networkHealth : number
}.

Record PrivacyContext := {
  userPseudonym : list byte;
  transactionType : TransactionType;
  amount : option Z;
  threatLevel : option ThreatLevel;
  networkConditions : option NetworkConditions
}.

(** The object state: [threatHistory].  The other field, [privacyConfigs],
    is filled by the constructor and never written again; it is the table
    [privacyConfigs] below. *)
Record t := {
  threatHistory : gmap string (list ThreatLevel)
}.

Definition new : t := {| threatHistory := ∅ |}.

(** [initializePrivacyConfigs] *)
Definition privacyConfigs (l : PrivacyLevel) : PrivacyConfiguration :=
  match l with
  | low =>
      {| level := low; proofSize := 1024; verifyTime := 10;
         zkProofRequired := false; merkleDepth := 8; polynomialDegree := 4 |}
  | medium =>
      {| level := medium; proofSize := 2048; verifyTime := 50;
         zkProofRequired := true; merkleDepth := 12; polynomialDegree := 8 |}
  | high =>
      {| level := high; proofSize := 4096; verifyTime := 100;
         zkProofRequired := true; merkleDepth := 16; polynomialDegree := 16 |}
  | maximum =>
      {| level := maximum; proofSize := 8192; verifyTime := 200;
         zkProofRequired := true; merkleDepth := 20; polynomialDegree := 32 |}
  end.

Definition threatValues (threat : ThreatLevel) : number :=
  match threat with
  | Threat.low => 1
  | Threat.medium => 2
  | Threat.high => 3
  | Threat.critical => 4
  end.

Definition calculateAverageThreat (threats : list ThreatLevel) : ThreatLevel :=
  let avg :=
    (fold_left (λ sum t, sum + threatValues t) threats 0
     / Number_of_nat (length threats))%float in
  if geb avg 3.5 then Threat.critical
  else if geb avg 2.5 then Threat.high
  else if geb avg 1.5 then Threat.medium
  else Threat.low.

(** [history.slice(-n)] *)
Definition slice_last {A} (n : nat) (l : list A) : list A :=
  drop (length l - n) l.

Definition assessThreat (context : PrivacyContext) (this : t) : ThreatLevel :=
  let pseudonymKey := bytesToHex (userPseudonym context) in
  let history := default [] (threatHistory this !! pseudonymKey) in
  if (length history =? 0)%nat then Threat.medium
  else
    let recentThreats := slice_last 10 history in
    let avgThreat := calculateAverageThreat recentThreats in
    match transactionType context with
    | compliance => Threat.high
    | governance => Threat.medium
    | _ => avgThreat
    end.

Definition threatToPrivacyLevel (threat : ThreatLevel) : PrivacyLevel :=
  match threat with
  | Threat.low => low
  | Threat.medium => medium
  | Threat.high => high
  | Threat.critical => maximum
  end.

Definition levels : list PrivacyLevel := [low; medium; high; maximum].

(** [array.indexOf(x)]: the first position of [x], or -1. *)
Fixpoint indexOf {A} `{EqDecision A} (l : list A) (x : A) : Z :=
  match l with
  | [] => -1
  | y :: l' =>
      if decide (y = x) then 0
      else let i := indexOf l' x in if (i <? 0)%Z then -1 else (i + 1)
  end%Z.

(** [array[i]] at an integer index: [undefined] (here [None]) outside the
    array. *)
Definition at_index {A} (l : list A) (i : Z) : option A :=
  if (i <? 0)%Z then None else l !! Z.to_nat i.

(** [adjustLevel(level, steps)].  [steps] is an integer at every call site
    (-1, 0 or +1), and the index arithmetic is integer arithmetic. *)
Definition adjustLevel (level : PrivacyLevel) (steps : Z) : option PrivacyLevel :=
  let currentIndex := indexOf levels level in
  let newIndex := Z.max 0 (Z.min (Z.of_nat (length levels) - 1) (currentIndex + steps)) in
  at_index levels newIndex.

Definition adjustments (type : TransactionType) : Z :=
  match type with
  | payment => 0
  | reputation => -1
  | compliance => 1
  | governance => -1
  end.

Definition adjustForTransactionType (currentLevel : PrivacyLevel) (type : TransactionType)
  : option PrivacyLevel :=
  let adjustment := adjustments type in
  adjustLevel currentLevel adjustment.

Definition adjustForAmount (currentLevel : PrivacyLevel) (amount : Z) : option PrivacyLevel :=
  if (10000000 <? amount)%Z then adjustLevel currentLevel 1
  else if (1000000 <? amount)%Z then adjustLevel currentLevel 0
  else adjustLevel currentLevel (-1).

Definition adjustForNetwork (currentLevel : PrivacyLevel) (conditions : NetworkConditions)
  : option PrivacyLevel :=
  if gtb (congestion conditions) 0.8 then adjustLevel currentLevel (-1)
  else if (networkHealth conditions <? 0.7)%float then adjustLevel currentLevel 1
  else Some currentLevel.

(** [adaptPrivacyLevel(context)].  [if (context.amount)] is false for an
    absent amount and for [0n]. *)
Definition adaptPrivacyLevel (context : PrivacyContext) (this : t)
  : option PrivacyConfiguration :=
  let threatLevel :=
    match threatLevel context with
    | Some threat => threat
    | None => assessThreat context this
    end in
  let baseLevel := threatToPrivacyLevel threatLevel in
  baseLevel ← adjustForTransactionType baseLevel (transactionType context);
  baseLevel ← match amount context with
              | Some a => if (a =? 0)%Z then Some baseLevel else adjustForAmount baseLevel a
              | None => Some baseLevel
              end;
  baseLevel ← match networkConditions context with
              | Some conditions => adjustForNetwork baseLevel conditions
              | None => Some baseLevel
              end;
  let config := privacyConfigs baseLevel in
  Some {| level := baseLevel;
          proofSize := proofSize config;
          verifyTime := verifyTime config;
          zkProofRequired := zkProofRequired config;
          merkleDepth := merkleDepth config;
          polynomialDegree := polynomialDegree config |}.

Definition updateThreatHistory (pseudonym : list byte) (threat : ThreatLevel) (this : t) : t :=
  let key := bytesToHex pseudonym in
  let history := default [] (threatHistory this !! key) in
  let history := history ++ [threat] in
  let history := if (50 <? length history)%nat then drop 1 history else history in
  {| threatHistory := <[ key := history ]> (threatHistory this) |}.

End PrivacyAdapter.

(** ** payment-optimizer.ts *)

(** An object literal used as a lookup table, [table[key]]: the value, or
    [undefined] (here [None]).  The tables of the router are read at the keys
    of [chainMetrics] only, which are the seven chain tags the constructor
    puts there; the table of the reputation model is read at the keys of its
    weights. *)
Fixpoint record_get {V} (table : list (string * V)) (key : string) : option V :=
  match table with
  | [] => None
  | (k, v) :: table' => if String.eqb k key then Some v else record_get table' key
  end.

(** [array.sort(compare)] for a comparator that orders the elements
    consistently (here, by a finite score): the sort is stable, and of two
    elements the later moves in front exactly when the comparator is positive
    on them. *)
Section Array_sort.
Context {A : Type} (compare : A → A → JS.number).

Fixpoint sort_insert (x : A) (l : list A) : list A :=
  match l with
  | [] => [x]
  | y :: l' => if JS.gtb (compare x y) 0 then y :: sort_insert x l' else x :: y :: l'
  end.

Definition Array_sort (l : list A) : list A := foldr sort_insert [] l.
End Array_sort.

Module AIPaymentRouter.
Import JS.
Abbreviation PrivacyLevel := PrivacyAdapter.PrivacyLevel.
Import PrivacyAdapter (low, medium, high, maximum).

Record PaymentRoute := {
  chain : string;
  estimatedGas : Z;
  privacyScore : number;
  successRate : number;
  estimatedTime : number
}.

Record RoutingOptions := {
  amount : Z;
  targetChain : option string;
  privacyLevel : PrivacyLevel;
  maxGasPrice : option Z;
  preferredChains : option (list string)
}.

Record ChainMetrics := {
  avgGasPrice : Z;
  avgConfirmationBlocks : number;
  networkHealth : number;
  lastUpdated : number
}.

(** The object state: [routingHistory] and [chainMetrics]. *)
Record t := {
  routingHistory : gmap string (list PaymentRoute);
  chainMetrics : gmap string ChainMetrics
}.

Definition allChains : list string :=
  ["ethereum"; "polygon"; "bsc"; "arbitrum"; "optimism"; "avalanche"; "solana"].

(** [initializeChainMetrics]; [now] is the value of [Date.now()]. *)
Definition initializeChainMetrics (now : number) : gmap string ChainMetrics :=
  fold_left
    (λ metrics chain,
       <[ chain := {| avgGasPrice := 20;
                      avgConfirmationBlocks := 12;
                      networkHealth := 0.95;
                      lastUpdated := now |} ]> metrics)
    allChains ∅.

(** The constructor. *)
Definition new (now : number) : t :=
  {| routingHistory := ∅; chainMetrics := initializeChainMetrics now |}.

Definition baseGas : list (string * Z) :=
  [("ethereum", 21000); ("polygon", 21000); ("bsc", 21000); ("arbitrum", 21000);
   ("optimism", 21000); ("avalanche", 21000); ("solana", 5000)]%Z.

Definition estimateGas (chain : string) (amount : Z) : completion Z :=
  let base :=
    match record_get baseGas chain with
    | Some g => if (g =? 0)%Z then 21000%Z else g
    | None => 21000%Z
    end in
  let complexityMultiplier := if (1000000 <? amount)%Z then 1.2%float else 1.0%float in
  BigInt (Math_floor (Number_of_bigint base * complexityMultiplier)).

Definition baseScores : list (string * number) :=
  [("ethereum", 0.7); ("polygon", 0.6); ("bsc", 0.5); ("arbitrum", 0.7);
   ("optimism", 0.7); ("avalanche", 0.6); ("solana", 0.8)]%float.

Definition levelMultipliers (privacyLevel : PrivacyLevel) : number :=
  match privacyLevel with
  | low => 0.8
  | medium => 1.0
  | high => 1.2
  | maximum => 1.5
  end.

Definition calculatePrivacyScore (chain : string) (privacyLevel : PrivacyLevel) : number :=
  let base := number_or (record_get baseScores chain) 0.5 in
  Math_min 1.0 (base * number_or (Some (levelMultipliers privacyLevel)) 1.0).

Definition defaults : list (string * number) :=
  [("ethereum", 0.95); ("polygon", 0.98); ("bsc", 0.97); ("arbitrum", 0.96);
   ("optimism", 0.96); ("avalanche", 0.97); ("solana", 0.99)]%float.

Definition getSuccessRate (chain : string) (amount : Z) (this : t) : number :=
  let history := default [] (routingHistory this !! chain) in
  if (length history =? 0)%nat then number_or (record_get defaults chain) 0.95
  else
    let successful := length (filter (λ r, gtb (successRate r) 0.9 = true) history) in
    (Number_of_nat successful / Number_of_nat (length history))%float.

Definition blockTimes : list (string * number) :=
  [("ethereum", 12000); ("polygon", 2000); ("bsc", 3000); ("arbitrum", 1000);
   ("optimism", 2000); ("avalanche", 2000); ("solana", 400)]%float.

Definition estimateTime (chain : string) (metrics : ChainMetrics) : number :=
  let blockTime := number_or (record_get blockTimes chain) 2000 in
  let blocksToConfirm := number_or (Some (avgConfirmationBlocks metrics)) 12 in
  (blockTime * blocksToConfirm)%float.

Definition thresholds (level : PrivacyLevel) : number :=
  match level with
  | low => 0.3
  | medium => 0.5
  | high => 0.7
  | maximum => 0.9
  end.

Definition getPrivacyScore (level : PrivacyLevel) : number :=
  number_or (Some (thresholds level)) 0.5.

Definition createDefaultRoute (chain : string) : PaymentRoute :=
  {| chain := chain;
     estimatedGas := 21000;
     privacyScore := 0.7;
     successRate := 0.95;
     estimatedTime := 12000 |}.

Definition calculateRoute (chain : string) (options : RoutingOptions)
    (metrics : ChainMetrics) (this : t) : completion PaymentRoute :=
  estimatedGas ← estimateGas chain (amount options);
  let privacyScore := calculatePrivacyScore chain (privacyLevel options) in
  let successRate := getSuccessRate chain (amount options) this in
  let estimatedTime := estimateTime chain metrics in
  mret {| chain := chain;
          estimatedGas := estimatedGas;
          privacyScore := privacyScore;
          successRate := successRate;
          estimatedTime := estimatedTime |}.

(** The ranking score computed inside the sort comparator. *)
Definition score (r : PaymentRoute) : number :=
  (privacyScore r * 0.4 + successRate r * 0.4
   - (if (0 <? estimatedGas r)%Z then Number_of_bigint (estimatedGas r) / 1e9 else 0) * 0.2)%float.

Definition compareRoutes (a b : PaymentRoute) : number :=
  let scoreA := score a in
  let scoreB := score b in
  (scoreB - scoreA)%float.

(** The loop over [availableChains]: chains without metrics are skipped. *)
Fixpoint analyzeChains (availableChains : list string) (options : RoutingOptions)
    (this : t) : completion (list PaymentRoute) :=
  match availableChains with
  | [] => mret []
  | chain :: rest =>
      match chainMetrics this !! chain with
      | None => analyzeChains rest options this
      | Some metrics =>
          route ← calculateRoute chain options metrics this;
          routes ← analyzeChains rest options this;
          mret (route :: routes)
      end
  end.

(** [findOptimalRoute(options)].  [options.maxGasPrice ? ... : ...] takes
    the second branch for an absent ceiling and for [0n]. *)
Definition findOptimalRoute (options : RoutingOptions) (this : t)
  : completion PaymentRoute :=
  let availableChains := default allChains (preferredChains options) in
  routes ← analyzeChains availableChains options this;
  let routes := Array_sort compareRoutes routes in
  let minPrivacyScore := getPrivacyScore (privacyLevel options) in
  let filteredRoutes :=
    filter (λ r, geb (privacyScore r) minPrivacyScore = true) routes in
  let finalRoutes :=
    match maxGasPrice options with
    | Some maxGas =>
        if (maxGas =? 0)%Z then filteredRoutes
        else filter (λ r, (estimatedGas r <=? maxGas)%Z = true) filteredRoutes
    | None => filteredRoutes
    end in
  mret (match finalRoutes with
        | best :: _ => best
        | [] =>
            match routes with
            | first :: _ => first
            | [] => createDefaultRoute (string_or (targetChain options) "ethereum")
            end
        end).

Definition updateHistory (chain : string) (route : PaymentRoute) (this : t) : t :=
  let history := default [] (routingHistory this !! chain) in
  let history := history ++ [route] in
  let history := if (100 <? length history)%nat then drop 1 history else history in
  {| routingHistory := <[ chain := history ]> (routingHistory this);
     chainMetrics := chainMetrics this |}.

End AIPaymentRouter.

(** ** reputation-learner.ts *)

Module AIReputationLearner.
Import JS.

Record PaymentPattern := {
  pseudonym : list byte;
  amount : Z;
  timestamp : Z;
  chain : string;
  success : bool
}.

Record ReputationPrediction := {
  score : number;
  confidence : number;
  factors : list string
}.

Record TrainingData := {
  payments : list PaymentPattern;
  labels : list number
}.

Record FeatureVector := {
  paymentCount : number;
  totalAmount : number;
  avgAmount : number;
  successRate : number;
  avgInterval : number;
  chainDiversity : number;
  recentActivity : number
}.

Record Pattern := {
  type : string;
  weight : number
}.

(** class [ReputationModel]: its [weights] map, in insertion order (the
    order in which [predict] iterates over it). *)
Definition ReputationModel := list (string * number).

(** [map.set(key, value)]: an existing key keeps its position. *)
Fixpoint map_set (key : string) (value : number) (m : ReputationModel) : ReputationModel :=
  match m with
  | [] => [(key, value)]
  | (k, v) :: m' =>
      if String.eqb k key then (k, value) :: m' else (k, v) :: map_set key value m'
  end.

(** [features[factor]]: [undefined] (here [None]) when [factor] is not a
    field of the feature vector. *)
Definition feature (features : FeatureVector) (factor : string) : option number :=
  record_get
    [("paymentCount", paymentCount features); ("totalAmount", totalAmount features);
     ("avgAmount", avgAmount features); ("successRate", successRate features);
     ("avgInterval", avgInterval features); ("chainDiversity", chainDiversity features);
     ("recentActivity", recentActivity features)]
    factor.

(** A number that may be [undefined], used in arithmetic. *)
Definition to_number (x : option number) : number := default nan x.

Definition model_train (features : FeatureVector) (labels : list number)
    (weights : ReputationModel) : ReputationModel :=
  let factors := ["paymentCount"; "successRate"; "chainDiversity"; "recentActivity"] in
  fold_left
    (λ weights factor,
       let value := to_number (feature features factor) in
       let avgLabel := (sum labels / Number_of_nat (length labels))%float in
       map_set factor (if gtb value 0 then (avgLabel / value)%float else 0%float) weights)
    factors weights.

Definition model_predict (features : FeatureVector) (weights : ReputationModel)
  : number * number :=
  let score :=
    fold_left
      (λ score '(factor, weight),
         let value := to_number (feature features factor) in
         (score + value * weight * 10)%float)
      weights 50%float in
  let score := Math_max 0 (Math_min 100 score) in
  let dataQuality :=
    if gtb (paymentCount features) 0
    then Math_min 1.0 (paymentCount features / 10)
    else 0%float in
  let confidence := (0.5 + dataQuality * 0.5)%float in
  (score, confidence).

Definition model_update (patterns : list Pattern) (weights : ReputationModel)
  : ReputationModel :=
  fold_left
    (λ weights pattern,
       let currentWeight := number_or (record_get weights (type pattern)) 0 in
       map_set (type pattern) (currentWeight + weight pattern)%float weights)
    patterns weights.

(** The object state: [model], [trainingData] and [isTrained]. *)
Record t := {
  model : ReputationModel;
  trainingData : list TrainingData;
  isTrained : bool
}.

Definition new : t := {| model := []; trainingData := []; isTrained := false |}.

Definition createEmptyFeatures : FeatureVector :=
  {| paymentCount := 0; totalAmount := 0; avgAmount := 0; successRate := 0;
     avgInterval := 0; chainDiversity := 0; recentActivity := 0 |}.

(** [calculateRecentActivity(payments)]; [now] is the value of [Date.now()]. *)
Definition calculateRecentActivity (payments : list PaymentPattern) (now : number) : number :=
  if (length payments =? 0)%nat then 0%float
  else
    let recentPayments :=
      filter (λ p, (now - Number_of_bigint (timestamp p) <? 7 * 24 * 60 * 60 * 1000)%float = true)
             payments in
    Math_min 1.0 (Number_of_nat (length recentPayments) / 10).

(** [Math.max(...xs)] and [Math.min(...xs)] *)
Definition Math_max_list (xs : list number) : number := fold_left Math_max xs neg_infinity.
Definition Math_min_list (xs : list number) : number := fold_left Math_min xs infinity.

Definition extractFeatures (payments : list PaymentPattern) (now : number) : FeatureVector :=
  if (length payments =? 0)%nat then createEmptyFeatures
  else
    let amounts := map (λ p, Number_of_bigint (amount p)) payments in
    let timestamps := map (λ p, Number_of_bigint (timestamp p)) payments in
    let successCount := Number_of_nat (length (filter (λ p, success p = true) payments)) in
    let avgAmount := (sum amounts / Number_of_nat (length amounts))%float in
    let totalAmount := sum amounts in
    let paymentCount := Number_of_nat (length payments) in
    let successRate := (successCount / paymentCount)%float in
    let timeSpan := (Math_max_list timestamps - Math_min_list timestamps)%float in
    let avgInterval := if gtb timeSpan 0 then (timeSpan / paymentCount)%float else 0%float in
    let uniqueChains := size (list_to_set (map chain payments) : gset string) in
    let chainDiversity := (Number_of_nat uniqueChains / 7)%float in
    {| paymentCount := paymentCount;
       totalAmount := totalAmount;
       avgAmount := avgAmount;
       successRate := successRate;
       avgInterval := avgInterval;
       chainDiversity := chainDiversity;
       recentActivity := calculateRecentActivity payments now |}.

Definition hashToNumber (hash : list byte) (offset : nat) (max : number) : number :=
  match hash !! (offset mod length hash)%nat with
  | Some b => (Number_of_bigint (byte_Z b) / 255 * max)%float
  | None => nan
  end.

Definition extractFeaturesFromPseudonym `{Sha256} (pseudonym : list byte) : FeatureVector :=
  let hash := sha256 pseudonym in
  {| paymentCount := hashToNumber hash 0 100;
     totalAmount := hashToNumber hash 1 1000000;
     avgAmount := hashToNumber hash 2 10000;
     successRate := (hashToNumber hash 3 100 / 100)%float;
     avgInterval := hashToNumber hash 4 86400;
     chainDiversity := (hashToNumber hash 5 100 / 100)%float;
     recentActivity := (hashToNumber hash 6 100 / 100)%float |}.

Definition identifyFactors (features : FeatureVector) : list string :=
  let factors :=
    (if gtb (paymentCount features) 10 then ["high_activity"] else [])
    ++ (if gtb (successRate features) 0.95 then ["reliable"] else [])
    ++ (if gtb (chainDiversity features) 0.5 then ["multi_chain"] else [])
    ++ (if gtb (recentActivity features) 0.7 then ["recent_activity"] else [])
    ++ (if gtb (avgAmount features) 100000 then ["high_value"] else []) in
  if (0 <? length factors)%nat then factors else ["new_user"].

Definition train (data : TrainingData) (now : number) (this : t) : t :=
  let features := extractFeatures (payments data) now in
  {| model := model_train features (labels data) (model this);
     trainingData := trainingData this ++ [data];
     isTrained := true |}.

(** [predict(pseudonym, paymentHistory?)]: the guard of the default
    prediction is [!this.isTrained && !paymentHistory], and an array, even
    an empty one, is not falsy. *)
Definition predict `{Sha256} (pseudonym : list byte)
    (paymentHistory : option (list PaymentPattern)) (now : number) (this : t)
  : ReputationPrediction :=
  if negb (isTrained this) && negb (bool_decide (is_Some paymentHistory)) then
    {| score := 50; confidence := 0.5; factors := ["insufficient_data"] |}
  else
    let features :=
      match paymentHistory with
      | Some history => extractFeatures history now
      | None => extractFeaturesFromPseudonym pseudonym
      end in
    let prediction := model_predict features (model this) in
    {| score := prediction.1;
       confidence := prediction.2;
       factors := identifyFactors features |}.

(** The interval loop of [isRegularPattern]. *)
Fixpoint intervals (ts : list number) : list number :=
  match ts with
  | t0 :: (t1 :: _) as rest => (t1 - t0)%float :: intervals rest
  | _ => []
  end.

Definition isRegularPattern (payments : list PaymentPattern) : bool :=
  if (length payments <? 3)%nat then false
  else
    let intervals := intervals (map (λ p, Number_of_bigint (timestamp p)) payments) in
    let avgInterval := (sum intervals / Number_of_nat (length intervals))%float in
    let variance :=
      (fold_left (λ sum interval, sum + Math_pow2 (interval - avgInterval)) intervals 0
       / Number_of_nat (length intervals))%float in
    (variance <? Math_pow2 (avgInterval * 0.3))%float.

Definition identifyPatterns (payments : list PaymentPattern) : list Pattern :=
  let avgAmount :=
    (fold_left (λ sum p, sum + Number_of_bigint (amount p)) payments 0
     / Number_of_nat (length payments))%float in
  let chains : gset string := list_to_set (map chain payments) in
  (if isRegularPattern payments then [{| type := "regular"; weight := 0.3 |}] else [])
  ++ (if gtb avgAmount 1000000 then [{| type := "high_value"; weight := 0.2 |}] else [])
  ++ (if (2 <? size chains)%nat then [{| type := "multi_chain"; weight := 0.2 |}] else []).

Definition learnFromPayments (payments : list PaymentPattern) (this : t) : t :=
  let patterns := identifyPatterns payments in
  {| model := model_update patterns (model this);
     trainingData := trainingData this;
     isTrained := isTrained this |}.

End AIReputationLearner.

(** ** x402-ai-bridge.ts *)

Module X402AIBridge.
Import JS.

Record X402PaymentRequest := {
  stealthAddress : list byte;
  amount : Z;
  targetChain : option string;
  privacyLevel : option PrivacyAdapter.PrivacyLevel;
  userPseudonym : list byte
}.

Record OptimizedX402Payment := {
  route : AIPaymentRouter.PaymentRoute;
  privacyConfig : PrivacyAdapter.PrivacyConfiguration;
  fraudAssessment : FraudDetector.FraudAssessment;
  recommendedChain : string;
  estimatedCost : Z
}.

(** The object state: the three engines the bridge owns. *)
Record t := {
  router : AIPaymentRouter.t;
  privacyAdapter : PrivacyAdapter.t;
  fraudDetector : FraudDetector.t
}.

Definition new (now : number) : t :=
  {| router := AIPaymentRouter.new now;
     privacyAdapter := PrivacyAdapter.new;
     fraudDetector := FraudDetector.new |}.

Definition fraudToThreat (riskLevel : FraudDetector.RiskLevel) : PrivacyAdapter.ThreatLevel :=
  match riskLevel with
  | FraudDetector.low => PrivacyAdapter.Threat.low
  | FraudDetector.medium => PrivacyAdapter.Threat.medium
  | FraudDetector.high => PrivacyAdapter.Threat.high
  | FraudDetector.critical => PrivacyAdapter.Threat.critical
  end.

Definition calculateCost (route : AIPaymentRouter.PaymentRoute)
    (privacy : PrivacyAdapter.PrivacyConfiguration) : completion Z :=
  let gasCost := AIPaymentRouter.estimatedGas route in
  let privacyMultiplier := (PrivacyAdapter.proofSize privacy / 1024)%float in
  multiplier ← BigInt (Math_ceil privacyMultiplier);
  mret (gasCost * multiplier)%Z.

(** A configuration whose level was read outside the array of levels has
    no counterpart here; [adjustLevel] never produces one. *)
Definition defined {A} (x : option A) : completion A :=
  match x with
  | Some a => Normal a
  | None => Throw TypeError
  end.

(** [new Uint8Array(32)] *)
Definition zero_bytes (n : nat) : list byte := replicate n x00.

(** [optimizePayment(request)]; [now] is the value of [Date.now()]. *)
Definition optimizePayment `{Sha256} (request : X402PaymentRequest) (now : Z) (this : t)
  : completion OptimizedX402Payment * t :=
  let route :=
    AIPaymentRouter.findOptimalRoute
      {| AIPaymentRouter.amount := amount request;
         AIPaymentRouter.targetChain := targetChain request;
         AIPaymentRouter.privacyLevel := default PrivacyAdapter.high (privacyLevel request);
         AIPaymentRouter.maxGasPrice := None;
         AIPaymentRouter.preferredChains := None |}
      (router this) in
  match route with
  | Throw e => (Throw e, this)
  | Normal route =>
      let paymentData :=
        {| FraudDetector.pseudonym := userPseudonym request;
           FraudDetector.amount := amount request;
           FraudDetector.timestamp := now;
           FraudDetector.chain := AIPaymentRouter.chain route;
           FraudDetector.commitment := zero_bytes 32 |} in
      let '(fraudAssessment, fraudDetector') :=
        FraudDetector.assessRisk paymentData
          {| FraudDetector.preservePrivacy := true; FraudDetector.sensitivity := 0.5 |}
          (fraudDetector this) in
      let this' :=
        {| router := router this;
           privacyAdapter := privacyAdapter this;
           fraudDetector := fraudDetector' |} in
      (fraudAssessment ← fraudAssessment;
       let privacyContext :=
         {| PrivacyAdapter.userPseudonym := userPseudonym request;
            PrivacyAdapter.transactionType := PrivacyAdapter.payment;
            PrivacyAdapter.amount := Some (amount request);
            PrivacyAdapter.threatLevel :=
              Some (fraudToThreat (FraudDetector.riskLevel fraudAssessment));
            PrivacyAdapter.networkConditions := None |} in
       privacyConfig ←
         defined (PrivacyAdapter.adaptPrivacyLevel privacyContext (privacyAdapter this));
       estimatedCost ← calculateCost route privacyConfig;
       mret {| route := route;
               privacyConfig := privacyConfig;
               fraudAssessment := fraudAssessment;
               recommendedChain := AIPaymentRouter.chain route;
               estimatedCost := estimatedCost |},
       this')
  end.

(** [learnFromPayment(payment, success, actualGas)]; [now] is the value of
    [Date.now()] read for the timestamp and [updated] the one read inside
    [updatePattern]. *)
Definition learnFromPayment `{Sha256} (payment : X402PaymentRequest) (success : bool)
    (actualGas : Z) (now : Z) (updated : number) (this : t) : completion unit * t :=
  let route :=
    AIPaymentRouter.findOptimalRoute
      {| AIPaymentRouter.amount := amount payment;
         AIPaymentRouter.targetChain := targetChain payment;
         AIPaymentRouter.privacyLevel := default PrivacyAdapter.high (privacyLevel payment);
         AIPaymentRouter.maxGasPrice := None;
         AIPaymentRouter.preferredChains := None |}
      (router this) in
  match route with
  | Throw e => (Throw e, this)
  | Normal route =>
      let router' :=
        if success
        then AIPaymentRouter.updateHistory (AIPaymentRouter.chain route) route (router this)
        else router this in
      let paymentData :=
        {| FraudDetector.pseudonym := userPseudonym payment;
           FraudDetector.amount := amount payment;
           FraudDetector.timestamp := now;
           FraudDetector.chain := AIPaymentRouter.chain route;
           FraudDetector.commitment := zero_bytes 32 |} in
      (Normal tt,
       {| router := router';
          privacyAdapter := privacyAdapter this;
          fraudDetector := FraudDetector.updatePattern paymentData updated (fraudDetector this) |})
  end.

End X402AIBridge.

(** ** shadowos-intelligence.ts *)

Module ShadowOSIntelligence.
Import JS.

Record IntelligenceConfig := {
  enablePaymentRouting : bool;
  enableReputationLearning : bool;
  enablePrivacyAdaptation : bool;
  enableFraudDetection : bool
}.

(** [Partial<IntelligenceConfig>]: each field present or absent. *)
Record PartialConfig := {
  paymentRouting : option bool;
  reputationLearning : option bool;
  privacyAdaptation : option bool;
  fraudDetection : option bool
}.

Record AiEnabled := {
  ai_paymentRouting : bool;
  ai_reputationLearning : bool;
  ai_privacyAdaptation : bool;
  ai_fraudDetection : bool
}.

Record IntelligenceSummary := {
  reputationScore : number;
  reputationConfidence : number;
  reputationFactors : list string;
  aiEnabled : AiEnabled
}.

(** The object state: the four engines, the bridge (which owns three engines
    of its own) and the configuration. *)
Record t := {
  router : AIPaymentRouter.t;
  reputationLearner : AIReputationLearner.t;
  privacyAdapter : PrivacyAdapter.t;
  fraudDetector : FraudDetector.t;
  x402Bridge : X402AIBridge.t;
  config : IntelligenceConfig
}.

(** The constructor: every flag defaults to [true]; [now] and [now'] are the
    values of [Date.now()] read by the two router constructors. *)
Definition new (config : option PartialConfig) (now now' : number) : t :=
  let flag (field : PartialConfig → option bool) : bool :=
    match config with
    | Some c => default true (field c)
    | None => true
    end in
  {| router := AIPaymentRouter.new now;
     reputationLearner := AIReputationLearner.new;
     privacyAdapter := PrivacyAdapter.new;
     fraudDetector := FraudDetector.new;
     x402Bridge := X402AIBridge.new now';
     config := {| enablePaymentRouting := flag paymentRouting;
                  enableReputationLearning := flag reputationLearning;
                  enablePrivacyAdaptation := flag privacyAdaptation;
                  enableFraudDetection := flag fraudDetection |} |}.

Definition with_bridge (bridge : X402AIBridge.t) (this : t) : t :=
  {| router := router this;
     reputationLearner := reputationLearner this;
     privacyAdapter := privacyAdapter this;
     fraudDetector := fraudDetector this;
     x402Bridge := bridge;
     config := config this |}.

Definition optimizePayment `{Sha256} (request : X402AIBridge.X402PaymentRequest) (now : Z)
    (this : t) : completion X402AIBridge.OptimizedX402Payment * t :=
  let '(result, bridge) := X402AIBridge.optimizePayment request now (x402Bridge this) in
  (result, with_bridge bridge this).

Definition predictReputation `{Sha256} (pseudonym : list byte)
    (paymentHistory : option (list AIReputationLearner.PaymentPattern)) (now : number)
    (this : t) : AIReputationLearner.ReputationPrediction :=
  if negb (enableReputationLearning (config this)) then
    {| AIReputationLearner.score := 50;
       AIReputationLearner.confidence := 0.5;
       AIReputationLearner.factors := ["ai_disabled"] |}
  else AIReputationLearner.predict pseudonym paymentHistory now (reputationLearner this).

Definition adaptPrivacy (context : PrivacyAdapter.PrivacyContext) (this : t)
  : option PrivacyAdapter.PrivacyConfiguration :=
  if negb (enablePrivacyAdaptation (config this)) then
    Some {| PrivacyAdapter.level := PrivacyAdapter.medium;
            PrivacyAdapter.proofSize := 2048;
            PrivacyAdapter.verifyTime := 50;
            PrivacyAdapter.zkProofRequired := true;
            PrivacyAdapter.merkleDepth := 12;
            PrivacyAdapter.polynomialDegree := 8 |}
  else PrivacyAdapter.adaptPrivacyLevel context (privacyAdapter this).

Definition assessFraud `{Sha256} (payment : FraudDetector.PaymentData) (this : t)
  : completion FraudDetector.FraudAssessment * t :=
  if negb (enableFraudDetection (config this)) then
    (Normal {| FraudDetector.riskScore := 0.5;
               FraudDetector.riskLevel := FraudDetector.medium;
               FraudDetector.anomalies := [];
               FraudDetector.confidence := 0.5 |},
     this)
  else
    let '(result, detector) :=
      FraudDetector.assessRisk payment
        {| FraudDetector.preservePrivacy := true; FraudDetector.sensitivity := 0.5 |}
        (fraudDetector this) in
    (result,
     {| router := router this;
        reputationLearner := reputationLearner this;
        privacyAdapter := privacyAdapter this;
        fraudDetector := detector;
        x402Bridge := x402Bridge this;
        config := config this |}).

(** The loop of [learnFromPayments] over the payments; [clock i] is the value
    of [Date.now()] read by the [i]-th call of [updatePattern]. *)
Fixpoint updatePatterns (payments : list AIReputationLearner.PaymentPattern) (i : nat)
    (clock : nat → number) (detector : FraudDetector.t) : FraudDetector.t :=
  match payments with
  | [] => detector
  | payment :: rest =>
      let paymentData :=
        {| FraudDetector.pseudonym := AIReputationLearner.pseudonym payment;
           FraudDetector.amount := AIReputationLearner.amount payment;
           FraudDetector.timestamp := AIReputationLearner.timestamp payment;
           FraudDetector.chain := AIReputationLearner.chain payment;
           FraudDetector.commitment := X402AIBridge.zero_bytes 32 |} in
      updatePatterns rest (S i) clock (FraudDetector.updatePattern paymentData (clock i) detector)
  end.

Definition learnFromPayments (payments : list AIReputationLearner.PaymentPattern)
    (clock : nat → number) (this : t) : t :=
  let learner :=
    if enableReputationLearning (config this)
    then AIReputationLearner.learnFromPayments payments (reputationLearner this)
    else reputationLearner this in
  let detector :=
    if enableFraudDetection (config this)
    then updatePatterns payments 0 clock (fraudDetector this)
    else fraudDetector this in
  {| router := router this;
     reputationLearner := learner;
     privacyAdapter := privacyAdapter this;
     fraudDetector := detector;
     x402Bridge := x402Bridge this;
     config := config this |}.

Definition getIntelligenceSummary `{Sha256} (pseudonym : list byte) (now : number) (this : t)
  : IntelligenceSummary :=
  let reputation := predictReputation pseudonym None now this in
  {| reputationScore := AIReputationLearner.score reputation;
     reputationConfidence := AIReputationLearner.confidence reputation;
     reputationFactors := AIReputationLearner.factors reputation;
     aiEnabled :=
       {| ai_paymentRouting := enablePaymentRouting (config this);
          ai_reputationLearning := enableReputationLearning (config this);
          ai_privacyAdaptation := enablePrivacyAdaptation (config this);
          ai_fraudDetection := enableFraudDetection (config this) |} |}.

End ShadowOSIntelligence.


(** * Vocabulary of the properties *)

(** The position of a risk level in low < medium < high < critical. *)
Definition level_rank (l : FraudDetector.RiskLevel) : nat :=
  match l with
  | FraudDetector.low => 0
  | FraudDetector.medium => 1
  | FraudDetector.high => 2
  | FraudDetector.critical => 3
  end.

(** [adjustLevel] as JavaScript computes it, on binary64 numbers: the index
    arithmetic, [Math.min], [Math.max], and the array read at the resulting
    number. *)
Definition adjustLevel_number (level : PrivacyAdapter.PrivacyLevel) (steps : JS.number)
  : option PrivacyAdapter.PrivacyLevel :=
  let currentIndex := JS.Number_of_bigint (PrivacyAdapter.indexOf PrivacyAdapter.levels level) in
  let newIndex :=
    JS.Math_max 0 (JS.Math_min (JS.Number_of_nat (length PrivacyAdapter.levels) - 1)
                               (currentIndex + steps)) in
  match JS.BigInt newIndex with
  | JS.Normal i => PrivacyAdapter.at_index PrivacyAdapter.levels i
  | JS.Throw _ => None
  end.

(** The append both record methods perform: push, then drop the oldest entry
    when the capacity is exceeded. *)
Definition push_bounded {A} (capacity : nat) (history : list A) (x : A) : list A :=
  let history := history ++ [x] in
  if (capacity <? length history)%nat then drop 1 history else history.

(** A run of [updateHistory] calls, oldest first, and what it recorded for a
    chain. *)
Definition recordRoutes (calls : list (string * AIPaymentRouter.PaymentRoute))
    (this : AIPaymentRouter.t) : AIPaymentRouter.t :=
  fold_left (λ this call, AIPaymentRouter.updateHistory call.1 call.2 this) calls this.

Definition routes_recorded (chain : string)
    (calls : list (string * AIPaymentRouter.PaymentRoute)) : list AIPaymentRouter.PaymentRoute :=
  (filter (λ call, call.1 = chain) calls).*2.

(** A run of [updateThreatHistory] calls, oldest first, and what it recorded
    under a hexadecimal key. *)
Definition recordThreats (calls : list (list byte * PrivacyAdapter.ThreatLevel))
    (this : PrivacyAdapter.t) : PrivacyAdapter.t :=
  fold_left (λ this call, PrivacyAdapter.updateThreatHistory call.1 call.2 this) calls this.

Definition threats_recorded (key : string)
    (calls : list (list byte * PrivacyAdapter.ThreatLevel)) : list PrivacyAdapter.ThreatLevel :=
  (filter (λ call, bytesToHex call.1 = key) calls).*2.

(** A pattern after [chains.add(chain)], and the detector in which the
    pattern stored for the pseudonym of [payment], if any, has had the chain
    of [payment] added. *)
Definition with_chain (chain : string) (pattern : FraudDetector.PaymentPattern)
  : FraudDetector.PaymentPattern :=
  {| FraudDetector.pattern_pseudonym := FraudDetector.pattern_pseudonym pattern;
     FraudDetector.payments := FraudDetector.payments pattern;
     FraudDetector.pattern_frequency := FraudDetector.pattern_frequency pattern;
     FraudDetector.avgAmount := FraudDetector.avgAmount pattern;
     FraudDetector.chains := FraudDetector.chains pattern ∪ {[ chain ]};
     FraudDetector.lastUpdated := FraudDetector.lastUpdated pattern |}.

Definition chain_noted (payment : FraudDetector.PaymentData) (this : FraudDetector.t)
  : FraudDetector.t :=
  {| FraudDetector.patterns :=
       alter (with_chain (FraudDetector.chain payment))
             (bytesToHex (FraudDetector.pseudonym payment))
             (FraudDetector.patterns this);
     FraudDetector.anomalyThreshold := FraudDetector.anomalyThreshold this |}.

(** The routes a call of [findOptimalRoute] ranks: those of the available
    chains that have metrics, sorted by descending score. *)
Definition rankedRoutes (options : AIPaymentRouter.RoutingOptions) (this : AIPaymentRouter.t)
  : list AIPaymentRouter.PaymentRoute :=
  match AIPaymentRouter.analyzeChains
          (default AIPaymentRouter.allChains (AIPaymentRouter.preferredChains options))
          options this with
  | JS.Normal routes => Array_sort AIPaymentRouter.compareRoutes routes
  | JS.Throw _ => []
  end.

(** The combined filter under a gas ceiling: the privacy threshold of the
    requested level, and the ceiling. *)
Definition passes (options : AIPaymentRouter.RoutingOptions) (maxGas : Z)
    (r : AIPaymentRouter.PaymentRoute) : Prop :=
  JS.geb (AIPaymentRouter.privacyScore r)
         (AIPaymentRouter.getPrivacyScore (AIPaymentRouter.privacyLevel options)) = true
  ∧ (AIPaymentRouter.estimatedGas r <=? maxGas)%Z = true.

Global Instance passes_dec options maxGas r : Decision (passes options maxGas r).
Proof. unfold passes. apply _. Defined.

(** The proof size of a level, in bytes. *)
Definition proofSizeBytes (l : PrivacyAdapter.PrivacyLevel) : Z :=
  match l with
  | PrivacyAdapter.low => 1024
  | PrivacyAdapter.medium => 2048
  | PrivacyAdapter.high => 4096
  | PrivacyAdapter.maximum => 8192
  end.

(** [ceiling_of x n]: the integer [n] is the ceiling of the finite binary64
    value [x = (-1)^s * m * 2^e], that is [n - 1 < x <= n], written on
    integers.  NaN and the infinities have no ceiling. *)
Definition ceiling_of (x : spec_float) (n : Z) : Prop :=
  match x with
  | S754_zero _ => n = 0%Z
  | S754_finite s m e =>
      let v := cond_Zopp s (Z.pos m) in
      if (0 <=? e)%Z then (n - 1 < v * 2 ^ e ≤ n)%Z
      else ((n - 1) * 2 ^ (- e) < v ≤ n * 2 ^ (- e))%Z
  | S754_infinity _ | S754_nan => False
  end.

(** The risk score without the contribution of the amount deviation: the
    anomalies, the frequency and the time pattern only. *)
Definition riskScore_without_deviation (anomalies : list string)
    (features : FraudDetector.FeatureSet) : JS.number :=
  let risk := 0%float in
  let risk := (risk + JS.Number_of_nat (length anomalies) * 0.15)%float in
  let risk :=
    if JS.gtb (FraudDetector.frequency features) 0.9 then (risk + 0.2)%float else risk in
  let risk :=
    if (FraudDetector.timePattern features =? 0)%float then (risk + 0.1)%float else risk in
  JS.Math_min 1.0 risk.

(** ** Sample inputs *)

(** A detector that has seen one payment on ethereum, a payment of the same
    pseudonym on another chain, and the options of direct mode. *)
Definition payment_on (chain : string) : FraudDetector.PaymentData :=
  {| FraudDetector.pseudonym := [x01];
     FraudDetector.amount := 1000;
     FraudDetector.timestamp := 0;
     FraudDetector.chain := chain;
     FraudDetector.commitment := [] |}.

Definition detector_after_ethereum : FraudDetector.t :=
  FraudDetector.updatePattern (payment_on "ethereum") 0 FraudDetector.new.

Definition direct_mode : FraudDetector.DetectionOptions :=
  {| FraudDetector.preservePrivacy := false; FraudDetector.sensitivity := 0.5 |}.

(** A feature set on which every rule of the detector fires. *)
Definition suspicious_features : FraudDetector.FeatureSet :=
  {| FraudDetector.amountCategory := 5;
     FraudDetector.timePattern := 0;
     FraudDetector.chainPattern := 6;
     FraudDetector.frequency := 0.85;
     FraudDetector.amountDeviation := 0.6 |}.

(** One successful payment, as a payment history. *)
Definition one_payment : list AIReputationLearner.PaymentPattern :=
  [{| AIReputationLearner.pseudonym := [x01];
      AIReputationLearner.amount := 1000;
      AIReputationLearner.timestamp := 0;
      AIReputationLearner.chain := "ethereum";
      AIReputationLearner.success := true |}].

(** A router whose only record for ethereum is a route with success rate
    0.5, and a request for high privacy among bsc and ethereum under a gas
    ceiling. *)
Definition failed_ethereum_route : AIPaymentRouter.PaymentRoute :=
  {| AIPaymentRouter.chain := "ethereum";
     AIPaymentRouter.estimatedGas := 21000;
     AIPaymentRouter.privacyScore := 0.84;
     AIPaymentRouter.successRate := 0.5;
     AIPaymentRouter.estimatedTime := 144000 |}.

Definition router_with_failure : AIPaymentRouter.t :=
  AIPaymentRouter.updateHistory "ethereum" failed_ethereum_route (AIPaymentRouter.new 0).

Definition options_with_ceiling (maxGas : Z) : AIPaymentRouter.RoutingOptions :=
  {| AIPaymentRouter.amount := 1;
     AIPaymentRouter.targetChain := None;
     AIPaymentRouter.privacyLevel := PrivacyAdapter.high;
     AIPaymentRouter.maxGasPrice := Some maxGas;
     AIPaymentRouter.preferredChains := Some ["bsc"; "ethereum"] |}.

(** The routes of bsc and of ethereum in that request. *)
Definition bsc_route : AIPaymentRouter.PaymentRoute :=
  {| AIPaymentRouter.chain := "bsc";
     AIPaymentRouter.estimatedGas := 21000;
     AIPaymentRouter.privacyScore := (0.5 * 1.2)%float;
     AIPaymentRouter.successRate := 0.97;
     AIPaymentRouter.estimatedTime := 36000 |}.

Definition ethereum_route : AIPaymentRouter.PaymentRoute :=
  {| AIPaymentRouter.chain := "ethereum";
     AIPaymentRouter.estimatedGas := 21000;
     AIPaymentRouter.privacyScore := (0.7 * 1.2)%float;
     AIPaymentRouter.successRate := 0;
     AIPaymentRouter.estimatedTime := 144000 |}.


(** ** Vocabulary of the further properties *)

(** The byte written by two hexadecimal digits, by search among the 256
    bytes. *)
Definition all_bytes : list byte := omap (λ n, Byte.of_N (N.of_nat n)) (seq 0 256).

Definition hex_to_byte (s : string) : option byte :=
  head (filter (λ b, byte_to_hex b = s) all_bytes).

(** A run of [updatePattern] calls, oldest first, each with the clock value
    it read, and the calls made for the pseudonym of a hexadecimal key. *)
Definition recordPayments (calls : list (FraudDetector.PaymentData * JS.number))
    (this : FraudDetector.t) : FraudDetector.t :=
  fold_left (λ this call, FraudDetector.updatePattern call.1 call.2 this) calls this.

Definition payments_recorded (key : string) (calls : list (FraudDetector.PaymentData * JS.number))
  : list (FraudDetector.PaymentData * JS.number) :=
  filter (λ call, bytesToHex (FraudDetector.pseudonym call.1) = key) calls.

(** The value of a threat level (the table [threatValues], as an integer)
    and the total of a list of threats. *)
Definition threat_value (t : PrivacyAdapter.ThreatLevel) : Z :=
  match t with
  | PrivacyAdapter.Threat.low => 1
  | PrivacyAdapter.Threat.medium => 2
  | PrivacyAdapter.Threat.high => 3
  | PrivacyAdapter.Threat.critical => 4
  end.

Definition threat_total (threats : list PrivacyAdapter.ThreatLevel) : Z :=
  foldr (λ t total, threat_value t + total)%Z 0%Z threats.

(** The class of the mean [total / n], decided on integers: critical from
    3.5, high from 2.5, medium from 1.5, low below. *)
Definition mean_class (total n : Z) : PrivacyAdapter.ThreatLevel :=
  if (7 * n <=? 2 * total)%Z then PrivacyAdapter.Threat.critical
  else if (5 * n <=? 2 * total)%Z then PrivacyAdapter.Threat.high
  else if (3 * n <=? 2 * total)%Z then PrivacyAdapter.Threat.medium
  else PrivacyAdapter.Threat.low.

(** The class of the mean as [calculateAverageThreat] computes it, on
    binary64 numbers. *)
Definition mean_class_number (total n : Z) : PrivacyAdapter.ThreatLevel :=
  let avg := (JS.Number_of_bigint total / JS.Number_of_bigint n)%float in
  if JS.geb avg 3.5 then PrivacyAdapter.Threat.critical
  else if JS.geb avg 2.5 then PrivacyAdapter.Threat.high
  else if JS.geb avg 1.5 then PrivacyAdapter.Threat.medium
  else PrivacyAdapter.Threat.low.

(** An index clamped into the array of levels. *)
Definition clamp (i : Z) : Z := Z.max 0 (Z.min 3 i).

(** The steps [adaptPrivacyLevel] takes for the amount and for the network
    conditions of a context.  An absent amount and the amount [0n] take none. *)
Definition amountStep (amount : option Z) : Z :=
  match amount with
  | Some a =>
      if (a =? 0)%Z then 0
      else if (10000000 <? a)%Z then 1
      else if (1000000 <? a)%Z then 0
      else -1
  | None => 0
  end%Z.

Definition networkStep (conditions : option PrivacyAdapter.NetworkConditions) : Z :=
  match conditions with
  | Some c =>
      if JS.gtb (PrivacyAdapter.congestion c) 0.8 then -1
      else if (PrivacyAdapter.networkHealth c <? 0.7)%float then 1
      else 0
  | None => 0
  end%Z.

(** A context with its threat level replaced, the rank of a threat level
    (the index of the privacy level it maps to), and a context that supplies
    nothing but the pseudonym and the transaction type. *)
Definition with_threat (threat : option PrivacyAdapter.ThreatLevel)
    (context : PrivacyAdapter.PrivacyContext) : PrivacyAdapter.PrivacyContext :=
  {| PrivacyAdapter.userPseudonym := PrivacyAdapter.userPseudonym context;
     PrivacyAdapter.transactionType := PrivacyAdapter.transactionType context;
     PrivacyAdapter.amount := PrivacyAdapter.amount context;
     PrivacyAdapter.threatLevel := threat;
     PrivacyAdapter.networkConditions := PrivacyAdapter.networkConditions context |}.

Definition threat_rank (t : PrivacyAdapter.ThreatLevel) : Z :=
  PrivacyAdapter.indexOf PrivacyAdapter.levels (PrivacyAdapter.threatToPrivacyLevel t).

Definition unassessed (pseudonym : list byte) (type : PrivacyAdapter.TransactionType)
  : PrivacyAdapter.PrivacyContext :=
  {| PrivacyAdapter.userPseudonym := pseudonym;
     PrivacyAdapter.transactionType := type;
     PrivacyAdapter.amount := None;
     PrivacyAdapter.threatLevel := None;
     PrivacyAdapter.networkConditions := None |}.

(** Routing options with the target chain replaced. *)
Definition with_target (target : option string) (options : AIPaymentRouter.RoutingOptions)
  : AIPaymentRouter.RoutingOptions :=
  {| AIPaymentRouter.amount := AIPaymentRouter.amount options;
     AIPaymentRouter.targetChain := target;
     AIPaymentRouter.privacyLevel := AIPaymentRouter.privacyLevel options;
     AIPaymentRouter.maxGasPrice := AIPaymentRouter.maxGasPrice options;
     AIPaymentRouter.preferredChains := AIPaymentRouter.preferredChains options |}.

(** The route [calculateRoute] builds for solana under the constructor's
    metrics: gas 5000, or 6000 above 1000000 units, and 400 ms * 12 blocks. *)
Definition solana_route (amount : Z) (level : PrivacyAdapter.PrivacyLevel)
    (successRate : JS.number) : AIPaymentRouter.PaymentRoute :=
  {| AIPaymentRouter.chain := "solana";
     AIPaymentRouter.estimatedGas := if (1000000 <? amount)%Z then 6000 else 5000;
     AIPaymentRouter.privacyScore := AIPaymentRouter.calculatePrivacyScore "solana" level;
     AIPaymentRouter.successRate := successRate;
     AIPaymentRouter.estimatedTime := 4800 |}.

(** The routers the bridge can hold: the metrics are those of the
    constructor, only solana has a routing history, of at most 100 routes,
    each of success rate above 0.9. *)
Definition solana_only (this : AIPaymentRouter.t) : Prop :=
  (∃ now, AIPaymentRouter.chainMetrics this = AIPaymentRouter.initializeChainMetrics now)
  ∧ (∀ chain, chain ≠ "solana" → AIPaymentRouter.routingHistory this !! chain = None)
  ∧ length (default [] (AIPaymentRouter.routingHistory this !! "solana")) ≤ 100
  ∧ Forall (λ r, JS.gtb (AIPaymentRouter.successRate r) 0.9 = true)
           (default [] (AIPaymentRouter.routingHistory this !! "solana")).

(** A router with no history ([full = false]) or with one successful route
    recorded for solana, and options with no preferred chains and an amount
    on either side of the gas threshold. *)
Definition sample_router (full : bool) : AIPaymentRouter.t :=
  if full
  then AIPaymentRouter.updateHistory "solana" (solana_route 0 PrivacyAdapter.low 1%float)
         (AIPaymentRouter.new 0)
  else AIPaymentRouter.new 0.

Definition sample_options (large : bool) (level : PrivacyAdapter.PrivacyLevel)
    (target : option string) (maxGas : option Z) : AIPaymentRouter.RoutingOptions :=
  {| AIPaymentRouter.amount := if large then 1000001 else 0;
     AIPaymentRouter.targetChain := target;
     AIPaymentRouter.privacyLevel := level;
     AIPaymentRouter.maxGasPrice := maxGas;
     AIPaymentRouter.preferredChains := None |}.



(** The pattern names [identifyPatterns] can report. *)
Definition patternTypes : list string := ["regular"; "high_value"; "multi_chain"].

(** A call of the bridge's [learnFromPayment] with the clock values it
    reads, and a run of such calls, oldest first. *)
Record Learned := {
  learned_payment : X402AIBridge.X402PaymentRequest;
  learned_success : bool;
  learned_gas : Z;
  learned_now : Z;
  learned_updated : JS.number
}.

Definition learnAll `{Sha256} (calls : list Learned) (this : X402AIBridge.t) : X402AIBridge.t :=
  fold_left
    (λ this call,
       (X402AIBridge.learnFromPayment (learned_payment call) (learned_success call)
          (learned_gas call) (learned_now call) (learned_updated call) this).2)
    calls this.

(** The calls of the facade that return a new state, each with the clock
    values it reads, and a run of them, oldest first. *)
Inductive FacadeCall :=
  | OptimizePayment (request : X402AIBridge.X402PaymentRequest) (now : Z)
  | AssessFraud (payment : FraudDetector.PaymentData)
  | LearnFromPayments (payments : list AIReputationLearner.PaymentPattern)
      (clock : nat → JS.number).

Definition facadeCall `{Sha256} (this : ShadowOSIntelligence.t) (call : FacadeCall)
  : ShadowOSIntelligence.t :=
  match call with
  | OptimizePayment request now => (ShadowOSIntelligence.optimizePayment request now this).2
  | AssessFraud payment => (ShadowOSIntelligence.assessFraud payment this).2
  | LearnFromPayments payments clock =>
      ShadowOSIntelligence.learnFromPayments payments clock this
  end.

Definition facadeRun `{Sha256} (calls : list FacadeCall) (this : ShadowOSIntelligence.t)
  : ShadowOSIntelligence.t :=
  fold_left facadeCall calls this.

(** The part of the facade's state besides the learner's weights and the
    detector's patterns: its router, privacy adapter, bridge and
    configuration, and the learner's training flag and training data. *)
Definition facade_frame (this : ShadowOSIntelligence.t)
  : AIPaymentRouter.t * PrivacyAdapter.t * X402AIBridge.t * ShadowOSIntelligence.IntelligenceConfig
    * bool * list AIReputationLearner.TrainingData :=
  (ShadowOSIntelligence.router this, ShadowOSIntelligence.privacyAdapter this,
   ShadowOSIntelligence.x402Bridge this, ShadowOSIntelligence.config this,
   AIReputationLearner.isTrained (ShadowOSIntelligence.reputationLearner this),
   AIReputationLearner.trainingData (ShadowOSIntelligence.reputationLearner this)).

(** ** Further sample inputs *)

(** The payment the bridge assesses (a commitment of 32 zero bytes), the
    options it assesses with, and the assessment under SHA-256. *)
Definition bridge_payment : FraudDetector.PaymentData :=
  {| FraudDetector.pseudonym := [x01];
     FraudDetector.amount := 5000000;
     FraudDetector.timestamp := 0;
     FraudDetector.chain := "solana";
     FraudDetector.commitment := X402AIBridge.zero_bytes 32 |}.

Definition private_mode : FraudDetector.DetectionOptions :=
  {| FraudDetector.preservePrivacy := true; FraudDetector.sensitivity := 0.5 |}.

Definition low_risk : FraudDetector.FraudAssessment :=
  {| FraudDetector.riskScore := 0.1;
     FraudDetector.riskLevel := FraudDetector.low;
     FraudDetector.anomalies := [];
     FraudDetector.confidence := 0.7 |}.

(** A payment context with congested network conditions, and three recorded
    threats of one pseudonym. *)
Definition congested_context : PrivacyAdapter.PrivacyContext :=
  {| PrivacyAdapter.userPseudonym := [x01];
     PrivacyAdapter.transactionType := PrivacyAdapter.payment;
     PrivacyAdapter.amount := Some 20000000%Z;
     PrivacyAdapter.threatLevel := None;
     PrivacyAdapter.networkConditions :=
       Some {| PrivacyAdapter.congestion := 0.9;
               PrivacyAdapter.avgGasPrice := 20;
               PrivacyAdapter.networkHealth := 0.95 |} |}.

Definition three_threats : list (list byte * PrivacyAdapter.ThreatLevel) :=
  [([x01], PrivacyAdapter.Threat.high); ([x02], PrivacyAdapter.Threat.low);
   ([x01], PrivacyAdapter.Threat.critical); ([x01], PrivacyAdapter.Threat.medium)].

(** Options for medium privacy with no constraint, and a history of three
    payments of 2000000 units. *)
Definition plain_options : AIPaymentRouter.RoutingOptions :=
  {| AIPaymentRouter.amount := 1;
     AIPaymentRouter.targetChain := None;
     AIPaymentRouter.privacyLevel := PrivacyAdapter.medium;
     AIPaymentRouter.maxGasPrice := None;
     AIPaymentRouter.preferredChains := None |}.

Definition large_payments : list AIReputationLearner.PaymentPattern :=
  map (λ t, {| AIReputationLearner.pseudonym := [x01];
               AIReputationLearner.amount := 2000000;
               AIReputationLearner.timestamp := t;
               AIReputationLearner.chain := "ethereum";
               AIReputationLearner.success := true |})
      [0; 1000; 5000]%Z.


(** * Properties *)

(** ** The order of binary64 values

    The comparisons of [float] are specified by [SFcompare] on the decoded
    values, which orders them by sign, exponent and mantissa. *)

Section FloatOrder.

Local Ltac sf_cases :=
  unfold SFltb, SFleb, SFcompare;
  repeat match goal with
         | |- context [match ?x with S754_zero _ => _ | _ => _ end] => is_var x; destruct x
         | |- context [if ?b then _ else _] => is_var b; destruct b
         end;
  try (intros; discriminate); try reflexivity;
  change (Pos.compare_cont Eq) with Pos.compare;
  repeat match goal with
         | |- context [Z.compare ?a ?b] => destruct (Z.compare_spec a b)
         | |- context [Pos.compare ?a ?b] => destruct (Pos.compare_spec a b)
         end;
  simpl; intros; try discriminate; try reflexivity; try lia.

Lemma SFltb_leb_trans a b c : SFltb a b = true → SFleb b c = true → SFltb a c = true.
Proof. sf_cases. Qed.

Lemma SFleb_trans a b c : SFleb a b = true → SFleb b c = true → SFleb a c = true.
Proof. sf_cases. Qed.

Lemma SFltb_not_leb a b : SFltb a b = true → SFleb b a = false.
Proof. sf_cases. Qed.

Lemma ltb_leb_trans (x y z : float) :
  (x <? y)%float = true → (y <=? z)%float = true → (x <? z)%float = true.
Proof. rewrite !ltb_spec, leb_spec. apply SFltb_leb_trans. Qed.

Lemma leb_trans (x y z : float) :
  (x <=? y)%float = true → (y <=? z)%float = true → (x <=? z)%float = true.
Proof. rewrite !leb_spec. apply SFleb_trans. Qed.

Lemma ltb_not_leb (x y : float) : (x <? y)%float = true → (y <=? x)%float = false.
Proof. rewrite ltb_spec, leb_spec. apply SFltb_not_leb. Qed.

(** A value below [y] is not at or above any [z] that is at or above [y]. *)
Lemma ltb_leb_false (x y z : float) :
  (x <? y)%float = true → (y <=? z)%float = true → (z <=? x)%float = false.
Proof. intros Hxy Hyz. apply ltb_not_leb. by apply ltb_leb_trans with y. Qed.

Lemma SFleb_not_ltb a b : SFleb a b = true → SFltb b a = false.
Proof. sf_cases. Qed.

Lemma SFleb_ltb_trans a b c : SFleb a b = true → SFltb b c = true → SFltb a c = true.
Proof. sf_cases. Qed.

Lemma leb_ltb_trans (x y z : float) :
  (x <=? y)%float = true → (y <? z)%float = true → (x <? z)%float = true.
Proof. rewrite !ltb_spec, leb_spec. apply SFleb_ltb_trans. Qed.

Lemma leb_not_ltb (x y : float) : (x <=? y)%float = true → (y <? x)%float = false.
Proof. rewrite ltb_spec, leb_spec. apply SFleb_not_ltb. Qed.

(** Two values that are not NaN are comparable. *)
Lemma SFltb_total a b :
  SFeqb a a = true → SFeqb b b = true → SFltb a b = false → SFleb b a = true.
Proof. unfold SFeqb. sf_cases. Qed.

Lemma SFltb_leb a b : SFltb a b = true → SFleb a b = true.
Proof. sf_cases. Qed.

Lemma ltb_total (x y : float) :
  is_nan x = false → is_nan y = false → (x <? y)%float = false → (y <=? x)%float = true.
Proof.
  unfold is_nan. rewrite !negb_false_iff, !FloatAxioms.eqb_spec, ltb_spec, leb_spec.
  apply SFltb_total.
Qed.

Lemma ltb_leb (x y : float) : (x <? y)%float = true → (x <=? y)%float = true.
Proof. rewrite ltb_spec, leb_spec. apply SFltb_leb. Qed.

(** NaN is absorbing for the sum and the product. *)
Lemma add_nan_r (x : float) : (x + nan)%float = nan.
Proof.
  apply Prim2SF_inj. rewrite add_spec.
  change (Prim2SF nan) with S754_nan. unfold SF64add, SFadd. by destruct (Prim2SF x).
Qed.

Lemma add_nan_l (x : float) : (nan + x)%float = nan.
Proof. apply Prim2SF_inj. rewrite add_spec. reflexivity. Qed.

Lemma mul_nan_l (x : float) : (nan * x)%float = nan.
Proof. apply Prim2SF_inj. rewrite mul_spec. reflexivity. Qed.

End FloatOrder.

(** ** The hash instance *)

Section Digest.
Import SHA256.

Lemma length_big_endian (n : nat) (x : Z) : length (big_endian n x) = n.
Proof. unfold big_endian. by rewrite length_map, length_rev, length_seq. Qed.

Lemma length_digest (m : list byte) : length (digest m) = 32.
Proof. unfold digest. by rewrite !length_app, !length_big_endian. Qed.

(** The digests of the empty message, of "abc" and of 32 zero bytes. *)
Example digest_empty :
  bytesToHex (digest [])
  = "e3b0c44298fc1c149afbf4c8996fb92427ae41e4649b934ca495991b7852b855".
Proof. by vm_compute. Qed.

Example digest_abc :
  bytesToHex (digest [x61; x62; x63])
  = "ba7816bf8f01cfea414140de5dae2223b00361a396177a9cb410ff61f20015ad".
Proof. by vm_compute. Qed.

Example digest_zero_bytes :
  bytesToHex (digest (X402AIBridge.zero_bytes 32))
  = "66687aadf862bd776c8fc18b8e9f8e20089714856ee233b3902a591d0d5f2925".
Proof. by vm_compute. Qed.

End Digest.

(** ** Score to risk level (fraud-detector.ts, [scoreToLevel]) *)

Section ScoreToLevel.
Import JS FraudDetector.

Lemma scoreToLevel_critical s : (0.8 <=? s)%float = true → scoreToLevel s = critical.
Proof. unfold scoreToLevel, geb. by intros ->. Qed.

Lemma scoreToLevel_high s :
  (0.6 <=? s)%float = true → (s <? 0.8)%float = true → scoreToLevel s = high.
Proof.
  unfold scoreToLevel, geb. intros -> Hlt. by rewrite (ltb_not_leb _ _ Hlt).
Qed.

Lemma scoreToLevel_medium s :
  (0.4 <=? s)%float = true → (s <? 0.6)%float = true → scoreToLevel s = medium.
Proof.
  unfold scoreToLevel, geb. intros -> Hlt.
  rewrite (ltb_not_leb _ _ Hlt). by rewrite (ltb_leb_false s 0.6 0.8 Hlt).
Qed.

Lemma scoreToLevel_low s : (s <? 0.4)%float = true → scoreToLevel s = low.
Proof.
  unfold scoreToLevel, geb. intros Hlt.
  rewrite (ltb_not_leb _ _ Hlt).
  rewrite (ltb_leb_false s 0.4 0.6 Hlt) by done.
  by rewrite (ltb_leb_false s 0.4 0.8 Hlt).
Qed.

Lemma scoreToLevel_monotone s1 s2 :
  (s1 <=? s2)%float = true → level_rank (scoreToLevel s1) ≤ level_rank (scoreToLevel s2).
Proof.
  intros Hle. unfold scoreToLevel, geb.
  destruct (0.8 <=? s1)%float eqn:H8.
  { by rewrite (leb_trans _ _ _ H8 Hle). }
  destruct (0.6 <=? s1)%float eqn:H6.
  { rewrite (leb_trans _ _ _ H6 Hle). destruct (0.8 <=? s2)%float; simpl; lia. }
  destruct (0.4 <=? s1)%float eqn:H4.
  { rewrite (leb_trans _ _ _ H4 Hle).
    destruct (0.8 <=? s2)%float, (0.6 <=? s2)%float; simpl; lia. }
  simpl. lia.
Qed.

(** C3.  The score-to-level mapping has the cut points 0.8, 0.6 and 0.4, each
    belonging to the level above it: a score at or above 0.8 is critical, one
    in [0.6, 0.8) is high, one in [0.4, 0.6) is medium and one below 0.4 is
    low; the mapping is monotone non-decreasing in the score; and 0.8 itself
    is critical, while 0.79999 and the binary64 value just below 0.8 are
    high. *)
Theorem scoreToLevel_cut_points :
  (∀ s, (0.8 <=? s)%float = true → scoreToLevel s = critical)
  ∧ (∀ s, (0.6 <=? s)%float = true → (s <? 0.8)%float = true → scoreToLevel s = high)
  ∧ (∀ s, (0.4 <=? s)%float = true → (s <? 0.6)%float = true → scoreToLevel s = medium)
  ∧ (∀ s, (s <? 0.4)%float = true → scoreToLevel s = low)
  ∧ (∀ s1 s2, (s1 <=? s2)%float = true →
       level_rank (scoreToLevel s1) ≤ level_rank (scoreToLevel s2))
  ∧ scoreToLevel 0.8 = critical
  ∧ scoreToLevel (next_down 0.8) = high
  ∧ scoreToLevel 0.79999 = high.
Proof.
  split; [exact scoreToLevel_critical|].
  split; [exact scoreToLevel_high|].
  split; [exact scoreToLevel_medium|].
  split; [exact scoreToLevel_low|].
  split; [exact scoreToLevel_monotone|].
  by vm_compute.
Qed.

End ScoreToLevel.

(** ** Anomaly detection (fraud-detector.ts, [detectAnomalies]) *)

Section DetectAnomalies.
Import JS FraudDetector.

(** A gate that a sensitivity passes is passed by every larger one. *)
Lemma gate_monotone (gate s1 s2 : number) :
  (s1 <=? s2)%float = true → gtb s1 gate = true → gtb s2 gate = true.
Proof. unfold gtb. intros Hle Hgt. by apply ltb_leb_trans with s1. Qed.

(** One rule of the detector: it reports [name] when the feature test [fires]
    and the sensitivity is above the rule's gate. *)
Lemma rule_monotone (fires : bool) (gate s1 s2 : number) (name : string) :
  (s1 <=? s2)%float = true →
  sublist (if fires && gtb s1 gate then [name] else [])
          (if fires && gtb s2 gate then [name] else []).
Proof.
  intros Hle. destruct fires; simpl; [|done].
  destruct (gtb s1 gate) eqn:Hg.
  - by rewrite (gate_monotone _ _ _ Hle Hg).
  - apply sublist_nil_l.
Qed.

(** C4.  Anomaly detection is monotone in the sensitivity: for a fixed
    feature set and sensitivities s1 <= s2, the anomalies reported at s1 are
    reported at s2, in the same order. *)
Theorem detectAnomalies_monotone (features : FeatureSet) (s1 s2 : number) :
  (s1 <=? s2)%float = true →
  sublist (detectAnomalies features s1) (detectAnomalies features s2)
  ∧ ∀ a, a ∈ detectAnomalies features s1 → a ∈ detectAnomalies features s2.
Proof.
  intros Hle.
  assert (sublist (detectAnomalies features s1) (detectAnomalies features s2)) as Hsub.
  { unfold detectAnomalies. repeat apply sublist_app; by apply rule_monotone. }
  split; [done|]. intros a Ha. by apply (elem_of_sublist _ _ _ Ha).
Qed.

(** At the sensitivity 0.35 only the first rule is past its gate; at 0.75 all
    five are. *)
Example detectAnomalies_at_two_sensitivities :
  detectAnomalies suspicious_features 0.35 = ["unusual_amount_category"]
  ∧ detectAnomalies suspicious_features 0.75
    = ["unusual_amount_category"; "high_frequency"; "high_amount_deviation";
       "irregular_timing"; "excessive_chain_switching"].
Proof. by vm_compute. Qed.

End DetectAnomalies.

Lemma detectAnomalies_monotone_witness :
  sublist (FraudDetector.detectAnomalies suspicious_features 0.35)
          (FraudDetector.detectAnomalies suspicious_features 0.75)
  ∧ ∀ a, a ∈ FraudDetector.detectAnomalies suspicious_features 0.35 →
         a ∈ FraudDetector.detectAnomalies suspicious_features 0.75.
Proof.
  apply (detectAnomalies_monotone suspicious_features 0.35%float 0.75%float). reflexivity.
Defined.

(** ** Level stepping (privacy-adapter.ts, [adjustLevel]) *)

Section AdjustLevel.
Import PrivacyAdapter.

Lemma indexOf_levels (l : PrivacyLevel) :
  indexOf levels l = match l with low => 0 | medium => 1 | high => 2 | maximum => 3 end%Z.
Proof. by destruct l. Qed.

Lemma at_index_levels (i : Z) :
  (0 ≤ i ≤ 3)%Z → ∃ l, at_index levels i = Some l ∧ indexOf levels l = i.
Proof.
  intros Hi.
  assert (i = 0 ∨ i = 1 ∨ i = 2 ∨ i = 3)%Z as [-> | [-> | [-> | ->]]] by lia;
    [by exists low | by exists medium | by exists high | by exists maximum].
Qed.

(** Stepping always yields a level, the one whose position is the clamped sum. *)
Lemma adjustLevel_index (level : PrivacyLevel) (steps : Z) :
  ∃ l, adjustLevel level steps = Some l
       ∧ indexOf levels l = Z.max 0 (Z.min 3 (indexOf levels level + steps)).
Proof. unfold adjustLevel. apply at_index_levels. simpl. lia. Qed.

(** On the steps the adapter uses, and well beyond, the integer arithmetic of
    [adjustLevel] is what the computation on binary64 numbers yields. *)
Lemma adjustLevel_number_agrees (level : PrivacyLevel) (steps : Z) :
  (-8 ≤ steps ≤ 8)%Z →
  adjustLevel_number level (JS.Number_of_bigint steps) = adjustLevel level steps.
Proof.
  intros Hs.
  assert (∃ n : nat, n < 17 ∧ steps = (Z.of_nat n - 8)%Z) as (n & Hn & ->).
  { exists (Z.to_nat (steps + 8)). lia. }
  do 17 (destruct n as [|n]; [by destruct level; vm_compute|]). lia.
Qed.

(** C5.  Stepping a level clamps at both ends of low < medium < high <
    maximum: the result is always one of the four levels, at the position
    max(0, min(3, position + steps)), so it neither wraps around nor leaves the
    range; every step of at least +3 yields maximum and every step of at most
    -3 yields low, whatever the starting level. *)
Theorem adjustLevel_clamps (level : PrivacyLevel) (steps : Z) :
  (∃ l, adjustLevel level steps = Some l
        ∧ indexOf levels l = Z.max 0 (Z.min 3 (indexOf levels level + steps)))
  ∧ ((3 ≤ steps)%Z → adjustLevel level steps = Some maximum)
  ∧ ((steps ≤ -3)%Z → adjustLevel level steps = Some low).
Proof.
  split; [apply adjustLevel_index|].
  destruct (adjustLevel_index level steps) as (l & -> & Hl).
  rewrite (indexOf_levels level) in Hl. rewrite (indexOf_levels l) in Hl.
  split; intros Hs; f_equal; destruct level, l; try reflexivity; simpl in Hl; exfalso; lia.
Qed.

End AdjustLevel.

(** ** Bounded histories ([updateHistory] and [updateThreatHistory]) *)

Section Histories.
Import PrivacyAdapter.

Lemma length_slice_last {A} (n : nat) (l : list A) : length (slice_last n l) = length l `min` n.
Proof. unfold slice_last. rewrite length_drop. lia. Qed.

(** Pushing onto the last [n] entries of a log leaves the last [n] entries of
    the extended log. *)
Lemma push_bounded_slice_last {A} (n : nat) (log : list A) (x : A) :
  0 < n → push_bounded n (slice_last n log) x = slice_last n (log ++ [x]).
Proof.
  intros Hn. unfold push_bounded.
  rewrite length_app, length_slice_last. simpl.
  unfold slice_last. rewrite length_app. simpl.
  destruct (Nat.ltb_spec n (length log `min` n + 1)) as [Hfull | Hroom].
  - rewrite !drop_app_le by (rewrite ?length_drop; lia).
    rewrite drop_drop. do 2 f_equal. lia.
  - replace (length log - n) with 0 by lia.
    replace (length log + 1 - n) with 0 by lia. done.
Qed.

Lemma recordRoutes_history now calls chain :
  default [] (AIPaymentRouter.routingHistory (recordRoutes calls (AIPaymentRouter.new now))
                !! chain)
  = slice_last 100 (routes_recorded chain calls).
Proof.
  induction calls as [|[chain' route] calls IH] using rev_ind; [done|].
  unfold recordRoutes, routes_recorded in *.
  rewrite fold_left_app, filter_app, fmap_app. simpl.
  destruct (decide (chain' = chain)) as [-> | Hne].
  - rewrite lookup_insert_eq. simpl.
    rewrite filter_cons_True, filter_nil by done. simpl.
    rewrite <- push_bounded_slice_last by lia. by rewrite <- IH.
  - rewrite lookup_insert_ne by done.
    rewrite filter_cons_False, filter_nil by done. simpl.
    by rewrite app_nil_r.
Qed.

Lemma recordThreats_history calls key :
  default [] (threatHistory (recordThreats calls PrivacyAdapter.new) !! key)
  = slice_last 50 (threats_recorded key calls).
Proof.
  induction calls as [|[pseudonym threat] calls IH] using rev_ind; [done|].
  unfold recordThreats, threats_recorded in *.
  rewrite fold_left_app, filter_app, fmap_app. simpl.
  destruct (decide (bytesToHex pseudonym = key)) as [<- | Hne].
  - rewrite lookup_insert_eq. simpl.
    rewrite filter_cons_True, filter_nil by done. simpl.
    rewrite <- push_bounded_slice_last by lia. by rewrite <- IH.
  - rewrite lookup_insert_ne by done.
    rewrite filter_cons_False, filter_nil by done. simpl.
    by rewrite app_nil_r.
Qed.

(** C2.  After any sequence of record calls on a fresh router (resp. privacy
    adapter), the route history of every chain is the last 100 routes recorded
    for that chain, and the threat history under every key is the last 50
    threats recorded under that key, in recording order.  So a history holds
    as many entries as were recorded under its key, up to 100 (resp. 50) and
    never more, and it is the oldest entries that are missing. *)
Theorem histories_bounded_fifo :
  (∀ now calls chain,
     let history :=
       default [] (AIPaymentRouter.routingHistory
                     (recordRoutes calls (AIPaymentRouter.new now)) !! chain) in
     history = slice_last 100 (routes_recorded chain calls)
     ∧ length history = length (routes_recorded chain calls) `min` 100
     ∧ length history ≤ 100)
  ∧ (∀ calls key,
       let history :=
         default [] (threatHistory (recordThreats calls PrivacyAdapter.new) !! key) in
       history = slice_last 50 (threats_recorded key calls)
       ∧ length history = length (threats_recorded key calls) `min` 50
       ∧ length history ≤ 50).
Proof.
  split.
  - intros now calls chain. simpl. rewrite recordRoutes_history.
    rewrite length_slice_last. repeat split; lia.
  - intros calls key. simpl. rewrite recordThreats_history.
    rewrite length_slice_last. repeat split; lia.
Qed.

End Histories.

(** ** Risk assessment and the stored patterns (fraud-detector.ts) *)

Section AssessRisk.
Import JS FraudDetector.
Context `{Sha256}.

Lemma analyzeChainPattern_state payment this :
  (analyzeChainPattern (bytesToHex (pseudonym payment)) (chain payment) this).2
  = chain_noted payment this.
Proof.
  unfold analyzeChainPattern, chain_noted.
  destruct (patterns this !! bytesToHex (pseudonym payment)) as [pattern|] eqn:Hget; simpl.
  - f_equal. apply map_eq. intros k. rewrite lookup_alter.
    destruct (decide (bytesToHex (pseudonym payment) = k)) as [<- | Hne].
    + rewrite lookup_insert_eq, Hget. done.
    + by rewrite lookup_insert_ne.
  - destruct this as [m a]. simpl in *. f_equal. apply map_eq. intros k.
    rewrite lookup_alter. case_decide; [subst k; by rewrite Hget | done].
Qed.

Lemma extractDirectFeatures_state payment this :
  (extractDirectFeatures payment this).2 = chain_noted payment this.
Proof.
  unfold extractDirectFeatures.
  rewrite <- analyzeChainPattern_state.
  by destruct (analyzeChainPattern _ _ this).
Qed.

(** C6, as amended.  A risk assessment in privacy-preserving mode leaves the
    detector as it was.  In direct mode it leaves the detector as it was but
    for one thing: the chain of the assessed payment is added to the chain set
    of the pattern stored for the payment's pseudonym, when there is one. *)
Theorem assessRisk_frame (payment : PaymentData) (options : DetectionOptions)
    (this : FraudDetector.t) :
  (assessRisk payment options this).2
  = if preservePrivacy options then this else chain_noted payment this.
Proof.
  unfold assessRisk, extractFeatures.
  destruct (preservePrivacy options); [done|].
  rewrite <- extractDirectFeatures_state.
  by destruct (extractDirectFeatures payment this).
Qed.

(** C7.  Assessing the same payment with the same options twice in a row
    gives the same outcome twice: the second call, run on the state the first
    one left, returns what the first returned (the same assessment, or the
    same exception) and leaves that state as it is. *)
Theorem assessRisk_repeatable (payment : PaymentData) (options : DetectionOptions)
    (this : FraudDetector.t) :
  let '(result, this') := assessRisk payment options this in
  assessRisk payment options this' = (result, this').
Proof.
  unfold assessRisk, extractFeatures.
  destruct (preservePrivacy options) eqn:Hmode; [done|].
  unfold extractDirectFeatures, analyzeChainPattern.
  destruct (patterns this !! bytesToHex (pseudonym payment)) as [pattern|] eqn:Hget;
    simpl; [|by rewrite Hget].
  rewrite lookup_insert_eq. simpl.
  rewrite insert_insert_eq.
  by rewrite <- (assoc_L (∪) (chains pattern)), (idemp_L (∪)).
Qed.

End AssessRisk.

(** C6, as stated, fails: in direct mode the assessment of a payment on
    polygon, for a pseudonym seen on ethereum only, changes the stored
    patterns (polygon joins the chain set of the pseudonym's pattern). *)
Lemma assessRisk_changes_patterns :
  FraudDetector.patterns
    (FraudDetector.assessRisk (payment_on "polygon") direct_mode detector_after_ethereum).2
  ≠ FraudDetector.patterns detector_after_ethereum.
Proof.
  intros Heq.
  apply (f_equal (λ m, bool_decide ("polygon" ∈ default ∅ (FraudDetector.chains <$> m !! "01"))))
    in Heq.
  vm_compute in Heq. discriminate.
Qed.

(** The same assessment, run twice: polygon is not in the chain set of the
    stored pattern before, it is after the first call, and the second call
    returns what the first did; and in direct mode a pseudonym without a stored
    pattern makes the call raise a TypeError. *)
Example assessRisk_direct_mode_trace :
  let knows_polygon (this : FraudDetector.t) :=
    bool_decide
      ("polygon" ∈ default ∅ (FraudDetector.chains <$> FraudDetector.patterns this !! "01")) in
  let first :=
    FraudDetector.assessRisk (payment_on "polygon") direct_mode detector_after_ethereum in
  let second := FraudDetector.assessRisk (payment_on "polygon") direct_mode first.2 in
  knows_polygon detector_after_ethereum = false
  ∧ knows_polygon first.2 = true
  ∧ second = first
  ∧ (FraudDetector.assessRisk (payment_on "polygon") direct_mode FraudDetector.new).1
    = JS.Throw JS.TypeError.
Proof. by vm_compute. Qed.

(** ** The amount deviation in privacy-preserving mode (fraud-detector.ts) *)

Section PrivateDeviation.
Import JS FraudDetector.

(** The deviation read off one hash byte, [(b / 255) * 50 / 100], for each of
    the 256 bytes. *)
Lemma deviation_of_byte (b : byte) :
  let deviation := (Number_of_bigint (byte_Z b) / 255 * 50 / 100)%float in
  (0 <=? deviation)%float = true
  ∧ (deviation <=? 0.5)%float = true
  ∧ gtb deviation 0.5 = false
  ∧ gtb deviation 0.7 = false.
Proof. destruct b; vm_compute; done. Qed.

(** What a rule of the detector can report. *)
Lemma rule_reports (fires : bool) (name a : string) :
  a ∈ (if fires then [name] else []) → a = name.
Proof. destruct fires; [by intros ->%list_elem_of_singleton | by intros ?%elem_of_nil]. Qed.

Lemma detectAnomalies_no_deviation (features : FeatureSet) (sensitivity : number) :
  gtb (amountDeviation features) 0.5 = false →
  "high_amount_deviation" ∉ detectAnomalies features sensitivity.
Proof.
  intros Hdev Hin. unfold detectAnomalies in Hin. rewrite Hdev in Hin. simpl in Hin.
  rewrite !elem_of_app in Hin.
  destruct Hin as [Hin | [Hin | [Hin | Hin]]]; by apply rule_reports in Hin.
Qed.

Context `{Sha256}.
Hypothesis sha256_length : ∀ m, length (sha256 m) = 32.

Lemma private_deviation_byte (payment : PaymentData) :
  ∃ b : byte,
    amountDeviation (extractPrivateFeatures payment)
    = (Number_of_bigint (byte_Z b) / 255 * 50 / 100)%float.
Proof.
  unfold extractPrivateFeatures, hashToNumber. simpl.
  rewrite sha256_length.
  destruct (lookup_lt_is_Some_2 (sha256 (commitment payment)) (4 mod 32)) as [b Hb].
  { rewrite sha256_length. apply Nat.mod_upper_bound. lia. }
  exists b. by rewrite Hb.
Qed.

(** C10.  With a hash of 32 bytes, the amount deviation extracted in
    privacy-preserving mode lies in [0, 0.5], whatever the payment; so it
    passes neither the test [> 0.5] of the high-amount-deviation anomaly nor
    the test [> 0.7] of the +0.15 risk contribution, and an assessment made
    with [preservePrivacy = true] returns, without that anomaly in its list
    and with a risk score to which the amount deviation contributes nothing:
    the score [calculateRiskScore] returns is the one made of the anomalies,
    the frequency and the time pattern alone. *)
Theorem private_amountDeviation_bounded (payment : PaymentData) (sensitivity : number)
    (this : FraudDetector.t) :
  let features := extractPrivateFeatures payment in
  let options := {| preservePrivacy := true; FraudDetector.sensitivity := sensitivity |} in
  (0 <=? amountDeviation features)%float = true
  ∧ (amountDeviation features <=? 0.5)%float = true
  ∧ gtb (amountDeviation features) 0.5 = false
  ∧ gtb (amountDeviation features) 0.7 = false
  ∧ ∃ assessment,
      assessRisk payment options this = (Normal assessment, this)
      ∧ ("high_amount_deviation" ∉ anomalies assessment)
      ∧ calculateRiskScore (anomalies assessment) features
        = riskScore_without_deviation (anomalies assessment) features
      ∧ riskScore assessment = riskScore_without_deviation (anomalies assessment) features.
Proof.
  intros features options.
  destruct (private_deviation_byte payment) as [b Hb].
  destruct (deviation_of_byte b) as (H0 & H5 & Hanomaly & Hrisk).
  assert (∀ reported,
            calculateRiskScore reported features
            = riskScore_without_deviation reported features) as Hscore.
  { intros reported. unfold calculateRiskScore, riskScore_without_deviation, features.
    by rewrite Hb, Hrisk. }
  unfold features. rewrite Hb. repeat (split; [done|]).
  eexists. split; [reflexivity|]. cbn [anomalies riskScore].
  split; [apply detectAnomalies_no_deviation; by rewrite Hb|].
  split; apply Hscore.
Qed.

End PrivateDeviation.

(** With the hash instance, for the payment the bridge assesses (a commitment
    of 32 zero bytes), at the highest sensitivity. *)
Lemma private_amountDeviation_bounded_witness :
  let payment := {| FraudDetector.pseudonym := [x01];
                    FraudDetector.amount := 5000000;
                    FraudDetector.timestamp := 0;
                    FraudDetector.chain := "solana";
                    FraudDetector.commitment := X402AIBridge.zero_bytes 32 |} in
  let features := FraudDetector.extractPrivateFeatures payment in
  let options := {| FraudDetector.preservePrivacy := true; FraudDetector.sensitivity := 1 |} in
  (0 <=? FraudDetector.amountDeviation features)%float = true
  ∧ (FraudDetector.amountDeviation features <=? 0.5)%float = true
  ∧ JS.gtb (FraudDetector.amountDeviation features) 0.5 = false
  ∧ JS.gtb (FraudDetector.amountDeviation features) 0.7 = false
  ∧ ∃ assessment,
      FraudDetector.assessRisk payment options FraudDetector.new
      = (JS.Normal assessment, FraudDetector.new)
      ∧ ("high_amount_deviation" ∉ FraudDetector.anomalies assessment)
      ∧ FraudDetector.calculateRiskScore (FraudDetector.anomalies assessment) features
        = riskScore_without_deviation (FraudDetector.anomalies assessment) features
      ∧ FraudDetector.riskScore assessment
        = riskScore_without_deviation (FraudDetector.anomalies assessment) features.
Proof. intros payment. apply (private_amountDeviation_bounded length_digest). Defined.

(** The assessment of that payment: the deviation is 248 / 255 / 2, just
    under 0.5. *)
Example assessRisk_zero_commitment :
  let payment := {| FraudDetector.pseudonym := [x01];
                    FraudDetector.amount := 5000000;
                    FraudDetector.timestamp := 0;
                    FraudDetector.chain := "solana";
                    FraudDetector.commitment := X402AIBridge.zero_bytes 32 |} in
  FraudDetector.extractPrivateFeatures payment
  = {| FraudDetector.amountCategory := 2;
       FraudDetector.timePattern := 0;
       FraudDetector.chainPattern := 3;
       FraudDetector.frequency := (173 / 255 * 100 / 100)%float;
       FraudDetector.amountDeviation := (248 / 255 * 50 / 100)%float |}
  ∧ (FraudDetector.assessRisk payment
       {| FraudDetector.preservePrivacy := true; FraudDetector.sensitivity := 0.5 |}
       FraudDetector.new).1
    = JS.Normal {| FraudDetector.riskScore := 0.1;
                   FraudDetector.riskLevel := FraudDetector.low;
                   FraudDetector.anomalies := [];
                   FraudDetector.confidence := 0.7 |}.
Proof. by vm_compute. Qed.

(** ** Default outcomes of the reputation learner (reputation-learner.ts) *)

Section Reputation.
Import JS AIReputationLearner.
Context `{Sha256}.

(** C8, as amended.  Extracting features from an empty payment history gives
    the all-zero feature vector; and for every pseudonym, a learner that has
    not been trained, asked for a prediction with no payment history supplied,
    answers with the score 50, the confidence 0.5 and the single factor
    insufficient_data. *)
Theorem untrained_defaults (pseudonym : list byte) (now : number) (this : AIReputationLearner.t) :
  isTrained this = false →
  extractFeatures [] now
  = {| paymentCount := 0; totalAmount := 0; avgAmount := 0; successRate := 0;
       avgInterval := 0; chainDiversity := 0; recentActivity := 0 |}
  ∧ predict pseudonym None now this
    = {| score := 50; confidence := 0.5; factors := ["insufficient_data"] |}.
Proof.
  intros Huntrained. split; [done|].
  unfold predict. by rewrite Huntrained.
Qed.

End Reputation.

Lemma untrained_defaults_witness :
  AIReputationLearner.extractFeatures [] 0
  = {| AIReputationLearner.paymentCount := 0; AIReputationLearner.totalAmount := 0;
       AIReputationLearner.avgAmount := 0; AIReputationLearner.successRate := 0;
       AIReputationLearner.avgInterval := 0; AIReputationLearner.chainDiversity := 0;
       AIReputationLearner.recentActivity := 0 |}
  ∧ AIReputationLearner.predict [x01] None 0 AIReputationLearner.new
    = {| AIReputationLearner.score := 50; AIReputationLearner.confidence := 0.5;
         AIReputationLearner.factors := ["insufficient_data"] |}.
Proof. apply (untrained_defaults [x01] 0%float AIReputationLearner.new). reflexivity. Defined.

(** C8, as stated, fails: an untrained learner that is handed a payment
    history does not answer with the default; with one payment in the history
    its confidence is not 0.5. *)
Lemma untrained_prediction_with_history :
  AIReputationLearner.isTrained AIReputationLearner.new = false
  ∧ AIReputationLearner.confidence
      (AIReputationLearner.predict [x01] (Some one_payment) 0 AIReputationLearner.new)
    ≠ 0.5%float.
Proof.
  split; [done|]. intros Heq.
  apply (f_equal Prim2SF) in Heq. vm_compute in Heq. discriminate.
Qed.

(** That prediction: the score stays at 50, the confidence is 0.5 + 0.1 * 0.5,
    and the factors are computed from the history. *)
Example predict_untrained_one_payment :
  AIReputationLearner.predict [x01] (Some one_payment) 0 AIReputationLearner.new
  = {| AIReputationLearner.score := 50;
       AIReputationLearner.confidence := (0.5 + 1 / 10 * 0.5)%float;
       AIReputationLearner.factors := ["reliable"] |}.
Proof. by vm_compute. Qed.

(** ** Route selection (payment-optimizer.ts, [findOptimalRoute]) *)

Section RouteSelection.
Import JS AIPaymentRouter.

(** The gas estimate is an integer for every chain and amount: the base is
    21000 or 5000 and the multiplier 1.2 or 1. *)
Lemma estimateGas_normal (chain : string) (amount : Z) :
  ∃ gas, estimateGas chain amount = Normal gas.
Proof.
  unfold estimateGas, baseGas, record_get.
  repeat match goal with
         | |- context [String.eqb ?a ?b] => destruct (String.eqb a b)
         end;
    destruct (1000000 <? amount)%Z; vm_compute; eauto.
Qed.

Lemma calculateRoute_normal chain options metrics this :
  ∃ route, calculateRoute chain options metrics this = Normal route.
Proof.
  unfold calculateRoute.
  destruct (estimateGas_normal chain (amount options)) as [gas ->]. simpl. eauto.
Qed.

Lemma analyzeChains_normal availableChains options this :
  ∃ routes, analyzeChains availableChains options this = Normal routes.
Proof.
  induction availableChains as [|chain rest [routes IH]]; simpl; [by eexists|].
  destruct (chainMetrics this !! chain) as [metrics|]; [|by eexists].
  destruct (calculateRoute_normal chain options metrics this) as [route ->].
  rewrite IH. simpl. eauto.
Qed.

Lemma filter_gas_privacy options maxGas (routes : list PaymentRoute) :
  filter (λ r, (estimatedGas r <=? maxGas)%Z = true)
    (filter (λ r, geb (privacyScore r) (getPrivacyScore (privacyLevel options)) = true) routes)
  = filter (passes options maxGas) routes.
Proof.
  rewrite list_filter_filter. apply list_filter_iff. intros r. unfold passes. tauto.
Qed.

(** The call returns a route whatever the options and the state. *)
Lemma findOptimalRoute_normal (options : RoutingOptions) (this : AIPaymentRouter.t) :
  ∃ route, findOptimalRoute options this = Normal route.
Proof.
  unfold findOptimalRoute.
  destruct (analyzeChains_normal (default allChains (preferredChains options)) options this)
    as [routes ->].
  simpl. eauto.
Qed.

(** The three levels of [findOptimalRoute] under a non-zero gas ceiling: the
    call returns the best-ranked route that passes the combined filter, whose
    gas is then within the ceiling; failing that, the best-ranked route;
    failing that, the default route. *)
Lemma findOptimalRoute_three_levels (options : RoutingOptions) (this : AIPaymentRouter.t)
    (maxGas : Z) :
  maxGasPrice options = Some maxGas → maxGas ≠ 0%Z →
  match filter (passes options maxGas) (rankedRoutes options this) with
  | best :: _ =>
      findOptimalRoute options this = Normal best ∧ (estimatedGas best ≤ maxGas)%Z
  | [] =>
      findOptimalRoute options this
      = Normal (match rankedRoutes options this with
                | first :: _ => first
                | [] => createDefaultRoute (string_or (targetChain options) "ethereum")
                end)
  end.
Proof.
  intros Hmax Hnonzero. unfold findOptimalRoute, rankedRoutes.
  destruct (analyzeChains_normal (default allChains (preferredChains options)) options this)
    as [routes ->].
  simpl. rewrite Hmax.
  destruct (Z.eqb_spec maxGas 0) as [|_]; [done|].
  rewrite filter_gas_privacy.
  destruct (filter (passes options maxGas) (Array_sort compareRoutes routes))
    as [|best rest] eqn:Hfilter; [done|].
  split; [done|].
  assert (best ∈ filter (passes options maxGas) (Array_sort compareRoutes routes)) as Hin.
  { rewrite Hfilter. apply list_elem_of_here. }
  apply list_elem_of_filter in Hin as [[_ Hgas] _]. lia.
Qed.

(** With no ceiling, or with the ceiling [0n], the gas plays no part: the
    call returns the best-ranked route that meets the privacy threshold;
    failing that, the best-ranked route; failing that, the default route. *)
Lemma findOptimalRoute_without_ceiling (options : RoutingOptions) (this : AIPaymentRouter.t) :
  maxGasPrice options = None ∨ maxGasPrice options = Some 0%Z →
  findOptimalRoute options this
  = Normal
      match filter (λ r, geb (privacyScore r) (getPrivacyScore (privacyLevel options)) = true)
                   (rankedRoutes options this) with
      | best :: _ => best
      | [] =>
          match rankedRoutes options this with
          | first :: _ => first
          | [] => createDefaultRoute (string_or (targetChain options) "ethereum")
          end
      end.
Proof.
  intros Hmax. unfold findOptimalRoute, rankedRoutes.
  destruct (analyzeChains_normal (default allChains (preferredChains options)) options this)
    as [routes ->].
  simpl. by destruct Hmax as [-> | ->].
Qed.

End RouteSelection.

Lemma findOptimalRoute_three_levels_witness :
  AIPaymentRouter.findOptimalRoute (options_with_ceiling 1) router_with_failure
  = JS.Normal bsc_route.
Proof.
  exact (findOptimalRoute_three_levels (options_with_ceiling 1) router_with_failure 1
           eq_refl ltac:(discriminate)).
Defined.

(** C1 at a gas ceiling of [0n].  The routes are ranked bsc first, ethereum
    second, and none passes the combined filter (no gas estimate is within 0);
    the call does not return the best-ranked route, bsc, but the route on
    ethereum, of gas 21000.  Under the ceiling [1n], all else equal, it
    returns the route on bsc. *)
Theorem findOptimalRoute_zero_ceiling :
  rankedRoutes (options_with_ceiling 0) router_with_failure = [bsc_route; ethereum_route]
  ∧ filter (passes (options_with_ceiling 0) 0)
           (rankedRoutes (options_with_ceiling 0) router_with_failure) = []
  ∧ AIPaymentRouter.findOptimalRoute (options_with_ceiling 0) router_with_failure
    = JS.Normal ethereum_route
  ∧ AIPaymentRouter.findOptimalRoute (options_with_ceiling 1) router_with_failure
    = JS.Normal bsc_route.
Proof. by vm_compute. Qed.

(** On a fresh router, with no ceiling and no preferred chains, the seven
    chains are ranked and the route on solana is returned; with no chain
    available the default route on the target chain is. *)
Example findOptimalRoute_fresh_router :
  AIPaymentRouter.findOptimalRoute
    {| AIPaymentRouter.amount := 5000000;
       AIPaymentRouter.targetChain := None;
       AIPaymentRouter.privacyLevel := PrivacyAdapter.maximum;
       AIPaymentRouter.maxGasPrice := Some 10%Z;
       AIPaymentRouter.preferredChains := None |}
    (AIPaymentRouter.new 0)
  = JS.Normal {| AIPaymentRouter.chain := "solana";
                 AIPaymentRouter.estimatedGas := 6000;
                 AIPaymentRouter.privacyScore := 1;
                 AIPaymentRouter.successRate := 0.99;
                 AIPaymentRouter.estimatedTime := 4800 |}
  ∧ AIPaymentRouter.findOptimalRoute
      {| AIPaymentRouter.amount := 1;
         AIPaymentRouter.targetChain := Some "polygon";
         AIPaymentRouter.privacyLevel := PrivacyAdapter.low;
         AIPaymentRouter.maxGasPrice := None;
         AIPaymentRouter.preferredChains := Some [] |}
      (AIPaymentRouter.new 0)
    = JS.Normal (AIPaymentRouter.createDefaultRoute "polygon").
Proof. by vm_compute. Qed.

(** ** Integers in binary64 and the ceiling ([BigInt(Math.ceil(x))]) *)

Section Ceiling.
Import JS.

Lemma digits2_pos_iter (n p : positive) :
  digits2_pos (Pos.iter xO p n) = (digits2_pos p + n)%positive.
Proof.
  induction n as [|n IH] using Pos.peano_ind.
  - simpl. lia.
  - rewrite Pos.iter_succ. simpl. rewrite IH. lia.
Qed.

Lemma Zpos_iter (n p : positive) : Z.pos (Pos.iter xO p n) = (Z.pos p * 2 ^ Z.pos n)%Z.
Proof.
  induction n as [|n IH] using Pos.peano_ind.
  - simpl. lia.
  - rewrite Pos.iter_succ, Pos2Z.inj_xO, IH, Pos2Z.inj_succ, Z.pow_succ_r by lia. lia.
Qed.

(** A mantissa of 53 bits needs no rounding. *)
Lemma binary_round_aux_exact (s : bool) (m : positive) (e : Z) :
  Z.pos (digits2_pos m) = 53%Z → (-1074 ≤ e ≤ 971)%Z →
  binary_round_aux prec emax s (Z.pos m) e loc_Exact = S754_finite s m e
  ∧ valid_binary (S754_finite s m e) = true.
Proof.
  intros H53 He.
  assert (fexp prec emax (53 + e) - e = 0)%Z as Hshift.
  { unfold fexp, emin, prec, emax. lia. }
  split.
  - unfold binary_round_aux, shr_fexp. simpl Zdigits2. rewrite H53, Hshift.
    cbn [shr shr_m round_nearest_even loc_of_shr_record shr_record_of_loc].
    simpl Zdigits2. rewrite H53, Hshift. cbn [shr shr_m].
    assert ((e <=? emax - prec)%Z = true) as ->; [|done].
    apply Z.leb_le. unfold emax, prec. lia.
  - unfold valid_binary, SpecFloat.valid_binary, bounded, canonical_mantissa. rewrite H53.
    apply andb_true_intro. split.
    + apply Z.eqb_eq. lia.
    + apply Z.leb_le. unfold emax, prec. lia.
Qed.

(** The binary64 value of a non-zero integer of at most 53 bits: the
    mantissa is the integer shifted to 53 bits. *)
Lemma binary_round_integer (s : bool) (p : positive) :
  (Z.pos (digits2_pos p) ≤ 53)%Z →
  ∃ m e, binary_round prec emax s p 0 = S754_finite s m e
         ∧ (-52 ≤ e ≤ 0)%Z
         ∧ Z.pos m = (Z.pos p * 2 ^ (- e))%Z
         ∧ valid_binary (S754_finite s m e) = true.
Proof.
  intros Hd. unfold binary_round, shl_align.
  set (d := digits2_pos p) in *.
  assert (fexp prec emax (Z.pos d + 0) = (Z.pos d - 53)%Z) as ->.
  { unfold fexp, emin, prec, emax. lia. }
  destruct (Z.pos d - 53 - 0)%Z as [|k|k] eqn:Hk; try lia.
  - exists p, 0%Z.
    destruct (binary_round_aux_exact s p 0) as [-> Hvalid]; [fold d; lia | lia |].
    split; [done|]. split; [lia|]. split; [lia|done].
  - exists (Pos.iter xO p k), (Z.pos d - 53)%Z.
    destruct (binary_round_aux_exact s (Pos.iter xO p k) (Z.pos d - 53)) as [-> Hvalid].
    { rewrite digits2_pos_iter. fold d. lia. }
    { lia. }
    split; [done|]. split; [lia|]. split; [|done].
    rewrite Zpos_iter. f_equal. f_equal. lia.
Qed.

Lemma digits2_pos_bound (p : positive) (n : Z) :
  (Z.pos p < 2 ^ n)%Z → (0 ≤ n)%Z → (Z.pos (digits2_pos p) ≤ n)%Z.
Proof.
  revert n. induction p as [p IH|p IH|]; intros n Hp Hn; simpl;
    (destruct (decide (n = 0%Z)) as [-> | Hpos]; [simpl in Hp; lia|]).
  - replace n with (Z.succ (n - 1)) in Hp by lia. rewrite Z.pow_succ_r in Hp by lia.
    specialize (IH (n - 1)%Z). lia.
  - replace n with (Z.succ (n - 1)) in Hp by lia. rewrite Z.pow_succ_r in Hp by lia.
    specialize (IH (n - 1)%Z). lia.
  - lia.
Qed.

Lemma digits2_pos_value (p : positive) : (Z.pos p < 2 ^ Z.pos (digits2_pos p))%Z.
Proof.
  induction p as [p IH|p IH|]; simpl; [| |done];
    rewrite Pos2Z.inj_succ, Z.pow_succ_r by lia; lia.
Qed.

(** [BigInt(Number(z))] is [z] for an integer of at most 53 bits. *)
Lemma BigInt_Number_of_bigint (z : Z) :
  (Z.abs z < 2 ^ 53)%Z → BigInt (Number_of_bigint z) = Normal z.
Proof.
  intros Hz. unfold Number_of_bigint, binary_normalize, BigInt.
  destruct z as [|p|p].
  - done.
  - destruct (binary_round_integer false p) as (m & e & -> & He & Hm & Hvalid).
    { apply digits2_pos_bound; lia. }
    rewrite (Prim2SF_SF2Prim _ Hvalid). unfold floorZ. simpl cond_Zopp.
    destruct (Z.leb_spec 0 e) as [H0 | Hneg].
    + assert (e = 0%Z) as -> by lia. rewrite Z.shiftl_0_r. f_equal. simpl in Hm. lia.
    + rewrite Z.shiftl_div_pow2 by lia.
      rewrite Hm, Z.mod_mul, Z.eqb_refl, Z.div_mul by lia. done.
  - destruct (binary_round_integer true p) as (m & e & -> & He & Hm & Hvalid).
    { apply digits2_pos_bound; lia. }
    rewrite (Prim2SF_SF2Prim _ Hvalid). unfold floorZ. simpl cond_Zopp.
    destruct (Z.leb_spec 0 e) as [H0 | Hneg].
    + assert (e = 0%Z) as -> by lia. rewrite Z.shiftl_0_r. f_equal. simpl in Hm. lia.
    + rewrite Z.shiftl_div_pow2 by lia.
      rewrite <- Pos2Z.opp_pos, Hm, <- Z.mul_opp_l, Z.mod_mul, Z.eqb_refl, Z.div_mul by lia.
      done.
Qed.

Lemma ceilZ_ceiling (s : bool) (m : positive) (e : Z) :
  (e < 0)%Z →
  let v := cond_Zopp s (Z.pos m) in
  ((ceilZ s m e - 1) * 2 ^ (- e) < v ≤ ceilZ s m e * 2 ^ (- e))%Z.
Proof.
  intros He v. unfold ceilZ. rewrite Z.shiftl_div_pow2 by lia.
  assert (cond_Zopp (negb s) (Z.pos m) = (- v)%Z) as -> by (unfold v; destruct s; simpl; lia).
  assert (0 < 2 ^ (- e))%Z as Hpow by (apply Z.pow_pos_nonneg; lia).
  pose proof (Z.div_mod (- v) (2 ^ (- e)) ltac:(lia)) as Hdiv.
  pose proof (Z.mod_pos_bound (- v) (2 ^ (- e)) Hpow) as Hmod.
  nia.
Qed.

Lemma mantissa_bound (s : bool) (m : positive) (e : Z) :
  valid_binary (S754_finite s m e) = true → (Z.pos m < 2 ^ 53)%Z.
Proof.
  unfold valid_binary, SpecFloat.valid_binary, bounded, canonical_mantissa.
  intros [Hc _]%andb_prop. apply Z.eqb_eq in Hc.
  assert (Z.pos (digits2_pos m) ≤ 53)%Z as Hd.
  { unfold fexp, emin, prec, emax in Hc. lia. }
  pose proof (digits2_pos_value m) as Hv.
  apply Z.lt_le_trans with (2 ^ Z.pos (digits2_pos m))%Z; [done|].
  apply Z.pow_le_mono_r; lia.
Qed.

(** [BigInt(Math.ceil(x))]: a RangeError for NaN and the infinities, the
    ceiling of [x] otherwise. *)
Lemma BigInt_Math_ceil (x : number) :
  match Prim2SF x with
  | S754_nan | S754_infinity _ => BigInt (Math_ceil x) = Throw RangeError
  | q => ∃ n, ceiling_of q n ∧ BigInt (Math_ceil x) = Normal n
  end.
Proof.
  pose proof (Prim2SF_valid x) as Hvalid.
  unfold Math_ceil. destruct (Prim2SF x) as [s|s| |s m e] eqn:Hx.
  - exists 0%Z. split; [done|]. unfold BigInt. by rewrite Hx.
  - unfold BigInt. by rewrite Hx.
  - unfold BigInt. by rewrite Hx.
  - destruct (Z.leb_spec 0 e) as [Hpos | Hneg].
    + exists (cond_Zopp s (Z.pos m) * 2 ^ e)%Z. split.
      * unfold ceiling_of. destruct (Z.leb_spec 0 e); lia.
      * unfold BigInt. rewrite Hx. destruct (Z.leb_spec 0 e); [|lia].
        unfold floorZ. by rewrite Z.shiftl_mul_pow2.
    + exists (ceilZ s m e). split.
      * unfold ceiling_of. destruct (Z.leb_spec 0 e); [lia|]. by apply ceilZ_ceiling.
      * destruct (Z.eqb_spec (ceilZ s m e) 0) as [-> | Hnz].
        { unfold BigInt. by destruct s. }
        apply BigInt_Number_of_bigint.
        pose proof (ceilZ_ceiling s m e Hneg) as Hc. simpl in Hc.
        pose proof (mantissa_bound s m e Hvalid) as Hm.
        assert (2 ≤ 2 ^ (- e))%Z as Hpow.
        { change 2%Z with (2 ^ 1)%Z at 1. apply Z.pow_le_mono_r; lia. }
        destruct s; simpl in Hc; nia.
Qed.

End Ceiling.

(** ** The estimated cost (x402-ai-bridge.ts, [calculateCost]) *)

Section EstimatedCost.
Import JS PrivacyAdapter X402AIBridge.

Lemma proofSize_bytes (l : PrivacyLevel) :
  proofSize (privacyConfigs l) = Number_of_bigint (proofSizeBytes l).
Proof. by destruct l; vm_compute. Qed.

Lemma multiplier_of_level (l : PrivacyLevel) :
  BigInt (Math_ceil (proofSize (privacyConfigs l) / 1024))
  = Normal (proofSizeBytes l / 1024)%Z.
Proof. by destruct l; vm_compute. Qed.

Lemma calculateCost_config (route : AIPaymentRouter.PaymentRoute) (l : PrivacyLevel) :
  calculateCost route (privacyConfigs l)
  = Normal (AIPaymentRouter.estimatedGas route * (proofSizeBytes l / 1024))%Z.
Proof. unfold calculateCost. by rewrite multiplier_of_level. Qed.

Local Ltac step_level :=
  match goal with
  | |- context [adjustLevel ?l ?s] =>
      let l' := fresh "l" in destruct (adjustLevel_index l s) as (l' & -> & _)
  end.

(** Adapting the privacy level always yields the configuration of one of the
    four levels. *)
Lemma adaptPrivacyLevel_config (context : PrivacyContext) (this : PrivacyAdapter.t) :
  ∃ l, adaptPrivacyLevel context this = Some (privacyConfigs l).
Proof.
  unfold adaptPrivacyLevel, adjustForTransactionType.
  step_level. simpl.
  assert (∀ (o : option PrivacyLevel) k,
            (∃ l', o = Some l') →
            (∀ l', ∃ l'', k l' = Some (privacyConfigs l'')) →
            ∃ l'', (o ≫= k) = Some (privacyConfigs l'')) as Hbind.
  { intros o k [l' ->] Hk. apply Hk. }
  apply Hbind.
  { destruct (PrivacyAdapter.amount context) as [a|]; [|by eexists].
    destruct (a =? 0)%Z; [by eexists|].
    unfold adjustForAmount.
    destruct (10000000 <? a)%Z; [|destruct (1000000 <? a)%Z]; step_level; by eexists. }
  intros l1. apply Hbind.
  { destruct (networkConditions context) as [conditions|]; [|by eexists].
    unfold adjustForNetwork.
    destruct (gtb (congestion conditions) 0.8); [step_level; by eexists|].
    destruct (networkHealth conditions <? 0.7)%float; [step_level|]; by eexists. }
  intros l2. exists l2. by destruct l2.
Qed.

Context `{Sha256}.

(** C9.  The estimated cost is the gas of the route times the ceiling of
    the proof size over 1024, in integer arithmetic.  For every route and
    every privacy configuration, [calculateCost] raises a RangeError when
    the quotient [proofSize / 1024] is NaN or infinite, and otherwise
    returns the product of the route's gas with the one integer [n] such
    that [n - 1 < proofSize / 1024 <= n].  The payment returned by
    [optimizePayment], which always returns and leaves the bridge as it was,
    carries that cost for its route and its configuration, whose proof size
    is a whole number of bytes. *)
Theorem calculateCost_ceiling :
  (∀ (route : AIPaymentRouter.PaymentRoute) (privacy : PrivacyConfiguration),
     match Prim2SF (proofSize privacy / 1024) with
     | S754_nan | S754_infinity _ => calculateCost route privacy = Throw RangeError
     | quotient =>
         ∃ n, ceiling_of quotient n
              ∧ calculateCost route privacy
                = Normal (AIPaymentRouter.estimatedGas route * n)%Z
     end)
  ∧ (∀ (request : X402PaymentRequest) (now : Z) (this : X402AIBridge.t),
       ∃ (payment : OptimizedX402Payment) (bytes n : Z),
         optimizePayment request now this = (Normal payment, this)
         ∧ proofSize (privacyConfig payment) = Number_of_bigint bytes
         ∧ (1024 * (n - 1) < bytes ≤ 1024 * n)%Z
         ∧ ceiling_of (Prim2SF (proofSize (privacyConfig payment) / 1024)) n
         ∧ estimatedCost payment = (AIPaymentRouter.estimatedGas (route payment) * n)%Z).
Proof.
  split.
  - intros route privacy. unfold calculateCost.
    pose proof (BigInt_Math_ceil (proofSize privacy / 1024)) as Hceil.
    destruct (Prim2SF (proofSize privacy / 1024)) as [s|s| |s m e].
    + destruct Hceil as (n & Hn & ->). by exists n.
    + by rewrite Hceil.
    + by rewrite Hceil.
    + destruct Hceil as (n & Hn & ->). by exists n.
  - intros request now this. unfold optimizePayment.
    match goal with
    | |- context [AIPaymentRouter.findOptimalRoute ?o ?r] =>
        destruct (findOptimalRoute_normal o r) as [chosen ->]
    end.
    unfold FraudDetector.assessRisk, FraudDetector.extractFeatures. simpl.
    match goal with
    | |- context [adaptPrivacyLevel ?c ?a] =>
        destruct (adaptPrivacyLevel_config c a) as [l ->]
    end.
    simpl. rewrite calculateCost_config. simpl.
    eexists _, (proofSizeBytes l), (proofSizeBytes l / 1024)%Z.
    split; [by destruct this|].
    simpl. split; [apply proofSize_bytes|].
    split; [destruct l; by vm_compute|].
    split; [|done]. destruct l; vm_compute; by split.
Qed.

End EstimatedCost.

(** A payment of 5000000 units optimized by a fresh bridge: the route is the
    one on solana (gas 6000), the assessed risk is low, the level stays low
    (proof size 1024), and the cost is 6000 * 1. *)
Example optimizePayment_fresh_bridge :
  let request := {| X402AIBridge.stealthAddress := [x02];
                    X402AIBridge.amount := 5000000;
                    X402AIBridge.targetChain := None;
                    X402AIBridge.privacyLevel := None;
                    X402AIBridge.userPseudonym := [x01] |} in
  match (X402AIBridge.optimizePayment request 1700000000000 (X402AIBridge.new 0)).1 with
  | JS.Normal payment =>
      X402AIBridge.recommendedChain payment = "solana"
      ∧ AIPaymentRouter.estimatedGas (X402AIBridge.route payment) = 6000%Z
      ∧ FraudDetector.riskLevel (X402AIBridge.fraudAssessment payment) = FraudDetector.low
      ∧ PrivacyAdapter.level (X402AIBridge.privacyConfig payment) = PrivacyAdapter.low
      ∧ PrivacyAdapter.proofSize (X402AIBridge.privacyConfig payment) = 1024%float
      ∧ X402AIBridge.estimatedCost payment = 6000%Z
  | JS.Throw _ => False
  end.
Proof. by vm_compute. Qed.

(** The cost for proof sizes that are not multiples of 1024: 1 and 1500
    bytes round up to 1 and 2, 2049 bytes to 3, and an undefined proof size
    raises. *)
Example calculateCost_rounds_up :
  let config (size : JS.number) :=
    {| PrivacyAdapter.level := PrivacyAdapter.low;
       PrivacyAdapter.proofSize := size;
       PrivacyAdapter.verifyTime := 10;
       PrivacyAdapter.zkProofRequired := false;
       PrivacyAdapter.merkleDepth := 8;
       PrivacyAdapter.polynomialDegree := 4 |} in
  X402AIBridge.calculateCost bsc_route (config 1%float) = JS.Normal 21000%Z
  ∧ X402AIBridge.calculateCost bsc_route (config 1500%float) = JS.Normal 42000%Z
  ∧ X402AIBridge.calculateCost bsc_route (config 2049%float) = JS.Normal 63000%Z
  ∧ X402AIBridge.calculateCost bsc_route (config 0%float) = JS.Normal 0%Z
  ∧ X402AIBridge.calculateCost bsc_route (config nan) = JS.Throw JS.RangeError.
Proof. by vm_compute. Qed.

(** * Further properties *)

(** ** Hexadecimal keys (fraud-detector.ts and privacy-adapter.ts, [bytesToHex]) *)

Section Hex.

Lemma hex_to_byte_to_hex (b : byte) : hex_to_byte (byte_to_hex b) = Some b.
Proof. destruct b; by vm_compute. Qed.

Lemma byte_to_hex_inj (b b' : byte) : byte_to_hex b = byte_to_hex b' → b = b'.
Proof.
  intros Heq. apply (f_equal hex_to_byte) in Heq.
  rewrite !hex_to_byte_to_hex in Heq. congruence.
Qed.

Lemma byte_to_hex_length (b : byte) : String.length (byte_to_hex b) = 2.
Proof. by destruct b. Qed.

Lemma bytesToHex_cons (b : byte) (bs : list byte) :
  bytesToHex (b :: bs) = byte_to_hex b +:+ bytesToHex bs.
Proof.
  unfold bytesToHex. simpl. destruct (map byte_to_hex bs) eqn:Hmap; [|done].
  simpl. by destruct b.
Qed.

Lemma string_length_app (s t : string) :
  String.length (s +:+ t) = String.length s + String.length t.
Proof. induction s as [|c s IH]; simpl; [done|]. by rewrite IH. Qed.

Lemma bytesToHex_length (bs : list byte) : String.length (bytesToHex bs) = 2 * length bs.
Proof.
  induction bs as [|b bs IH]; [done|].
  rewrite bytesToHex_cons, string_length_app, byte_to_hex_length, IH. simpl. lia.
Qed.

Lemma append_inj_length (s1 s2 t1 t2 : string) :
  String.length s1 = String.length s2 → s1 +:+ t1 = s2 +:+ t2 → s1 = s2 ∧ t1 = t2.
Proof.
  revert s2. induction s1 as [|c s1 IH]; intros [|c' s2] Hlen Heq; try done.
  simpl in *. injection Heq as -> Heq. destruct (IH s2) as [-> ->]; [lia|done|done].
Qed.

Lemma bytesToHex_inj (bs bs' : list byte) : bytesToHex bs = bytesToHex bs' → bs = bs'.
Proof.
  revert bs'. induction bs as [|b bs IH]; intros [|b' bs'] Heq; [done| | |].
  - apply (f_equal String.length) in Heq. rewrite !bytesToHex_length in Heq. simpl in Heq. lia.
  - apply (f_equal String.length) in Heq. rewrite !bytesToHex_length in Heq. simpl in Heq. lia.
  - rewrite !bytesToHex_cons in Heq.
    apply append_inj_length in Heq as [Hb Hbs]; [|by rewrite !byte_to_hex_length].
    f_equal; [by apply byte_to_hex_inj | by apply IH].
Qed.

(** X1.  The key of a pseudonym has two characters per byte, and two
    pseudonyms have the same key only if they are the same bytes: the maps
    keyed by [bytesToHex] never merge two pseudonyms. *)
Theorem bytesToHex_keys (bs bs' : list byte) :
  String.length (bytesToHex bs) = 2 * length bs
  ∧ (bytesToHex bs = bytesToHex bs' ↔ bs = bs').
Proof.
  split; [apply bytesToHex_length|]. split; [apply bytesToHex_inj | by intros ->].
Qed.

End Hex.

(** ** The fraud detector (fraud-detector.ts) *)

Section FraudRules.
Import JS FraudDetector.

Lemma gate_closed (gate s bound : number) :
  (s <=? bound)%float = true → (bound <=? gate)%float = true → gtb s gate = false.
Proof. intros Hs Hb. unfold gtb. apply leb_not_ltb. by apply leb_trans with bound. Qed.

Lemma gate_open (gate s bound : number) :
  (bound <? s)%float = true → (gate <=? bound)%float = true → gtb s gate = true.
Proof. intros Hs Hb. unfold gtb. by apply leb_ltb_trans with bound. Qed.

(** X2.  The two ends of the sensitivity scale.  At a sensitivity of at most
    0.3 no rule can report, whatever the features; above 0.7 every gate is
    open and the anomalies are exactly those of the five feature tests, in
    the order of the rules. *)
Theorem sensitivity_gates (features : FeatureSet) (s : number) :
  ((s <=? 0.3)%float = true → detectAnomalies features s = [])
  ∧ ((0.7 <? s)%float = true →
     detectAnomalies features s
     = (if gtb (amountCategory features) 4 then ["unusual_amount_category"] else [])
       ++ (if gtb (frequency features) 0.8 then ["high_frequency"] else [])
       ++ (if gtb (amountDeviation features) 0.5 then ["high_amount_deviation"] else [])
       ++ (if (timePattern features =? 0)%float then ["irregular_timing"] else [])
       ++ (if gtb (chainPattern features) 5 then ["excessive_chain_switching"] else [])).
Proof.
  split; intros Hs; unfold detectAnomalies.
  - rewrite !(gate_closed _ s 0.3) by done. by rewrite !andb_false_r.
  - rewrite !(gate_open _ s 0.7) by done. by rewrite !andb_true_r.
Qed.

(** The amount category is at most 4 in both modes, and the deviation read
    from a hash is at most 0.5. *)
Lemma categorizeAmount_at_most_4 (amount : Z) : gtb (categorizeAmount amount) 4 = false.
Proof. unfold categorizeAmount. by repeat case_match. Qed.

Lemma hashToCategory_below (hash : list byte) (offset : nat) :
  gtb (hashToCategory hash offset 5) 4 = false.
Proof.
  unfold hashToCategory. destruct (hash !! _) as [b|]; [|done]. by destruct b.
Qed.

Lemma hashToNumber_deviation_below (hash : list byte) (offset : nat) :
  gtb (hashToNumber hash offset 50 / 100) 0.5 = false
  ∧ gtb (hashToNumber hash offset 50 / 100) 0.7 = false.
Proof.
  unfold hashToNumber. destruct (hash !! _) as [b|]; [|done]. by destruct b.
Qed.

Lemma detectAnomalies_length (features : FeatureSet) (s : number) :
  length (detectAnomalies features s) ≤ 5.
Proof.
  unfold detectAnomalies. rewrite !length_app.
  repeat match goal with |- context [if ?b then _ else _] => destruct b end; simpl; lia.
Qed.

Lemma detectAnomalies_length_private (features : FeatureSet) (s : number) :
  gtb (amountCategory features) 4 = false →
  gtb (amountDeviation features) 0.5 = false →
  length (detectAnomalies features s) ≤ 3.
Proof.
  intros Hc Hd. unfold detectAnomalies. rewrite Hc, Hd. simpl. rewrite !length_app.
  repeat match goal with |- context [if ?b then _ else _] => destruct b end; simpl; lia.
Qed.

Local Ltac next_length anomalies :=
  destruct anomalies as [|? anomalies]; [vm_compute; repeat split; done|].

(** The risk score depends on the anomalies through their number only. *)
Lemma calculateRiskScore_range (anomalies : list string) (features : FeatureSet) :
  length anomalies ≤ 5 →
  let risk := calculateRiskScore anomalies features in
  (0 <=? risk)%float = true ∧ (risk <=? 1)%float = true.
Proof.
  intros Hlen. unfold calculateRiskScore.
  destruct (gtb (frequency features) 0.9), (gtb (amountDeviation features) 0.7),
    (timePattern features =? 0)%float; do 6 next_length anomalies; simpl in *; lia.
Qed.

Lemma calculateRiskScore_private (anomalies : list string) (features : FeatureSet) :
  length anomalies ≤ 3 →
  gtb (amountDeviation features) 0.7 = false →
  let risk := calculateRiskScore anomalies features in
  (risk <? 0.8)%float = true ∧ scoreToLevel risk ≠ critical.
Proof.
  intros Hlen Hd. unfold calculateRiskScore. rewrite Hd.
  destruct (gtb (frequency features) 0.9), (timePattern features =? 0)%float;
    do 4 next_length anomalies; simpl in *; lia.
Qed.

Lemma calculateConfidence_range (features : FeatureSet) (anomalies : list string) :
  let confidence := calculateConfidence features anomalies in
  (0.5 <=? confidence)%float = true ∧ (confidence <=? 0.9)%float = true.
Proof.
  unfold calculateConfidence.
  destruct (gtb (frequency features) 0), anomalies; by vm_compute.
Qed.

(** At the sensitivity 0.5 the gates of the first two rules are open and
    those of the last three closed. *)
Lemma detectAnomalies_default (features : FeatureSet) :
  gtb (amountCategory features) 4 = false →
  detectAnomalies features 0.5
  = if gtb (frequency features) 0.8 then ["high_frequency"] else [].
Proof.
  intros Hc. unfold detectAnomalies. rewrite Hc.
  change (gtb 0.5 0.3) with true. change (gtb 0.5 0.4) with true.
  change (gtb 0.5 0.5) with false. change (gtb 0.5 0.6) with false.
  change (gtb 0.5 0.7) with false.
  rewrite !andb_false_r, andb_true_r. by destruct (gtb (frequency features) 0.8).
Qed.

Context `{Sha256}.

(** An assessment is computed from a feature set whose amount category is
    at most 4. *)
Lemma assessRisk_features payment options this assessment :
  (assessRisk payment options this).1 = Normal assessment →
  ∃ features,
    gtb (amountCategory features) 4 = false
    ∧ (preservePrivacy options = true →
       gtb (amountDeviation features) 0.5 = false ∧ gtb (amountDeviation features) 0.7 = false)
    ∧ anomalies assessment = detectAnomalies features (sensitivity options)
    ∧ riskScore assessment = calculateRiskScore (anomalies assessment) features
    ∧ riskLevel assessment = scoreToLevel (riskScore assessment)
    ∧ confidence assessment = calculateConfidence features (anomalies assessment).
Proof.
  unfold assessRisk, extractFeatures.
  destruct (preservePrivacy options) eqn:Hmode.
  - simpl. intros [= <-]. exists (extractPrivateFeatures payment).
    split; [apply hashToCategory_below|].
    split; [intros _; apply hashToNumber_deviation_below|]. done.
  - unfold extractDirectFeatures.
    destruct (analyzeChainPattern _ _ this) as [[size|e] this']; simpl; [|done].
    intros [= <-]. simpl.
    match goal with |- context [calculateConfidence ?f _] => exists f end.
    split; [apply categorizeAmount_at_most_4|]. split; [done|]. done.
Qed.

(** X3.  No assessment ever reports 'unusual_amount_category': the rule asks
    for a category above 4, and the categories are 0 to 4 in direct mode
    ([categorizeAmount]) and a byte modulo 5 in private mode. *)
Theorem unusual_amount_category_unreachable (payment : PaymentData)
    (options : DetectionOptions) (this : FraudDetector.t) (assessment : FraudAssessment) :
  (assessRisk payment options this).1 = Normal assessment →
  "unusual_amount_category" ∉ anomalies assessment.
Proof.
  intros Hret. destruct (assessRisk_features _ _ _ _ Hret) as (features & Hc & _ & -> & _).
  intros Hin. unfold detectAnomalies in Hin. rewrite Hc in Hin. simpl in Hin.
  rewrite !elem_of_app in Hin.
  destruct Hin as [Hin | [Hin | [Hin | Hin]]]; by apply rule_reports in Hin.
Qed.

(** X4.  Every assessment has a risk score in [0, 1], the level of that
    score, a confidence in [0.5, 0.9] and at most five anomalies. *)
Theorem assessment_ranges (payment : PaymentData) (options : DetectionOptions)
    (this : FraudDetector.t) (assessment : FraudAssessment) :
  (assessRisk payment options this).1 = Normal assessment →
  (0 <=? riskScore assessment)%float = true
  ∧ (riskScore assessment <=? 1)%float = true
  ∧ riskLevel assessment = scoreToLevel (riskScore assessment)
  ∧ (0.5 <=? confidence assessment)%float = true
  ∧ (confidence assessment <=? 0.9)%float = true
  ∧ length (anomalies assessment) ≤ 5.
Proof.
  intros Hret.
  destruct (assessRisk_features _ _ _ _ Hret) as (features & _ & _ & Ha & Hr & Hl & Hcf).
  pose proof (detectAnomalies_length features (sensitivity options)) as Hlen.
  rewrite <- Ha in Hlen.
  destruct (calculateRiskScore_range (anomalies assessment) features Hlen) as [H0 H1].
  destruct (calculateConfidence_range features (anomalies assessment)) as [H5 H9].
  rewrite Hr, Hcf. rewrite Hr in Hl. done.
Qed.

(** X5.  In private mode the assessment always returns, leaves the detector
    as it was, reports at most three anomalies, and its risk score stays
    below 0.8: the level critical is out of reach, whatever the hash. *)
Theorem private_risk_never_critical (payment : PaymentData) (s : number)
    (this : FraudDetector.t) :
  ∃ assessment,
    assessRisk payment {| preservePrivacy := true; sensitivity := s |} this
    = (Normal assessment, this)
    ∧ (riskScore assessment <? 0.8)%float = true
    ∧ riskLevel assessment ≠ critical
    ∧ length (anomalies assessment) ≤ 3.
Proof.
  eexists. split; [reflexivity|]. simpl.
  set (features := extractPrivateFeatures payment).
  assert (gtb (amountCategory features) 4 = false) as Hc by apply hashToCategory_below.
  destruct (hashToNumber_deviation_below (sha256 (commitment payment)) 4) as [H5 H7].
  pose proof (detectAnomalies_length_private features s Hc H5) as Hlen.
  destruct (calculateRiskScore_private _ features Hlen H7) as [Hlt Hne].
  done.
Qed.

(** X6.  At the sensitivity 0.5, the one the bridge and the facade use, the
    only anomaly an assessment can report is 'high_frequency'; in private
    mode the level is then low or medium. *)
Theorem default_sensitivity_reports_frequency_only (payment : PaymentData) (preserve : bool)
    (this : FraudDetector.t) (assessment : FraudAssessment) :
  (assessRisk payment {| preservePrivacy := preserve; sensitivity := 0.5 |} this).1
  = Normal assessment →
  (anomalies assessment = [] ∨ anomalies assessment = ["high_frequency"])
  ∧ (preserve = true → riskLevel assessment = low ∨ riskLevel assessment = medium).
Proof.
  intros Hret.
  destruct (assessRisk_features _ _ _ _ Hret) as (features & Hc & Hd & Ha & Hr & Hl & _).
  simpl in *. rewrite (detectAnomalies_default features Hc) in Ha.
  split.
  - rewrite Ha. destruct (gtb (frequency features) 0.8); auto.
  - intros ->. destruct (Hd eq_refl) as [_ H7].
    rewrite Hl, Hr, Ha. unfold calculateRiskScore. rewrite H7.
    destruct (gtb (frequency features) 0.8), (gtb (frequency features) 0.9),
      (timePattern features =? 0)%float; vm_compute; auto.
Qed.

(** X7.  In private mode the assessment is a function of the commitment
    alone: two payments with the same commitment get the same assessment,
    whatever their pseudonym, amount, time and chain and whatever the two
    detectors have stored; and the detector is left as it was. *)
Theorem private_assessment_noninterference (payment payment' : PaymentData) (s : number)
    (this this' : FraudDetector.t) :
  commitment payment = commitment payment' →
  let options := {| preservePrivacy := true; sensitivity := s |} in
  (assessRisk payment options this).1 = (assessRisk payment' options this').1
  ∧ (assessRisk payment options this).2 = this.
Proof.
  intros Hc. unfold assessRisk, extractFeatures, extractPrivateFeatures. simpl. by rewrite Hc.
Qed.

(** X8.  Direct mode needs a stored pattern: with none stored for the
    pseudonym the assessment raises a TypeError and changes nothing; with
    one stored it returns, in particular after any [updatePattern] for
    that pseudonym. *)
Theorem direct_mode_needs_pattern (payment : PaymentData) (s : number) (this : FraudDetector.t) :
  let options := {| preservePrivacy := false; sensitivity := s |} in
  (patterns this !! bytesToHex (pseudonym payment) = None →
   assessRisk payment options this = (Throw TypeError, this))
  ∧ (is_Some (patterns this !! bytesToHex (pseudonym payment)) →
     ∃ assessment, (assessRisk payment options this).1 = Normal assessment)
  ∧ (∀ recorded now, pseudonym recorded = pseudonym payment →
     ∃ assessment,
       (assessRisk payment options (updatePattern recorded now this)).1 = Normal assessment).
Proof.
  assert (∀ this', is_Some (patterns this' !! bytesToHex (pseudonym payment)) →
          ∃ assessment,
            (assessRisk payment {| preservePrivacy := false; sensitivity := s |} this').1
            = Normal assessment) as Hstored.
  { intros this' [pattern Hget].
    unfold assessRisk, extractFeatures, extractDirectFeatures, analyzeChainPattern. simpl.
    rewrite Hget. simpl. eauto. }
  split; [|split; [apply Hstored|]].
  - intros Hget. unfold assessRisk, extractFeatures, extractDirectFeatures, analyzeChainPattern.
    simpl. by rewrite Hget.
  - intros recorded now Hp. apply Hstored. unfold updatePattern. simpl.
    rewrite Hp, lookup_insert_eq. eauto.
Qed.

(** X9.  Neither recording nor assessing a payment touches what is stored
    for another pseudonym. *)
Theorem pseudonyms_are_isolated (payment : PaymentData) (options : DetectionOptions)
    (now : number) (this : FraudDetector.t) (other : list byte) :
  other ≠ pseudonym payment →
  patterns (updatePattern payment now this) !! bytesToHex other
  = patterns this !! bytesToHex other
  ∧ patterns (assessRisk payment options this).2 !! bytesToHex other
    = patterns this !! bytesToHex other.
Proof.
  intros Hne.
  assert (bytesToHex (pseudonym payment) ≠ bytesToHex other) as Hkey.
  { intros Heq. apply Hne. symmetry. by apply bytesToHex_inj. }
  split.
  - unfold updatePattern. simpl. by rewrite lookup_insert_ne.
  - unfold assessRisk, extractFeatures. destruct (preservePrivacy options); [done|].
    pose proof (extractDirectFeatures_state payment this) as Hstate.
    destruct (extractDirectFeatures payment this) as [features this']. simpl in *.
    rewrite Hstate. unfold chain_noted. simpl. by rewrite lookup_alter_ne.
Qed.

(** X10.  What a run of [updatePattern] calls stores for a pseudonym: nothing
    if none of the calls was for it; otherwise all its payments, in order and
    without bound, a frequency of their number over 10, the time of the last
    call, and the pseudonym, average amount and chain set of the first payment:
    the average and the chains are never updated. *)
Theorem updatePattern_log (calls : list (PaymentData * number)) (key : string) :
  let log := payments_recorded key calls in
  match patterns (recordPayments calls FraudDetector.new) !! key with
  | None => log = []
  | Some pattern =>
      payments pattern = log.*1
      ∧ pattern_frequency pattern = (Number_of_nat (length log) / 10)%float
      ∧ (∃ first now rest, log = (first, now) :: rest
           ∧ pattern_pseudonym pattern = pseudonym first
           ∧ avgAmount pattern = Number_of_bigint (amount first)
           ∧ chains pattern = {[ chain first ]})
      ∧ Some (lastUpdated pattern) = snd <$> last log
  end.
Proof.
  induction calls as [|[payment now] calls IH] using rev_ind; [done|].
  unfold recordPayments, payments_recorded in *.
  rewrite fold_left_app, filter_app. simpl.
  destruct (decide (bytesToHex (pseudonym payment) = key)) as [<- | Hne].
  - rewrite lookup_insert_eq, filter_cons_True, filter_nil by done.
    destruct (patterns _ !! _) as [pattern|].
    + destruct IH as (Hp & Hf & (first & now0 & rest & Hlog & Hps & Ha & Hch) & Hl).
      simpl. rewrite fmap_app, last_snoc, Hp, !length_app, length_fmap. simpl.
      repeat split; try done.
      exists first, now0, (rest ++ [(payment, now)]). by rewrite Hlog.
    + rewrite IH. simpl. repeat split; try done. by exists payment, now, [].
  - rewrite lookup_insert_ne, filter_cons_False, filter_nil, app_nil_r by done.
    apply IH.
Qed.

End FraudRules.

Lemma unusual_amount_category_unreachable_witness :
  "unusual_amount_category" ∉ FraudDetector.anomalies low_risk.
Proof.
  apply (unusual_amount_category_unreachable bridge_payment private_mode FraudDetector.new).
  vm_compute. reflexivity.
Defined.

Lemma assessment_ranges_witness :
  (0 <=? FraudDetector.riskScore low_risk)%float = true
  ∧ (FraudDetector.riskScore low_risk <=? 1)%float = true
  ∧ FraudDetector.riskLevel low_risk
    = FraudDetector.scoreToLevel (FraudDetector.riskScore low_risk)
  ∧ (0.5 <=? FraudDetector.confidence low_risk)%float = true
  ∧ (FraudDetector.confidence low_risk <=? 0.9)%float = true
  ∧ length (FraudDetector.anomalies low_risk) ≤ 5.
Proof.
  apply (assessment_ranges bridge_payment private_mode FraudDetector.new).
  vm_compute. reflexivity.
Defined.

Lemma default_sensitivity_reports_frequency_only_witness :
  (FraudDetector.anomalies low_risk = []
   ∨ FraudDetector.anomalies low_risk = ["high_frequency"])
  ∧ (true = true →
     FraudDetector.riskLevel low_risk = FraudDetector.low
     ∨ FraudDetector.riskLevel low_risk = FraudDetector.medium).
Proof.
  apply (default_sensitivity_reports_frequency_only bridge_payment true FraudDetector.new).
  vm_compute. reflexivity.
Defined.

Lemma private_assessment_noninterference_witness :
  let options := {| FraudDetector.preservePrivacy := true; FraudDetector.sensitivity := 1 |} in
  (FraudDetector.assessRisk (payment_on "ethereum") options FraudDetector.new).1
  = (FraudDetector.assessRisk (payment_on "solana") options detector_after_ethereum).1
  ∧ (FraudDetector.assessRisk (payment_on "ethereum") options FraudDetector.new).2
    = FraudDetector.new.
Proof.
  apply (private_assessment_noninterference (payment_on "ethereum") (payment_on "solana")).
  reflexivity.
Defined.

Lemma pseudonyms_are_isolated_witness :
  FraudDetector.patterns (FraudDetector.updatePattern (payment_on "solana") 1
                            detector_after_ethereum) !! bytesToHex [x02]
  = FraudDetector.patterns detector_after_ethereum !! bytesToHex [x02]
  ∧ FraudDetector.patterns
      (FraudDetector.assessRisk (payment_on "solana") direct_mode detector_after_ethereum).2
      !! bytesToHex [x02]
    = FraudDetector.patterns detector_after_ethereum !! bytesToHex [x02].
Proof.
  apply (pseudonyms_are_isolated (payment_on "solana") direct_mode 1%float
           detector_after_ethereum [x02]).
  discriminate.
Defined.

(** ** The average threat (privacy-adapter.ts, [calculateAverageThreat]) *)

Section AverageThreat.
Import JS PrivacyAdapter.

Lemma threat_value_bounds (t : ThreatLevel) : (1 ≤ threat_value t ≤ 4)%Z.
Proof. destruct t; simpl; lia. Qed.

Lemma threat_total_bounds (threats : list ThreatLevel) :
  (Z.of_nat (length threats) ≤ threat_total threats ≤ 4 * Z.of_nat (length threats))%Z.
Proof.
  induction threats as [|t threats IH]; simpl; [lia|].
  pose proof (threat_value_bounds t). lia.
Qed.

(** Adding a threat value to a total of at most 36 is exact. *)
Lemma add_threat_exact (s : Z) (t : ThreatLevel) :
  (0 ≤ s ≤ 36)%Z →
  (Number_of_bigint s + threatValues t)%float = Number_of_bigint (s + threat_value t).
Proof.
  intros Hs.
  assert (∃ n : nat, n < 37 ∧ s = Z.of_nat n) as (n & Hn & ->).
  { exists (Z.to_nat s). lia. }
  do 37 (destruct n as [|n]; [by destruct t; vm_compute|]). lia.
Qed.

Lemma fold_threats_exact (threats : list ThreatLevel) (s : Z) :
  (0 ≤ s)%Z → (s + 4 * Z.of_nat (length threats) ≤ 40)%Z →
  fold_left (λ sum t, sum + threatValues t)%float threats (Number_of_bigint s)
  = Number_of_bigint (s + threat_total threats).
Proof.
  revert s. induction threats as [|t threats IH]; intros s H0 Hs; simpl.
  - by rewrite Z.add_0_r.
  - simpl in Hs. pose proof (threat_value_bounds t).
    rewrite add_threat_exact by lia. rewrite IH by lia. f_equal. lia.
Qed.

(** On up to 10 threats the two classifications of the mean agree. *)
Lemma mean_class_number_exact (total n : Z) :
  (1 ≤ n ≤ 10)%Z → (n ≤ total ≤ 4 * n)%Z → mean_class_number total n = mean_class total n.
Proof.
  intros Hn Ht.
  assert (∃ k : nat, k < 10 ∧ n = Z.of_nat (S k)) as (k & Hk & ->).
  { exists (Z.to_nat (n - 1)). lia. }
  assert (∃ j : nat, j < 41 ∧ total = Z.of_nat j) as (j & Hj & ->).
  { exists (Z.to_nat total). lia. }
  do 10 (destruct k as [|k];
         [do 41 (destruct j as [|j]; [by vm_compute|]); lia|]).
  lia.
Qed.

Lemma calculateAverageThreat_mean (threats : list ThreatLevel) :
  1 ≤ length threats ≤ 10 →
  calculateAverageThreat threats
  = mean_class (threat_total threats) (Z.of_nat (length threats)).
Proof.
  intros Hlen. rewrite <- mean_class_number_exact.
  - unfold calculateAverageThreat, mean_class_number, Number_of_nat.
    change 0%float with (Number_of_bigint 0).
    rewrite fold_threats_exact by lia. done.
  - lia.
  - apply threat_total_bounds.
Qed.

(** X11.  On 1 to 10 threats, the sizes [assessThreat] hands it, the average
    threat computed on binary64 numbers is the class of the exact mean of
    the threat values 1 to 4: critical from 3.5, high from 2.5, medium from
    1.5, low below; no rounding moves a mean across a cut point. *)
Theorem calculateAverageThreat_exact (threats : list ThreatLevel) :
  1 ≤ length threats ≤ 10 →
  calculateAverageThreat threats
  = mean_class (threat_total threats) (Z.of_nat (length threats)).
Proof. apply calculateAverageThreat_mean. Qed.

Lemma slice_last_slice_last {A} (n m : nat) (l : list A) :
  n ≤ m → slice_last n (slice_last m l) = slice_last n l.
Proof.
  intros Hnm. unfold slice_last. rewrite length_drop, drop_drop. f_equal. lia.
Qed.

(** X12.  The threat assessed for a payment or reputation transaction, after
    a run of [updateThreatHistory] calls on a new adapter: medium when
    nothing was recorded for the pseudonym, otherwise the class of the mean
    of the last 10 threats recorded for it. *)
Theorem assessThreat_of_recorded (calls : list (list byte * ThreatLevel))
    (context : PrivacyContext) :
  transactionType context = payment ∨ transactionType context = reputation →
  let recorded := threats_recorded (bytesToHex (userPseudonym context)) calls in
  let recent := slice_last 10 recorded in
  assessThreat context (recordThreats calls PrivacyAdapter.new)
  = match recorded with
    | [] => Threat.medium
    | _ :: _ => mean_class (threat_total recent) (Z.of_nat (length recent))
    end.
Proof.
  intros Htype recorded recent. unfold assessThreat.
  rewrite recordThreats_history. fold recorded.
  rewrite slice_last_slice_last by lia. fold recent.
  destruct recorded as [|t recorded'] eqn:Hrec.
  { done. }
  assert (1 ≤ length recent ≤ 10) as Hlen.
  { unfold recent. rewrite length_slice_last. simpl. lia. }
  assert ((length (slice_last 50 (t :: recorded')) =? 0) = false) as ->.
  { apply Nat.eqb_neq. rewrite length_slice_last. simpl. lia. }
  rewrite calculateAverageThreat_mean by done.
  by destruct Htype as [-> | ->].
Qed.

End AverageThreat.

Lemma calculateAverageThreat_exact_witness :
  PrivacyAdapter.calculateAverageThreat
    [PrivacyAdapter.Threat.high; PrivacyAdapter.Threat.critical; PrivacyAdapter.Threat.medium]
  = PrivacyAdapter.Threat.high.
Proof.
  apply (calculateAverageThreat_exact
           [PrivacyAdapter.Threat.high; PrivacyAdapter.Threat.critical;
            PrivacyAdapter.Threat.medium]).
  simpl. lia.
Defined.

Lemma assessThreat_of_recorded_witness :
  PrivacyAdapter.assessThreat congested_context (recordThreats three_threats PrivacyAdapter.new)
  = PrivacyAdapter.Threat.high.
Proof.
  apply (assessThreat_of_recorded three_threats congested_context). left. reflexivity.
Defined.

(** ** The adapted level (privacy-adapter.ts, [adaptPrivacyLevel]) *)

Section AdaptPrivacy.
Import JS PrivacyAdapter.

Lemma adjustLevel_clamp (level : PrivacyLevel) (steps : Z) :
  ∃ l, adjustLevel level steps = Some l ∧ indexOf levels l = clamp (indexOf levels level + steps).
Proof. apply adjustLevel_index. Qed.

Lemma bind_Some {A B} (o : option A) (k : A → option B) (a : A) :
  o = Some a → o ≫= k = k a.
Proof. by intros ->. Qed.

Lemma amount_step (l : PrivacyLevel) (amount : option Z) :
  ∃ l', match amount with
        | Some a => if (a =? 0)%Z then Some l else adjustForAmount l a
        | None => Some l
        end = Some l'
        ∧ indexOf levels l' = clamp (indexOf levels l + amountStep amount).
Proof.
  assert (indexOf levels l = clamp (indexOf levels l + 0)) as Hstay by by destruct l.
  unfold amountStep, adjustForAmount.
  destruct amount as [a|]; [destruct (a =? 0)%Z|]; [by exists l| |by exists l].
  destruct (10000000 <? a)%Z; [|destruct (1000000 <? a)%Z]; apply adjustLevel_clamp.
Qed.

Lemma network_step (l : PrivacyLevel) (conditions : option NetworkConditions) :
  ∃ l', match conditions with
        | Some c => adjustForNetwork l c
        | None => Some l
        end = Some l'
        ∧ indexOf levels l' = clamp (indexOf levels l + networkStep conditions).
Proof.
  assert (indexOf levels l = clamp (indexOf levels l + 0)) as Hstay by by destruct l.
  unfold networkStep, adjustForNetwork.
  destruct conditions as [c|]; [|by exists l].
  destruct (gtb (congestion c) 0.8); [apply adjustLevel_clamp|].
  destruct (networkHealth c <? 0.7)%float; [apply adjustLevel_clamp | by exists l].
Qed.

Lemma adaptPrivacyLevel_clamped (context : PrivacyContext) (this : PrivacyAdapter.t) :
  let threat := default (assessThreat context this) (threatLevel context) in
  ∃ l,
    adaptPrivacyLevel context this = Some (privacyConfigs l)
    ∧ indexOf levels l
      = clamp (clamp (clamp (indexOf levels (threatToPrivacyLevel threat)
                             + adjustments (transactionType context))
                      + amountStep (PrivacyAdapter.amount context))
               + networkStep (networkConditions context)).
Proof.
  intros threat. unfold adaptPrivacyLevel, adjustForTransactionType.
  replace (match threatLevel context with Some t => t | None => assessThreat context this end)
    with threat by (unfold threat; by destruct (threatLevel context)).
  destruct (adjustLevel_clamp (threatToPrivacyLevel threat) (adjustments (transactionType context)))
    as (l1 & Hl1 & H1).
  destruct (amount_step l1 (PrivacyAdapter.amount context)) as (l2 & Hl2 & H2).
  destruct (network_step l2 (networkConditions context)) as (l3 & Hl3 & H3).
  rewrite (bind_Some _ _ l1 Hl1), (bind_Some _ _ l2 Hl2), (bind_Some _ _ l3 Hl3).
  exists l3. split; [by destruct l3|]. by rewrite H3, H2, H1.
Qed.

(** X13.  The adapted configuration is that of one of the four levels, and
    the level is reached from the one of the threat (the supplied one, else
    the assessed one) by three steps, each clamped into the scale on its
    own: the step of the transaction type, the step of the amount (+1 above
    10000000 units, 0 above 1000000, -1 below, none for an absent amount or
    for [0n]) and the step of the network (-1 when congestion exceeds 0.8,
    else +1 when the health is below 0.7). *)
Theorem adaptPrivacyLevel_steps (context : PrivacyContext) (this : PrivacyAdapter.t) :
  let threat := default (assessThreat context this) (threatLevel context) in
  ∃ l,
    adaptPrivacyLevel context this = Some (privacyConfigs l)
    ∧ indexOf levels l
      = clamp (clamp (clamp (indexOf levels (threatToPrivacyLevel threat)
                             + adjustments (transactionType context))
                      + amountStep (PrivacyAdapter.amount context))
               + networkStep (networkConditions context)).
Proof. apply adaptPrivacyLevel_clamped. Qed.

(** X14.  All else equal, a higher supplied threat never yields a lower
    privacy level. *)
Theorem adaptPrivacyLevel_monotone (context : PrivacyContext) (this : PrivacyAdapter.t)
    (threat threat' : ThreatLevel) :
  (threat_rank threat ≤ threat_rank threat')%Z →
  ∃ l l',
    adaptPrivacyLevel (with_threat (Some threat) context) this = Some (privacyConfigs l)
    ∧ adaptPrivacyLevel (with_threat (Some threat') context) this = Some (privacyConfigs l')
    ∧ (indexOf levels l ≤ indexOf levels l')%Z.
Proof.
  intros Hrank.
  destruct (adaptPrivacyLevel_clamped (with_threat (Some threat) context) this)
    as (l & Hl & Hi).
  destruct (adaptPrivacyLevel_clamped (with_threat (Some threat') context) this)
    as (l' & Hl' & Hi').
  exists l, l'. split; [done|]. split; [done|].
  unfold with_threat in Hi, Hi'.
  cbn [threatLevel default from_option id transactionType PrivacyAdapter.amount
       networkConditions] in Hi, Hi'.
  rewrite Hi, Hi'. unfold threat_rank in Hrank.
  generalize (adjustments (transactionType context))
    (amountStep (PrivacyAdapter.amount context)) (networkStep (networkConditions context)).
  revert Hrank.
  generalize (indexOf levels (threatToPrivacyLevel threat))
    (indexOf levels (threatToPrivacyLevel threat')).
  unfold clamp. lia.
Qed.

(** X15.  With nothing supplied but the pseudonym and the type: a compliance
    transaction gets the level high when no threat is recorded for the
    pseudonym and maximum as soon as one is, whatever the recorded threats
    are; a governance transaction always gets the level low. *)
Theorem compliance_and_governance_levels (pseudonym : list byte) (this : PrivacyAdapter.t) :
  adaptPrivacyLevel (unassessed pseudonym compliance) this
  = Some (privacyConfigs
            match default [] (threatHistory this !! bytesToHex pseudonym) with
            | [] => high
            | _ :: _ => maximum
            end)
  ∧ adaptPrivacyLevel (unassessed pseudonym governance) this = Some (privacyConfigs low).
Proof.
  unfold adaptPrivacyLevel, assessThreat, unassessed.
  cbn [userPseudonym transactionType PrivacyAdapter.amount threatLevel networkConditions].
  by destruct (default [] (threatHistory this !! bytesToHex pseudonym)).
Qed.

End AdaptPrivacy.

Lemma adaptPrivacyLevel_monotone_witness :
  ∃ l l',
    PrivacyAdapter.adaptPrivacyLevel
      (with_threat (Some PrivacyAdapter.Threat.low) congested_context) PrivacyAdapter.new
    = Some (PrivacyAdapter.privacyConfigs l)
    ∧ PrivacyAdapter.adaptPrivacyLevel
        (with_threat (Some PrivacyAdapter.Threat.critical) congested_context) PrivacyAdapter.new
      = Some (PrivacyAdapter.privacyConfigs l')
    ∧ (PrivacyAdapter.indexOf PrivacyAdapter.levels l
       ≤ PrivacyAdapter.indexOf PrivacyAdapter.levels l')%Z.
Proof.
  apply (adaptPrivacyLevel_monotone congested_context PrivacyAdapter.new
           PrivacyAdapter.Threat.low PrivacyAdapter.Threat.critical).
  vm_compute. discriminate.
Defined.

(** ** The router (payment-optimizer.ts) *)

Section RouterChoice.
Import JS AIPaymentRouter.

(** X16.  The gas estimate of the seven chains: 5000 for solana and 21000
    for the others, times 1.2 (6000 and 25200) for amounts strictly above
    1000000 units. *)
Theorem estimateGas_values (chain : string) (amount : Z) :
  chain ∈ allChains →
  estimateGas chain amount
  = Normal (let base := if String.eqb chain "solana" then 5000 else 21000 in
            if (1000000 <? amount)%Z then base * 6 / 5 else base)%Z.
Proof.
  intros Hchain.
  repeat (apply elem_of_cons in Hchain as [-> | Hchain];
          [unfold estimateGas; by destruct (1000000 <? amount)%Z|]).
  by apply elem_of_nil in Hchain.
Qed.

Lemma estimateGas_threshold (chain : string) (amount amount' : Z) :
  (1000000 <? amount)%Z = (1000000 <? amount')%Z →
  estimateGas chain amount = estimateGas chain amount'.
Proof. intros Hsame. unfold estimateGas. by rewrite Hsame. Qed.

(** Sorting permutes. *)
Lemma sort_insert_perm {A} (compare : A → A → number) (x : A) (l : list A) :
  sort_insert compare x l ≡ₚ x :: l.
Proof.
  induction l as [|y l IH]; simpl; [done|].
  destruct (gtb (compare x y) 0); [|done].
  rewrite IH. apply Permutation_swap.
Qed.

Lemma Array_sort_perm {A} (compare : A → A → number) (l : list A) :
  Array_sort compare l ≡ₚ l.
Proof.
  induction l as [|x l IH]; simpl; [done|].
  unfold Array_sort in *. simpl. by rewrite sort_insert_perm, IH.
Qed.

Lemma analyzeChains_routes availableChains options this routes route :
  analyzeChains availableChains options this = Normal routes →
  route ∈ routes →
  chain route ∈ availableChains
  ∧ is_Some (chainMetrics this !! chain route)
  ∧ estimateGas (chain route) (amount options) = Normal (estimatedGas route)
  ∧ privacyScore route = calculatePrivacyScore (chain route) (privacyLevel options)
  ∧ successRate route = getSuccessRate (chain route) (amount options) this.
Proof.
  revert routes. induction availableChains as [|c rest IH]; intros routes; simpl.
  { intros [= <-] Hin. by apply elem_of_nil in Hin. }
  destruct (chainMetrics this !! c) as [metrics|] eqn:Hm.
  - unfold calculateRoute.
    destruct (estimateGas c (amount options)) as [gas|e] eqn:Hgas; simpl; [|done].
    destruct (analyzeChains rest options this) as [routes'|e]; simpl; [|done].
    intros [= <-] [-> | Hin]%elem_of_cons.
    + simpl. rewrite Hm. split; [apply list_elem_of_here|]. eauto.
    + destruct (IH routes' eq_refl Hin) as (? & ? & ?).
      split; [by apply list_elem_of_further|]. done.
  - intros Hr Hin. destruct (IH routes Hr Hin) as (? & ? & ?).
    split; [by apply list_elem_of_further|]. done.
Qed.

(** X17.  Where a returned route comes from: it is the route computed for
    one of the available chains (the preferred ones, else the seven known
    ones) that has metrics, carrying that chain's gas estimate, privacy score
    and success rate; or no available chain has metrics and it is the
    default route on the target chain, else on ethereum. *)
Theorem findOptimalRoute_chain (options : RoutingOptions) (this : AIPaymentRouter.t)
    (route : PaymentRoute) :
  findOptimalRoute options this = Normal route →
  (chain route ∈ default allChains (preferredChains options)
   ∧ is_Some (chainMetrics this !! chain route)
   ∧ estimateGas (chain route) (amount options) = Normal (estimatedGas route)
   ∧ privacyScore route = calculatePrivacyScore (chain route) (privacyLevel options)
   ∧ successRate route = getSuccessRate (chain route) (amount options) this)
  ∨ (rankedRoutes options this = []
     ∧ route = createDefaultRoute (string_or (targetChain options) "ethereum")).
Proof.
  unfold findOptimalRoute, rankedRoutes.
  destruct (analyzeChains _ options this) as [routes|e] eqn:Hroutes; simpl; [|done].
  set (ranked := Array_sort compareRoutes routes).
  assert (∀ r, r ∈ ranked → r ∈ routes) as Hranked.
  { intros r Hr. unfold ranked in Hr. by rewrite Array_sort_perm in Hr. }
  match goal with
  | |- context [match ?final with [] => _ | best :: _ => _ end] =>
      assert (∀ r, r ∈ final → r ∈ ranked) as Hfinal
  end.
  { intros r. destruct (maxGasPrice options) as [maxGas|]; [destruct (maxGas =? 0)%Z|];
      rewrite ?list_elem_of_filter; tauto. }
  match goal with
  | |- context [match ?final with [] => _ | best :: _ => _ end] =>
      destruct final as [|best rest]
  end.
  - destruct ranked as [|first rest]; intros [= <-].
    + right. done.
    + left. apply (analyzeChains_routes _ _ _ _ _ Hroutes), Hranked, list_elem_of_here.
  - intros [= <-]. left.
    apply (analyzeChains_routes _ _ _ _ _ Hroutes), Hranked, Hfinal, list_elem_of_here.
Qed.

Lemma analyzeChains_target availableChains target options this :
  analyzeChains availableChains (with_target target options) this
  = analyzeChains availableChains options this.
Proof.
  induction availableChains as [|c rest IH]; simpl; [done|]. by rewrite IH.
Qed.

(** X18.  The target chain of a request plays no part in the choice: as
    soon as one available chain has metrics, the call returns the same route
    whatever the target chain is.  It only names the default route. *)
Theorem targetChain_only_names_default (target : option string) (options : RoutingOptions)
    (this : AIPaymentRouter.t) :
  rankedRoutes options this ≠ [] →
  findOptimalRoute (with_target target options) this = findOptimalRoute options this.
Proof.
  unfold rankedRoutes, findOptimalRoute. simpl. rewrite analyzeChains_target.
  destruct (analyzeChains _ options this) as [routes|e]; simpl; [|done].
  intros Hne. destruct (Array_sort compareRoutes routes) as [|first rest]; [done|].
  by repeat case_match.
Qed.

(** The first of a list is what a filter keeps first, if it passes whenever
    a later entry does. *)
Lemma first_route_wins (P : PaymentRoute → Prop) `{!∀ r, Decision (P r)}
    (first : PaymentRoute) (rest : list PaymentRoute) :
  (∀ r, r ∈ rest → P r → P first) →
  match filter P (first :: rest) with
  | best :: _ => best
  | [] => first
  end = first.
Proof.
  intros Hfirst. rewrite filter_cons. destruct (decide (P first)) as [|Hno]; [done|].
  destruct (filter P rest) as [|r rest'] eqn:Hfilter; [done|].
  assert (r ∈ filter P rest) as Hin by (rewrite Hfilter; apply list_elem_of_here).
  apply list_elem_of_filter in Hin as [Hr Hin].
  exfalso. by apply Hno, (Hfirst r).
Qed.

(** The best-ranked route is returned whenever it meets the privacy
    threshold and no other route is cheaper. *)
Lemma findOptimalRoute_first (options : RoutingOptions) (this : AIPaymentRouter.t)
    (first : PaymentRoute) (rest : list PaymentRoute) :
  rankedRoutes options this = first :: rest →
  geb (privacyScore first) (getPrivacyScore (privacyLevel options)) = true →
  Forall (λ r, (estimatedGas first ≤ estimatedGas r)%Z) rest →
  findOptimalRoute options this = Normal first.
Proof.
  intros Hranked Hprivacy Hgas.
  destruct (maxGasPrice options) as [maxGas|] eqn:Hmax;
    [destruct (decide (maxGas = 0%Z)) as [-> | Hnonzero]|].
  2:{ pose proof (findOptimalRoute_three_levels options this maxGas Hmax Hnonzero) as Hthree.
      rewrite Hranked in Hthree.
      pose proof (first_route_wins (passes options maxGas) first rest) as Hwins.
      destruct (filter (passes options maxGas) (first :: rest)) as [|best others].
      - done.
      - destruct Hthree as [-> _]. f_equal. apply Hwins.
        intros r Hr [_ Hle]. split; [done|].
        rewrite Forall_forall in Hgas. specialize (Hgas r Hr). lia. }
  all: rewrite findOptimalRoute_without_ceiling by auto.
  all: by rewrite Hranked, filter_cons_True.
Qed.

(** What the routes depend on: the level, the side of the amount with
    respect to 1000000, the confirmation blocks of the metrics and the
    success rates. *)
Lemma analyzeChains_ext availableChains options options' this this' :
  privacyLevel options = privacyLevel options' →
  (1000000 <? amount options)%Z = (1000000 <? amount options')%Z →
  (∀ c, c ∈ availableChains →
     avgConfirmationBlocks <$> (chainMetrics this !! c)
     = avgConfirmationBlocks <$> (chainMetrics this' !! c)) →
  (∀ c, c ∈ availableChains →
     getSuccessRate c (amount options) this = getSuccessRate c (amount options') this') →
  analyzeChains availableChains options this = analyzeChains availableChains options' this'.
Proof.
  intros Hlevel Hamount Hmetrics Hrate.
  induction availableChains as [|c rest IH]; simpl; [done|].
  rewrite IH; cycle 1.
  { intros c' Hc'. apply Hmetrics. by apply list_elem_of_further. }
  { intros c' Hc'. apply Hrate. by apply list_elem_of_further. }
  pose proof (Hmetrics c (list_elem_of_here _ _)) as Hm.
  pose proof (Hrate c (list_elem_of_here _ _)) as Hr.
  destruct (chainMetrics this !! c) as [m|], (chainMetrics this' !! c) as [m'|];
    simpl in Hm; try done.
  injection Hm as Hm.
  unfold calculateRoute, estimateTime.
  by rewrite (estimateGas_threshold c _ _ Hamount), Hlevel, Hr, Hm.
Qed.

Lemma findOptimalRoute_ext options options' this this' :
  privacyLevel options = privacyLevel options' →
  maxGasPrice options = maxGasPrice options' →
  preferredChains options = preferredChains options' →
  targetChain options = targetChain options' →
  analyzeChains (default allChains (preferredChains options)) options this
  = analyzeChains (default allChains (preferredChains options)) options' this' →
  findOptimalRoute options this = findOptimalRoute options' this'.
Proof.
  intros Hl Hg Hp Ht Ha. unfold findOptimalRoute. by rewrite <- Hp, Ha, Hl, Hg, Ht.
Qed.

Lemma ratio_one (n : nat) :
  1 ≤ n ≤ 100 → (Number_of_nat n / Number_of_nat n)%float = 1%float.
Proof.
  intros [H1 H100].
  do 101 (destruct n as [|n]; [try lia; by vm_compute|]). lia.
Qed.

Lemma filter_all {A} (P : A → Prop) `{!∀ x, Decision (P x)} (l : list A) :
  Forall P l → filter P l = l.
Proof.
  induction 1 as [|x l Hx _ IH]; [done|]. by rewrite filter_cons_True, IH.
Qed.

(** A router that records routes for solana only, all of success rate above
    0.9, has the success rates of one of the two sample routers. *)
Lemma solana_only_rates (this : AIPaymentRouter.t) (amount : Z) :
  solana_only this →
  ∃ full : bool,
    ∀ c amount', c ∈ allChains →
      getSuccessRate c amount this = getSuccessRate c amount' (sample_router full).
Proof.
  intros (_ & Hother & Hlen & Hgood).
  destruct (default [] (routingHistory this !! "solana")) as [|r h] eqn:Hsolana.
  - exists false. intros c amount' Hc. unfold getSuccessRate.
    destruct (decide (c = "solana")) as [-> | Hne].
    + by rewrite Hsolana.
    + by rewrite (Hother c Hne).
  - exists true. intros c amount' Hc. unfold getSuccessRate.
    destruct (decide (c = "solana")) as [-> | Hne].
    + rewrite Hsolana, (filter_all _ _ Hgood).
      replace (length (r :: h) =? 0)%nat with false by done.
      rewrite ratio_one by (simpl in *; lia). by vm_compute.
    + rewrite (Hother c Hne).
      repeat (apply elem_of_cons in Hc as [-> | Hc]; [by vm_compute|]).
      by apply elem_of_nil in Hc.
Qed.

Lemma solana_only_metrics (this : AIPaymentRouter.t) (full : bool) (c : string) :
  solana_only this → c ∈ allChains →
  avgConfirmationBlocks <$> (chainMetrics this !! c)
  = avgConfirmationBlocks <$> (chainMetrics (sample_router full) !! c).
Proof.
  intros ([now ->] & _) Hc.
  repeat (apply elem_of_cons in Hc as [-> | Hc]; [by destruct full; vm_compute|]).
  by apply elem_of_nil in Hc.
Qed.

(** On the sample routers solana is ranked first and is the cheapest. *)
Lemma sample_ranking (full large : bool) (level : PrivacyLevel) (target : option string)
    (maxGas : option Z) :
  ∃ rest,
    rankedRoutes (sample_options large level target maxGas) (sample_router full)
    = solana_route (if large then 1000001 else 0) level (if full then 1 else 0.99) :: rest
    ∧ Forall (λ r, ((if large then 6000 else 5000) ≤ estimatedGas r)%Z) rest.
Proof.
  destruct full, large, level; vm_compute; eexists; (split; [reflexivity|]);
    repeat constructor; discriminate.
Qed.

(** Such a router sends every request without preferred chains to solana. *)
Lemma solana_only_route (options : RoutingOptions) (this : AIPaymentRouter.t) :
  solana_only this → preferredChains options = None →
  findOptimalRoute options this
  = Normal (solana_route (amount options) (privacyLevel options)
              (getSuccessRate "solana" (amount options) this))
  ∧ (getSuccessRate "solana" (amount options) this = 0.99%float
     ∨ getSuccessRate "solana" (amount options) this = 1%float).
Proof.
  intros Hinv Hpref.
  destruct (solana_only_rates this (amount options) Hinv) as [full Hrates].
  set (large := (1000000 <? amount options)%Z).
  set (options' := sample_options large (privacyLevel options) (targetChain options)
                     (maxGasPrice options)).
  assert ((1000000 <? amount options')%Z = large) as Hlarge by (by destruct large).
  assert (getSuccessRate "solana" (amount options) this = if full then 1%float else 0.99%float)
    as Hrate.
  { rewrite (Hrates "solana" 0%Z) by (by vm_compute; repeat constructor).
    by destruct full. }
  split; [|rewrite Hrate; destruct full; auto].
  assert (analyzeChains (default allChains (preferredChains options)) options this
          = analyzeChains (default allChains (preferredChains options)) options'
              (sample_router full)) as Hsame.
  { rewrite Hpref. change (default allChains None) with allChains.
    apply analyzeChains_ext; [reflexivity | by rewrite Hlarge | |].
    - intros c Hc. by apply solana_only_metrics.
    - intros c Hc. by apply Hrates. }
  rewrite (findOptimalRoute_ext options options' this (sample_router full)
             eq_refl eq_refl Hpref eq_refl Hsame).
  destruct (sample_ranking full large (privacyLevel options) (targetChain options)
              (maxGasPrice options)) as (rest & Hranked & Hgas).
  unfold options'. rewrite (findOptimalRoute_first _ _ _ _ Hranked).
  - rewrite Hrate. unfold solana_route. fold large. by destruct large.
  - simpl. by destruct (privacyLevel options), full.
  - clear Hranked. destruct large; exact Hgas.
Qed.

Lemma solana_only_new (now : number) : solana_only (new now).
Proof.
  split; [by exists now|]. split; [done|]. simpl. rewrite lookup_empty. simpl.
  split; [lia | constructor].
Qed.

(** [updateHistory] with a route for solana of success rate above 0.9 keeps
    the property. *)
Lemma solana_only_updateHistory (this : AIPaymentRouter.t) (route : PaymentRoute) :
  solana_only this → gtb (successRate route) 0.9 = true →
  solana_only (updateHistory "solana" route this).
Proof.
  intros (Hm & Hother & Hlen & Hgood) Hroute. unfold updateHistory, solana_only. simpl.
  split; [done|]. split.
  { intros c Hc. rewrite lookup_insert_ne by done. by apply Hother. }
  rewrite lookup_insert_eq. simpl.
  set (h := default [] (routingHistory this !! "solana")) in *.
  assert (Forall (λ r, gtb (successRate r) 0.9 = true) (h ++ [route])) as Hgood'.
  { apply Forall_app. split; [done|]. by constructor. }
  destruct (Nat.ltb_spec 100 (length (h ++ [route]))) as [Hlong | Hshort].
  - split; [rewrite length_drop, length_app; simpl; lia|]. by apply Forall_drop.
  - done.
Qed.

(** X19.  A router that has recorded nothing sends every request without
    preferred chains to solana, whatever the amount, the privacy level, the
    target chain and the gas ceiling: solana is ranked first, passes the
    privacy threshold of every level, and is the cheapest. *)
Theorem fresh_router_picks_solana (now : number) (amount : Z) (level : PrivacyLevel)
    (target : option string) (maxGas : option Z) :
  findOptimalRoute {| amount := amount; targetChain := target; privacyLevel := level;
                      maxGasPrice := maxGas; preferredChains := None |} (new now)
  = Normal (solana_route amount level 0.99).
Proof.
  destruct (solana_only_route
              {| amount := amount; targetChain := target; privacyLevel := level;
                 maxGasPrice := maxGas; preferredChains := None |} (new now)
              (solana_only_new now) eq_refl) as [-> _].
  done.
Qed.




(** X21.  The known chains whose privacy score meets the threshold of each
    level: all seven at low and medium, all but bsc at high, and at maximum
    only ethereum, arbitrum, optimism and solana; polygon and avalanche score
    0.6 * 1.5, which in binary64 is just below the threshold 0.9. *)
Theorem privacy_threshold_chains (level : PrivacyLevel) :
  filter (λ chain, geb (calculatePrivacyScore chain level) (getPrivacyScore level) = true)
         allChains
  = match level with
    | PrivacyAdapter.low | PrivacyAdapter.medium => allChains
    | PrivacyAdapter.high =>
        ["ethereum"; "polygon"; "arbitrum"; "optimism"; "avalanche"; "solana"]
    | PrivacyAdapter.maximum => ["ethereum"; "arbitrum"; "optimism"; "solana"]
    end.
Proof. by destruct level; vm_compute. Qed.

End RouterChoice.

Lemma estimateGas_values_witness :
  AIPaymentRouter.estimateGas "polygon" 2000000 = JS.Normal 25200%Z.
Proof.
  apply (estimateGas_values "polygon" 2000000).
  apply list_elem_of_further, list_elem_of_here.
Defined.


Lemma findOptimalRoute_chain_witness :
  (AIPaymentRouter.chain (solana_route 1 PrivacyAdapter.medium 0.99%float)
     ∈ default AIPaymentRouter.allChains (AIPaymentRouter.preferredChains plain_options)
   ∧ is_Some (AIPaymentRouter.chainMetrics (AIPaymentRouter.new 0)
                !! AIPaymentRouter.chain (solana_route 1 PrivacyAdapter.medium 0.99%float))
   ∧ AIPaymentRouter.estimateGas
       (AIPaymentRouter.chain (solana_route 1 PrivacyAdapter.medium 0.99%float))
       (AIPaymentRouter.amount plain_options)
     = JS.Normal (AIPaymentRouter.estimatedGas (solana_route 1 PrivacyAdapter.medium 0.99%float))
   ∧ AIPaymentRouter.privacyScore (solana_route 1 PrivacyAdapter.medium 0.99%float)
     = AIPaymentRouter.calculatePrivacyScore
         (AIPaymentRouter.chain (solana_route 1 PrivacyAdapter.medium 0.99%float))
         (AIPaymentRouter.privacyLevel plain_options)
   ∧ AIPaymentRouter.successRate (solana_route 1 PrivacyAdapter.medium 0.99%float)
     = AIPaymentRouter.getSuccessRate
         (AIPaymentRouter.chain (solana_route 1 PrivacyAdapter.medium 0.99%float))
         (AIPaymentRouter.amount plain_options) (AIPaymentRouter.new 0))
  ∨ (rankedRoutes plain_options (AIPaymentRouter.new 0) = []
     ∧ solana_route 1 PrivacyAdapter.medium 0.99%float
       = AIPaymentRouter.createDefaultRoute
           (JS.string_or (AIPaymentRouter.targetChain plain_options) "ethereum")).
Proof.
  apply (findOptimalRoute_chain plain_options (AIPaymentRouter.new 0)
           (solana_route 1 PrivacyAdapter.medium 0.99%float)).
  vm_compute. reflexivity.
Defined.

Lemma targetChain_only_names_default_witness :
  AIPaymentRouter.findOptimalRoute (with_target (Some "polygon") plain_options)
    (AIPaymentRouter.new 0)
  = AIPaymentRouter.findOptimalRoute plain_options (AIPaymentRouter.new 0).
Proof.
  apply (targetChain_only_names_default (Some "polygon") plain_options (AIPaymentRouter.new 0)).
  vm_compute. discriminate.
Defined.

(** ** Learnt patterns and the score (reputation-learner.ts) *)

Section LearntPatterns.
Import JS AIReputationLearner.

(** No pattern name is a field of the feature vector. *)
Lemma feature_of_pattern (features : FeatureVector) (key : string) :
  key ∈ patternTypes → feature features key = None.
Proof.
  intros Hkey. unfold patternTypes in Hkey.
  repeat (apply elem_of_cons in Hkey as [-> | Hkey]; [done|]).
  by apply elem_of_nil in Hkey.
Qed.

Lemma identifyPatterns_types (payments : list PaymentPattern) (pattern : Pattern) :
  pattern ∈ identifyPatterns payments → type pattern ∈ patternTypes.
Proof.
  unfold identifyPatterns, patternTypes. rewrite !elem_of_app.
  intros [Hp | [Hp | Hp]];
    repeat match goal with
           | H : _ ∈ (if ?b then _ else _) |- _ => destruct b
           | H : _ ∈ [_] |- _ => apply list_elem_of_singleton in H as ->
           | H : _ ∈ [] |- _ => by apply elem_of_nil in H
           end; simpl; rewrite !elem_of_cons; auto.
Qed.

Lemma map_set_keys (key : string) (value : number) (m : ReputationModel) (k : string) :
  k ∈ (map_set key value m).*1 ↔ k = key ∨ k ∈ m.*1.
Proof.
  induction m as [|[k' v'] m IH]; simpl.
  - rewrite list_elem_of_singleton, elem_of_nil. tauto.
  - destruct (String.eqb_spec k' key) as [-> | Hne]; simpl.
    + rewrite !elem_of_cons. tauto.
    + rewrite !elem_of_cons, IH. tauto.
Qed.

Lemma model_update_keys (patterns : list Pattern) (weights : ReputationModel) (k : string) :
  k ∈ (model_update patterns weights).*1 ↔ k ∈ type <$> patterns ∨ k ∈ weights.*1.
Proof.
  unfold model_update. revert weights.
  induction patterns as [|p patterns IH]; intros weights; simpl.
  - rewrite elem_of_nil. tauto.
  - rewrite IH, map_set_keys, elem_of_cons. tauto.
Qed.

(** The score loop of [predict]: once NaN, the score stays NaN, and it
    becomes NaN at a weight whose name is not a field of the features. *)
Lemma score_nan_stays (features : FeatureVector) (weights : ReputationModel) :
  fold_left (λ score '(factor, weight),
               (score + to_number (feature features factor) * weight * 10)%float)
            weights nan = nan.
Proof.
  induction weights as [|[k w] weights IH]; simpl; [done|]. by rewrite add_nan_l.
Qed.

Lemma score_nan_from (features : FeatureVector) (weights : ReputationModel) (key : string)
    (score : number) :
  key ∈ weights.*1 → feature features key = None →
  fold_left (λ score '(factor, weight),
               (score + to_number (feature features factor) * weight * 10)%float)
            weights score = nan.
Proof.
  intros Hkey Hnone. revert score.
  induction weights as [|[k w] weights IH]; intros score; simpl in *.
  - by apply elem_of_nil in Hkey.
  - apply elem_of_cons in Hkey as [<- | Hkey].
    + rewrite Hnone. simpl. rewrite !mul_nan_l, add_nan_r. apply score_nan_stays.
    + by apply IH.
Qed.

Lemma model_predict_nan (features : FeatureVector) (weights : ReputationModel) (key : string) :
  key ∈ weights.*1 → feature features key = None →
  (model_predict features weights).1 = nan.
Proof.
  intros Hkey Hnone. unfold model_predict. simpl.
  by rewrite (score_nan_from features weights key 50 Hkey Hnone).
Qed.

(** The clamping of the score: [Math.max(0, Math.min(100, x))] is NaN or
    lies between 0 and 100. *)
Lemma clamp_number (x : number) :
  let v := Math_max 0 (Math_min 100 x) in
  v = nan ∨ ((0 <=? v)%float = true ∧ (v <=? 100)%float = true).
Proof.
  unfold Math_min. change (is_nan 100) with false. cbn [orb].
  destruct (is_nan x) eqn:Hnan; [by left|]. right.
  assert (∀ m, is_nan m = false → (m <=? 100)%float = true →
            let v := Math_max 0 m in
            (0 <=? v)%float = true ∧ (v <=? 100)%float = true) as Hmax.
  { intros m Hm H100. unfold Math_max. change (is_nan 0) with false. rewrite Hm. cbn [orb].
    destruct (0 <? m)%float eqn:Hpos; [by split; [apply ltb_leb|]|].
    change (get_sign 0) with false. cbn [orb]. by destruct (m <? 0)%float. }
  destruct (100 <? x)%float eqn:Hbig; [by apply Hmax|].
  assert ((x <=? 100)%float = true) as Hle by (by apply ltb_total).
  change (get_sign 100) with false.
  destruct (x <? 100)%float; by apply Hmax.
Qed.

Context `{Sha256}.

(** X22.  Once [learnFromPayments] has identified a pattern in its payments,
    every prediction the model computes has the score NaN: the pattern is
    stored as a weight under its own name ('regular', 'high_value' or
    'multi_chain'), [predict] reads the feature of that name, which does not
    exist, and neither the sum nor the clamping to [0, 100] removes a NaN. *)
Theorem score_after_pattern (payments : list PaymentPattern) (this : AIReputationLearner.t)
    (pseudonym : list byte) (paymentHistory : option (list PaymentPattern)) (now : number) :
  identifyPatterns payments ≠ [] →
  isTrained this = true ∨ is_Some paymentHistory →
  score (predict pseudonym paymentHistory now (learnFromPayments payments this)) = nan.
Proof.
  intros Hpatterns Hmodel.
  destruct (identifyPatterns payments) as [|pattern patterns] eqn:Hid; [done|].
  assert (type pattern ∈ patternTypes) as Htype.
  { apply (identifyPatterns_types payments). rewrite Hid. apply list_elem_of_here. }
  unfold predict, learnFromPayments. simpl.
  assert (negb (isTrained this) && negb (bool_decide (is_Some paymentHistory)) = false) as ->.
  { destruct Hmodel as [-> | Hsome]; [done|].
    rewrite (bool_decide_eq_true_2 _ Hsome). by rewrite andb_false_r. }
  simpl. apply (model_predict_nan _ _ (type pattern)).
  - rewrite Hid. apply model_update_keys. left. simpl. apply list_elem_of_here.
  - by apply feature_of_pattern.
Qed.

(** X30.  Every predicted score lies between 0 and 100 or is NaN, whatever
    the learner has been trained on or has learnt and whatever the history:
    the clamping bounds every number and lets NaN through. *)
Theorem predicted_score_range (pseudonym : list byte)
    (paymentHistory : option (list PaymentPattern)) (now : number)
    (this : AIReputationLearner.t) :
  let prediction := predict pseudonym paymentHistory now this in
  score prediction = nan
  ∨ ((0 <=? score prediction)%float = true ∧ (score prediction <=? 100)%float = true).
Proof.
  unfold predict.
  destruct (negb (isTrained this) && negb (bool_decide (is_Some paymentHistory)));
    [by right|].
  apply clamp_number.
Qed.

End LearntPatterns.

Lemma score_after_pattern_witness :
  AIReputationLearner.score
    (AIReputationLearner.predict [x01] (Some one_payment) 0
       (AIReputationLearner.learnFromPayments large_payments AIReputationLearner.new))
  = nan.
Proof.
  apply (score_after_pattern large_payments AIReputationLearner.new [x01] (Some one_payment)
           0%float).
  - vm_compute. discriminate.
  - right. eexists. reflexivity.
Defined.

(** ** What the bridge recommends (x402-ai-bridge.ts) *)

Section BridgeChoice.
Import JS X402AIBridge.

(** With the threat low and no network conditions, a payment of more than
    10000000 units gets the medium level and any other the low one. *)
Lemma adaptPrivacyLevel_low_threat (pseudonym : list byte) (amount : Z)
    (this : PrivacyAdapter.t) :
  PrivacyAdapter.adaptPrivacyLevel
    {| PrivacyAdapter.userPseudonym := pseudonym;
       PrivacyAdapter.transactionType := PrivacyAdapter.payment;
       PrivacyAdapter.amount := Some amount;
       PrivacyAdapter.threatLevel := Some PrivacyAdapter.Threat.low;
       PrivacyAdapter.networkConditions := None |} this
  = Some (PrivacyAdapter.privacyConfigs
            (if (10000000 <? amount)%Z then PrivacyAdapter.medium else PrivacyAdapter.low)).
Proof.
  unfold PrivacyAdapter.adaptPrivacyLevel, PrivacyAdapter.adjustForAmount.
  cbn [PrivacyAdapter.amount PrivacyAdapter.threatLevel PrivacyAdapter.transactionType
       PrivacyAdapter.networkConditions].
  destruct (Z.eqb_spec amount 0) as [-> | _]; [done|].
  by destruct (10000000 <? amount)%Z, (1000000 <? amount)%Z.
Qed.

Context `{Sha256}.

(** [learnFromPayment] returns, and records routes for solana only. *)
Lemma learnFromPayment_solana_only payment success actualGas now updated
    (this : X402AIBridge.t) :
  solana_only (router this) →
  (learnFromPayment payment success actualGas now updated this).1 = Normal tt
  ∧ solana_only (router (learnFromPayment payment success actualGas now updated this).2).
Proof.
  intros Hinv. unfold learnFromPayment.
  match goal with
  | |- context [AIPaymentRouter.findOptimalRoute ?o ?r] =>
      destruct (solana_only_route o r Hinv eq_refl) as [-> Hrate]
  end.
  split; [done|]. destruct success; [|done].
  unfold solana_route. cbn [snd router AIPaymentRouter.chain].
  apply solana_only_updateHistory; [done|]. cbn [AIPaymentRouter.successRate].
  by destruct Hrate as [-> | ->].
Qed.

Lemma learnAll_solana_only (calls : list Learned) (this : X402AIBridge.t) :
  solana_only (router this) → solana_only (router (learnAll calls this)).
Proof.
  revert this. induction calls as [|call calls IH]; intros this Hinv; [done|].
  simpl. apply IH. by apply learnFromPayment_solana_only.
Qed.

(** The payment [optimizePayment] builds around the route it was given. *)
Lemma optimizePayment_of_route (request : X402PaymentRequest) (now : Z)
    (this : X402AIBridge.t) (chosen : AIPaymentRouter.PaymentRoute) :
  AIPaymentRouter.findOptimalRoute
    {| AIPaymentRouter.amount := amount request;
       AIPaymentRouter.targetChain := targetChain request;
       AIPaymentRouter.privacyLevel := default PrivacyAdapter.high (privacyLevel request);
       AIPaymentRouter.maxGasPrice := None;
       AIPaymentRouter.preferredChains := None |} (router this) = Normal chosen →
  ∃ assessment l,
    (FraudDetector.assessRisk
       {| FraudDetector.pseudonym := userPseudonym request;
          FraudDetector.amount := amount request;
          FraudDetector.timestamp := now;
          FraudDetector.chain := AIPaymentRouter.chain chosen;
          FraudDetector.commitment := zero_bytes 32 |}
       {| FraudDetector.preservePrivacy := true; FraudDetector.sensitivity := 0.5 |}
       (fraudDetector this)).1 = Normal assessment
    ∧ PrivacyAdapter.adaptPrivacyLevel
        {| PrivacyAdapter.userPseudonym := userPseudonym request;
           PrivacyAdapter.transactionType := PrivacyAdapter.payment;
           PrivacyAdapter.amount := Some (amount request);
           PrivacyAdapter.threatLevel :=
             Some (fraudToThreat (FraudDetector.riskLevel assessment));
           PrivacyAdapter.networkConditions := None |} (privacyAdapter this)
      = Some (PrivacyAdapter.privacyConfigs l)
    ∧ optimizePayment request now this
      = (Normal {| route := chosen;
                   privacyConfig := PrivacyAdapter.privacyConfigs l;
                   fraudAssessment := assessment;
                   recommendedChain := AIPaymentRouter.chain chosen;
                   estimatedCost :=
                     (AIPaymentRouter.estimatedGas chosen * (proofSizeBytes l / 1024))%Z |},
         this).
Proof.
  intros Hroute. unfold optimizePayment. rewrite Hroute.
  unfold FraudDetector.assessRisk, FraudDetector.extractFeatures. simpl.
  match goal with
  | |- context [PrivacyAdapter.adaptPrivacyLevel ?c ?a] =>
      destruct (adaptPrivacyLevel_config c a) as [l Hl]
  end.
  eexists _, l. split; [reflexivity|]. split; [exact Hl|].
  rewrite Hl. simpl. rewrite calculateCost_config. by destruct this.
Qed.

(** X23.  Whatever the bridge has learnt, it recommends solana.  After any
    run of [learnFromPayment] calls on a new bridge, [optimizePayment]
    answers every request, leaves the bridge as it was, and returns the route
    on solana, whatever the amount, the requested privacy level and the
    target chain; the route's success rate is the default 0.99 or, once a
    success was learnt, 1. *)
Theorem bridge_recommends_solana (calls : list Learned) (now0 : number)
    (request : X402PaymentRequest) (now : Z) :
  let bridge := learnAll calls (X402AIBridge.new now0) in
  ∃ payment rate,
    optimizePayment request now bridge = (Normal payment, bridge)
    ∧ (rate = 0.99%float ∨ rate = 1%float)
    ∧ route payment
      = solana_route (amount request) (default PrivacyAdapter.high (privacyLevel request)) rate
    ∧ recommendedChain payment = "solana".
Proof.
  intros bridge.
  assert (solana_only (router bridge)) as Hinv.
  { apply learnAll_solana_only. apply solana_only_new. }
  match goal with
  | |- context [solana_route ?a ?l] =>
      destruct (solana_only_route
                  {| AIPaymentRouter.amount := a;
                     AIPaymentRouter.targetChain := targetChain request;
                     AIPaymentRouter.privacyLevel := l;
                     AIPaymentRouter.maxGasPrice := None;
                     AIPaymentRouter.preferredChains := None |}
                  (router bridge) Hinv eq_refl) as [Hroute Hrate]
  end.
  destruct (optimizePayment_of_route request now bridge _ Hroute)
    as (assessment & l & _ & _ & ->).
  eexists _, _. split; [reflexivity|]. split; [exact Hrate|]. done.
Qed.

End BridgeChoice.

(** X24.  With SHA-256 as the hash, the whole answer of the bridge is fixed
    by the amount and the requested level: the route on solana, the
    assessment of the all-zero commitment (risk 0.1, low, no anomaly,
    confidence 0.7) for every request, the medium level above 10000000
    units and the low level otherwise, and a cost of 12000, 6000 (above
    1000000 units) or 5000. *)
Theorem bridge_payment_sha256 (calls : list Learned) (now0 : JS.number)
    (request : X402AIBridge.X402PaymentRequest) (now : Z) :
  let bridge := learnAll calls (X402AIBridge.new now0) in
  ∃ rate,
    (rate = 0.99%float ∨ rate = 1%float)
    ∧ X402AIBridge.optimizePayment request now bridge
      = (JS.Normal
           {| X402AIBridge.route :=
                solana_route (X402AIBridge.amount request)
                  (default PrivacyAdapter.high (X402AIBridge.privacyLevel request)) rate;
              X402AIBridge.privacyConfig :=
                PrivacyAdapter.privacyConfigs
                  (if (10000000 <? X402AIBridge.amount request)%Z
                   then PrivacyAdapter.medium else PrivacyAdapter.low);
              X402AIBridge.fraudAssessment := low_risk;
              X402AIBridge.recommendedChain := "solana";
              X402AIBridge.estimatedCost :=
                if (10000000 <? X402AIBridge.amount request)%Z then 12000
                else if (1000000 <? X402AIBridge.amount request)%Z then 6000 else 5000 |},
         bridge).
Proof.
  intros bridge.
  assert (solana_only (X402AIBridge.router bridge)) as Hinv.
  { apply learnAll_solana_only. apply solana_only_new. }
  clearbody bridge.
  match goal with
  | |- context [solana_route ?a ?l] =>
      destruct (solana_only_route
                  {| AIPaymentRouter.amount := a;
                     AIPaymentRouter.targetChain := X402AIBridge.targetChain request;
                     AIPaymentRouter.privacyLevel := l;
                     AIPaymentRouter.maxGasPrice := None;
                     AIPaymentRouter.preferredChains := None |}
                  (X402AIBridge.router bridge) Hinv eq_refl) as [Hroute Hrate]
  end.
  destruct (optimizePayment_of_route request now bridge _ Hroute)
    as (assessment & l & Hassess & Hl & ->).
  eexists. split; [exact Hrate|].
  assert (assessment = low_risk) as ->.
  { revert Hassess.
    generalize (X402AIBridge.userPseudonym request) (X402AIBridge.amount request)
      (X402AIBridge.fraudDetector bridge).
    intros pseudonym amount detector. vm_compute. by intros [= <-]. }
  change (X402AIBridge.fraudToThreat (FraudDetector.riskLevel low_risk))
    with PrivacyAdapter.Threat.low in Hl.
  rewrite adaptPrivacyLevel_low_threat in Hl.
  assert (l = if (10000000 <? X402AIBridge.amount request)%Z
              then PrivacyAdapter.medium else PrivacyAdapter.low) as ->.
  { assert (∀ l', PrivacyAdapter.level (PrivacyAdapter.privacyConfigs l') = l') as Hlevel
      by (by intros []).
    apply (f_equal (fmap PrivacyAdapter.level)) in Hl. simpl in Hl.
    rewrite !Hlevel in Hl. by injection Hl. }
  assert (((if (1000000 <? X402AIBridge.amount request)%Z then 6000 else 5000)
           * (proofSizeBytes (if (10000000 <? X402AIBridge.amount request)%Z
                              then PrivacyAdapter.medium else PrivacyAdapter.low) / 1024))%Z
          = if (10000000 <? X402AIBridge.amount request)%Z then 12000%Z
            else if (1000000 <? X402AIBridge.amount request)%Z then 6000%Z else 5000%Z)
    as Hcost.
  { clear.
    destruct (Z.ltb_spec 10000000 (X402AIBridge.amount request)),
      (Z.ltb_spec 1000000 (X402AIBridge.amount request)); try reflexivity; lia. }
  clear Hroute Hrate Hassess Hl Hinv.
  cbn [AIPaymentRouter.amount AIPaymentRouter.privacyLevel AIPaymentRouter.estimatedGas
       AIPaymentRouter.chain solana_route].
  by rewrite Hcost.
Qed.

(** ** What the facade never does (shadowos-intelligence.ts) *)

Section Facade.
Import JS ShadowOSIntelligence.
Context `{Sha256}.

Lemma bridge_optimizePayment_state (request : X402AIBridge.X402PaymentRequest) (now : Z)
    (bridge : X402AIBridge.t) :
  (X402AIBridge.optimizePayment request now bridge).2 = bridge.
Proof.
  unfold X402AIBridge.optimizePayment.
  destruct (AIPaymentRouter.findOptimalRoute _ _) as [chosen|e]; [|done].
  unfold FraudDetector.assessRisk, FraudDetector.extractFeatures. simpl. by destruct bridge.
Qed.

Lemma facadeCall_frame (this : ShadowOSIntelligence.t) (call : FacadeCall) :
  facade_frame (facadeCall this call) = facade_frame this.
Proof.
  destruct call as [request now | payment | payments clock]; unfold facadeCall, facade_frame.
  - unfold optimizePayment.
    pose proof (bridge_optimizePayment_state request now (x402Bridge this)) as Hstate.
    destruct (X402AIBridge.optimizePayment request now (x402Bridge this)) as [result bridge].
    simpl in *. by rewrite Hstate.
  - unfold assessFraud. destruct (negb (enableFraudDetection (config this))); [done|].
    unfold FraudDetector.assessRisk, FraudDetector.extractFeatures. done.
  - unfold learnFromPayments. simpl. by destruct (enableReputationLearning (config this)).
Qed.

Lemma facadeRun_frame (calls : list FacadeCall) (this : ShadowOSIntelligence.t) :
  facade_frame (facadeRun calls this) = facade_frame this.
Proof.
  revert this. induction calls as [|call calls IH]; intros this; [done|].
  unfold facadeRun in *. simpl. by rewrite IH, facadeCall_frame.
Qed.

(** The weights the facade's learner holds are named after patterns. *)
Lemma facadeCall_model (this : ShadowOSIntelligence.t) (call : FacadeCall) :
  (∀ key, key ∈ (AIReputationLearner.model (reputationLearner this)).*1 → key ∈ patternTypes) →
  ∀ key, key ∈ (AIReputationLearner.model (reputationLearner (facadeCall this call))).*1 →
         key ∈ patternTypes.
Proof.
  intros Hkeys key.
  destruct call as [request now | payment | payments clock]; unfold facadeCall.
  - unfold optimizePayment.
    destruct (X402AIBridge.optimizePayment request now (x402Bridge this)). apply Hkeys.
  - unfold assessFraud. destruct (negb (enableFraudDetection (config this))); [apply Hkeys|].
    destruct (FraudDetector.assessRisk _ _ _). apply Hkeys.
  - unfold learnFromPayments. simpl.
    destruct (enableReputationLearning (config this)); [|apply Hkeys].
    unfold AIReputationLearner.learnFromPayments. simpl.
    rewrite model_update_keys. intros [Hnew | Hold]; [|by apply Hkeys].
    apply list_elem_of_fmap in Hnew as (pattern & -> & Hpattern).
    by apply (identifyPatterns_types payments).
Qed.

Lemma facadeRun_model (calls : list FacadeCall) (this : ShadowOSIntelligence.t) :
  (∀ key, key ∈ (AIReputationLearner.model (reputationLearner this)).*1 → key ∈ patternTypes) →
  ∀ key, key ∈ (AIReputationLearner.model (reputationLearner (facadeRun calls this))).*1 →
         key ∈ patternTypes.
Proof.
  revert this. induction calls as [|call calls IH]; intros this Hkeys; [done|].
  unfold facadeRun in *. simpl. apply IH. by apply facadeCall_model.
Qed.

(** X25.  After any run of [optimizePayment], [assessFraud] and
    [learnFromPayments] calls, the facade's own router and privacy adapter
    and its bridge are as the constructor made them, the configuration is
    unchanged, and the learner is untrained with no training data: the
    facade never trains its learner and never lets its bridge learn. *)
Theorem facade_engines_untouched (config : option PartialConfig) (now now' : number)
    (calls : list FacadeCall) :
  let this := facadeRun calls (new config now now') in
  router this = AIPaymentRouter.new now
  ∧ privacyAdapter this = PrivacyAdapter.new
  ∧ x402Bridge this = X402AIBridge.new now'
  ∧ ShadowOSIntelligence.config this = ShadowOSIntelligence.config (new config now now')
  ∧ AIReputationLearner.isTrained (reputationLearner this) = false
  ∧ AIReputationLearner.trainingData (reputationLearner this) = [].
Proof.
  intros this. pose proof (facadeRun_frame calls (new config now now')) as Hframe.
  fold this in Hframe. unfold facade_frame in Hframe. simpl in Hframe.
  by injection Hframe as -> -> -> -> -> ->.
Qed.

(** X26.  The summary never reports a learnt reputation: whatever was
    learnt through the facade, the score is 50, the confidence 0.5 and the
    only factor 'insufficient_data', or 'ai_disabled' when reputation
    learning is off. *)
Theorem summary_reputation_is_default (config : option PartialConfig) (now now' : number)
    (calls : list FacadeCall) (pseudonym : list byte) (t : number) :
  let this := facadeRun calls (new config now now') in
  let summary := getIntelligenceSummary pseudonym t this in
  reputationScore summary = 50%float
  ∧ reputationConfidence summary = 0.5%float
  ∧ reputationFactors summary
    = [if ai_reputationLearning (aiEnabled summary) then "insufficient_data" else "ai_disabled"].
Proof.
  intros this summary.
  pose proof (facadeRun_frame calls (new config now now')) as Hframe.
  fold this in Hframe. unfold facade_frame in Hframe. simpl in Hframe.
  injection Hframe as _ _ _ _ Htrained _.
  unfold summary, getIntelligenceSummary, predictReputation, AIReputationLearner.predict.
  rewrite Htrained. simpl.
  by destruct (enableReputationLearning (ShadowOSIntelligence.config this)).
Qed.

(** X27.  A payment optimized through the facade is answered as by a bridge
    that has learnt nothing, whatever the facade has learnt: the route is the
    one on solana at the default success rate 0.99. *)
Theorem facade_optimizePayment_fresh (config : option PartialConfig) (now now' : number)
    (calls : list FacadeCall) (request : X402AIBridge.X402PaymentRequest) (t : Z) :
  let this := facadeRun calls (new config now now') in
  (optimizePayment request t this).1
  = (X402AIBridge.optimizePayment request t (X402AIBridge.new now')).1
  ∧ ∃ payment,
      (optimizePayment request t this).1 = Normal payment
      ∧ X402AIBridge.route payment
        = solana_route (X402AIBridge.amount request)
            (default PrivacyAdapter.high (X402AIBridge.privacyLevel request)) 0.99
      ∧ X402AIBridge.recommendedChain payment = "solana".
Proof.
  intros this.
  pose proof (facadeRun_frame calls (new config now now')) as Hframe.
  fold this in Hframe. unfold facade_frame in Hframe. simpl in Hframe.
  injection Hframe as _ _ Hbridge _ _ _.
  assert ((optimizePayment request t this).1
          = (X402AIBridge.optimizePayment request t (X402AIBridge.new now')).1) as Hsame.
  { unfold optimizePayment. rewrite Hbridge.
    by destruct (X402AIBridge.optimizePayment request t (X402AIBridge.new now')). }
  split; [exact Hsame|]. rewrite Hsame.
  destruct (solana_only_route
              {| AIPaymentRouter.amount := X402AIBridge.amount request;
                 AIPaymentRouter.targetChain := X402AIBridge.targetChain request;
                 AIPaymentRouter.privacyLevel :=
                   default PrivacyAdapter.high (X402AIBridge.privacyLevel request);
                 AIPaymentRouter.maxGasPrice := None;
                 AIPaymentRouter.preferredChains := None |}
              (AIPaymentRouter.new now') (solana_only_new now') eq_refl) as [Hroute _].
  destruct (optimizePayment_of_route request t (X402AIBridge.new now') _ Hroute)
    as (assessment & l & _ & _ & ->).
  eexists. split; [reflexivity|]. done.
Qed.

(** X28.  A reputation predicted through the facade from a payment history
    has the score 50 until a pattern is learnt and NaN from then on (50
    throughout when reputation learning is off): the facade's learner holds
    no weight but those of patterns. *)
Theorem facade_reputation_score (config : option PartialConfig) (now now' : number)
    (calls : list FacadeCall) (pseudonym : list byte)
    (history : list AIReputationLearner.PaymentPattern) (t : number) :
  let this := facadeRun calls (new config now now') in
  AIReputationLearner.score (predictReputation pseudonym (Some history) t this)
  = if enableReputationLearning (ShadowOSIntelligence.config this)
       && bool_decide (AIReputationLearner.model (reputationLearner this) ≠ [])
    then nan else 50%float.
Proof.
  intros this. unfold predictReputation.
  destruct (enableReputationLearning (ShadowOSIntelligence.config this)); [|done].
  unfold AIReputationLearner.predict.
  rewrite andb_false_r. cbn [negb andb AIReputationLearner.score fst].
  pose proof (facadeRun_model calls (new config now now')) as Hkeys. fold this in Hkeys.
  destruct (AIReputationLearner.model (reputationLearner this)) as [|[key weight] weights]
    eqn:Hmodel.
  - done.
  - rewrite bool_decide_eq_true_2 by done.
    apply (model_predict_nan _ _ key); [apply list_elem_of_here|].
    apply feature_of_pattern. apply Hkeys; [|apply list_elem_of_here].
    intros key' Hkey'. by apply elem_of_nil in Hkey'.
Qed.

(** X29.  Nothing the facade has learnt changes its fraud assessments: the
    patterns [learnFromPayments] stores are never read, the assessment being
    made in private mode. *)
Theorem facade_assessFraud_unlearnt (config : option PartialConfig) (now now' : number)
    (calls : list FacadeCall) (payment : FraudDetector.PaymentData) :
  (assessFraud payment (facadeRun calls (new config now now'))).1
  = (assessFraud payment (new config now now')).1.
Proof.
  generalize (new config now now'). intros this.
  pose proof (facadeRun_frame calls this) as Hframe.
  unfold facade_frame in Hframe. injection Hframe as _ _ _ Hconfig _ _.
  unfold assessFraud. rewrite Hconfig.
  destruct (negb (enableFraudDetection (ShadowOSIntelligence.config this))); [done|].
  unfold FraudDetector.assessRisk, FraudDetector.extractFeatures. done.
Qed.

End Facade.
